(** * gosnowflake: the retrying HTTP executor (retry.go)

    A shallow embedding of the retry layer of the driver: the
    decorrelated-jitter backoff, the URL mutators applied between
    attempts, the classifier of transport errors and the [execute] loop
    itself, followed by the properties established about them. *)

From Stdlib Require Import ZArith Lia Ascii Bool DecimalString.
From stdpp Require Import gmap strings list fin_maps sorting.

Local Open Scope Z_scope.

(** ** Outcomes

    A Go call either returns or panics (a failed run-time check such as a
    nil dereference or an invalid argument to a library function). *)

Inductive outcome (A : Type) : Type :=
| Ok (a : A)
| Panic (msg : string).

Arguments Ok {A} a.
Arguments Panic {A} msg.

Definition obind {A B} (m : outcome A) (f : A -> outcome B) : outcome B :=
  match m with
  | Ok a => f a
  | Panic msg => Panic msg
  end.

(** ** time.Duration: a signed 64-bit count of nanoseconds *)

Module Duration.

Definition minInt64 : Z := - 2 ^ 63.
Definition maxInt64 : Z := 2 ^ 63 - 1.

(** Two's complement wrap-around of int64 arithmetic. *)
Definition wrap (x : Z) : Z := (x + 2 ^ 63) mod 2 ^ 64 - 2 ^ 63.

Definition add (a b : Z) : Z := wrap (a + b).
Definition sub (a b : Z) : Z := wrap (a - b).
Definition mul (a b : Z) : Z := wrap (a * b).
Definition neg (a : Z) : Z := wrap (- a).
(** Go's integer division truncates toward zero. *)
Definition div (a b : Z) : Z := wrap (Z.quot a b).

Definition Second : Z := 1000000000.

Definition inRange (x : Z) : Prop := minInt64 <= x <= maxInt64.

End Duration.

(** ** The shared random source

    [math/rand] is outside the repository. The source is an oracle of raw
    draws with a cursor; [Int63n] follows its documented contract: it
    panics for [n <= 0] and otherwise returns a value of [[0, n)]
    obtained from the next raw draw. Every value of [[0, n)] is returned
    for some oracle. *)

Record Rand : Type := mkRand { draws : nat -> Z; cursor : nat }.

Definition Int63 (r : Rand) : Z * Rand :=
  (draws r (cursor r) mod 2 ^ 63, mkRand (draws r) (S (cursor r))).

Definition Int63n (n : Z) (r : Rand) : outcome (Z * Rand) :=
  if n <=? 0 then Panic "invalid argument to Int63n"
  else let '(v, r') := Int63 r in Ok (v mod n, r').

(** The oracle whose every raw draw is [k]. *)
Definition constRand (k : Z) : Rand := mkRand (fun _ => k) 0.

(** ** Backoff: decorrelated jitter *)

Record waitAlgo : Type := mkWaitAlgo {
  base : Z;  (* base wait time *)
  cap : Z    (* maximum wait time *)
}.

(** Modelled from the spec: [durationMin] is declared outside the files at
    hand; the backoff takes [min(cap, ...)]. *)
Definition durationMin (d1 d2 : Z) : Z := Z.min d1 d2.

Definition randSecondDuration (n : Z) (r : Rand) : outcome (Z * Rand) :=
  obind (Int63n (Duration.div n Duration.Second) r)
        (fun '(v, r') => Ok (Duration.mul v Duration.Second, r')).

(** [decorr] holds the mutex of the wait algorithm for its whole body; the
    lock only serialises the draws and is not part of the state here. *)
Definition decorr (w : waitAlgo) (attempt : Z) (sleep : Z) (r : Rand)
  : outcome (Z * Rand) :=
  let t := Duration.sub (Duration.mul 3 sleep) (base w) in
  if 0 <? t then
    obind (randSecondDuration t r)
          (fun '(d, r') => Ok (durationMin (cap w) (Duration.add d (base w)), r'))
  else if t <? 0 then
    obind (randSecondDuration (Duration.neg t) r)
          (fun '(d, r') =>
             Ok (durationMin (cap w) (Duration.add d (Duration.mul 3 sleep)), r'))
  else Ok (base w, r).

Definition defaultWaitAlgo : waitAlgo :=
  mkWaitAlgo (5 * Duration.Second) (160 * Duration.Second).

(** ** Strings

    Go strings are byte sequences; [string] (a list of 8-bit [ascii]) is
    the same data. The functions below are the ones of package [strings]
    that the driver calls. *)

Definition HasPrefix (s prefix : string) : bool := String.prefix prefix s.

Definition HasSuffix (s suffix : string) : bool :=
  (String.length suffix <=? String.length s)%nat
  && String.eqb
       (String.substring (String.length s - String.length suffix)
                         (String.length suffix) s)
       suffix.

(** [Contains s c] for a one-byte substring. *)
Fixpoint Contains (s : string) (c : ascii) : bool :=
  match s with
  | EmptyString => false
  | String a s' => Ascii.eqb a c || Contains s' c
  end.

(** [Cut s sep] for a one-byte separator: the text before the first
    separator, the text after it, and whether it was found. *)
Fixpoint Cut (s : string) (sep : ascii) : string * string * bool :=
  match s with
  | EmptyString => (EmptyString, EmptyString, false)
  | String a s' =>
      if Ascii.eqb a sep then (EmptyString, s', true)
      else let '(before, after, found) := Cut s' sep in
           (String a before, after, found)
  end.

(** [strconv.Itoa] and [strconv.FormatInt(_, 10)]. *)
Definition Itoa (n : Z) : string := NilZero.string_of_int (Z.to_int n).

(** ** Errors

    The values of Go's [error] interface that the retry layer tells
    apart, with the text their [Error()] method renders. The driver's
    own error and the x509 errors are formatted outside these files and
    carry their rendered text. *)

Inductive error : Type :=
| DeadlineExceeded                                  (* context.DeadlineExceeded *)
| Canceled                                          (* context.Canceled *)
| SnowflakeError (Number : Z) (text : string)       (* *SnowflakeError *)
| CertificateInvalidError (text : string)           (* x509.CertificateInvalidError *)
| UnknownAuthorityError (text : string)             (* x509.UnknownAuthorityError *)
| URLError (Op URL : string) (Err : error)          (* *url.Error *)
| OpError (Op Net : string) (Source Addr : option string) (Err : error)
                                                    (* *net.OpError *)
| DNSError (Err Name Server : string)               (* *net.DNSError *)
| EscapeError (s : string)                          (* url.EscapeError *)
| errorString (text : string).                      (* errors.New, fmt.Errorf *)

Definition dquote : string := String (ascii_of_nat 34) EmptyString.

Fixpoint Error (e : error) : string :=
  match e with
  | DeadlineExceeded => "context deadline exceeded"
  | Canceled => "context canceled"
  | SnowflakeError _ text => text
  | CertificateInvalidError text => text
  | UnknownAuthorityError text => text
  | URLError op u err =>
      (* "%s %q: %s"; the quoting leaves printable text as it is *)
      op +:+ " " +:+ dquote +:+ u +:+ dquote +:+ ": " +:+ Error err
  | OpError op net source addr err =>
      let s := op in
      let s := if String.eqb net "" then s else s +:+ " " +:+ net in
      let s := match source with Some a => s +:+ " " +:+ a | None => s end in
      let s := match addr with
               | Some a =>
                   (match source with Some _ => s +:+ "->" | None => s +:+ " " end)
                   +:+ a
               | None => s
               end in
      s +:+ ": " +:+ Error err
  | DNSError err name server =>
      let s := "lookup " +:+ name in
      let s := if String.eqb server "" then s else s +:+ " on " +:+ server in
      s +:+ ": " +:+ err
  | EscapeError s => "invalid URL escape " +:+ dquote +:+ s +:+ dquote
  | errorString text => text
  end.

(** ** URL query strings (package net/url) *)

Definition ishex (c : ascii) : bool :=
  let n := nat_of_ascii c in
  ((48 <=? n) && (n <=? 57) || (97 <=? n) && (n <=? 102)
   || (65 <=? n) && (n <=? 70))%nat.

Definition unhex (c : ascii) : nat :=
  let n := nat_of_ascii c in
  if ((48 <=? n) && (n <=? 57))%nat then n - 48
  else if ((97 <=? n) && (n <=? 102))%nat then n - 97 + 10
  else if ((65 <=? n) && (n <=? 70))%nat then n - 65 + 10
  else 0%nat.

(** [shouldEscape c encodeQueryComponent]: only the unreserved bytes stay. *)
Definition shouldEscape (c : ascii) : bool :=
  let n := nat_of_ascii c in
  if ((97 <=? n) && (n <=? 122) || (65 <=? n) && (n <=? 90)
      || (48 <=? n) && (n <=? 57))%nat then false
  else if (Ascii.eqb c "-" || Ascii.eqb c "_" || Ascii.eqb c "."
           || Ascii.eqb c "~") then false
  else true.

Definition upperhex (n : nat) : ascii :=
  match String.get n "0123456789ABCDEF" with
  | Some c => c
  | None => "0"%char
  end.

Fixpoint QueryEscape (s : string) : string :=
  match s with
  | EmptyString => EmptyString
  | String c s' =>
      if shouldEscape c then
        if Ascii.eqb c " " then String "+" (QueryEscape s')
        else String "%" (String (upperhex (nat_of_ascii c / 16))
                           (String (upperhex (nat_of_ascii c mod 16))
                              (QueryEscape s')))
      else String c (QueryEscape s')
  end.

(** [QueryUnescape]: Go validates every escape in a first pass and
    decodes in a second; a single pass that fails at the first invalid
    escape returns the same result. The error carries the offending
    text, at most three bytes. *)
Fixpoint QueryUnescape (s : string) : string + error :=
  match s with
  | EmptyString => inl EmptyString
  | String c s' =>
      if Ascii.eqb c "%" then
        match s' with
        | String a (String b s'') =>
            if ishex a && ishex b then
              match QueryUnescape s'' with
              | inl r => inl (String (ascii_of_nat (unhex a * 16 + unhex b)) r)
              | inr e => inr e
              end
            else inr (EscapeError (String c (String a (String b EmptyString))))
        | _ => inr (EscapeError s)
        end
      else
        match QueryUnescape s' with
        | inl r => inl (String (if Ascii.eqb c "+" then " "%char else c) r)
        | inr e => inr e
        end
  end.

(** [url.Values] is a Go map from keys to the list of their values. *)
Abbreviation Values := (gmap string (list string)).

Definition Get (v : Values) (key : string) : string :=
  match v !! key with
  | Some (x :: _) => x
  | _ => EmptyString
  end.

Definition Has (v : Values) (key : string) : bool :=
  match v !! key with
  | Some _ => true
  | None => false
  end.

Definition Add (v : Values) (key value : string) : Values :=
  <[key := default [] (v !! key) ++ [value]]> v.

Definition Del (v : Values) (key : string) : Values := delete key v.

(** [Encode]: the keys in sorted order, each with its values in order,
    written into a buffer as [key=value] pairs joined by [&]. *)
Definition encodeValue (keyEscaped : string) (buf : string) (value : string)
  : string :=
  (if String.eqb buf "" then buf else buf +:+ "&")
    +:+ keyEscaped +:+ "=" +:+ QueryEscape value.

Definition encodeKey (v : Values) (buf : string) (k : string) : string :=
  fold_left (encodeValue (QueryEscape k)) (default [] (v !! k)) buf.

Definition sortedKeys (v : Values) : list string :=
  merge_sort String.le (map_to_list v).*1.

Definition Encode (v : Values) : string :=
  fold_left (encodeKey v) (sortedKeys v) EmptyString.

(** [parseQuery]: the loop runs while [query] is not empty and every turn
    consumes at least one byte, so the length of the query bounds the
    number of turns. Invalid pairs are skipped and the first error (or
    the last semicolon error) is reported with what was parsed. *)
Fixpoint parseQuery (fuel : nat) (m : Values) (err : option error)
  (query : string) : Values * option error :=
  match fuel with
  | O => (m, err)
  | S fuel' =>
      if String.eqb query "" then (m, err)
      else
        let '(key, query', _) := Cut query "&" in
        if Contains key ";" then
          parseQuery fuel' m
            (Some (errorString "invalid semicolon separator in query")) query'
        else if String.eqb key "" then parseQuery fuel' m err query'
        else
          let '(key, value, _) := Cut key "=" in
          match QueryUnescape key with
          | inr err1 =>
              parseQuery fuel' m
                (match err with None => Some err1 | Some _ => err end) query'
          | inl key =>
              match QueryUnescape value with
              | inr err1 =>
                  parseQuery fuel' m
                    (match err with None => Some err1 | Some _ => err end) query'
              | inl value => parseQuery fuel' (Add m key value) err query'
              end
          end
  end.

Definition ParseQuery (query : string) : Values * option error :=
  parseQuery (String.length query) ∅ None query.

(** ** URLs and the heap of URL objects

    The executor and its mutators all hold pointers to URL objects and
    write through them. A pointer is a location of the heap; a location
    the heap does not hold is a nil pointer. *)

Record URL : Type := mkURL { Path : string; RawQuery : string }.

Definition loc : Type := nat.
Abbreviation heap := (gmap nat URL).

Definition nilDeref : string :=
  "invalid memory address or nil pointer dereference".

Definition deref {A} (h : heap) (p : loc) (k : URL -> outcome A) : outcome A :=
  match h !! p with
  | Some u => k u
  | None => Panic nilDeref
  end.

Definition setRawQuery (h : heap) (p : loc) (q : string) : heap :=
  match h !! p with
  | Some u => <[p := mkURL (Path u) q]> h
  | None => h
  end.

(** [u.Query()] drops the parse error. *)
Definition Query (u : URL) : Values := fst (ParseQuery (RawQuery u)).

Definition requestGUIDKey : string := "request_guid".
Definition retryCountKey : string := "retryCount".
Definition retryReasonKey : string := "retryReason".
Definition clientStartTimeKey : string := "clientStartTime".
Definition requestIDKey : string := "requestId".

(** Modelled from the spec: the configuration object is declared outside
    the files at hand; it exposes whether retry-reason reporting is
    enabled, a switch that is unset, true or false. *)
Inductive ConfigBool : Type := configBoolNotSet | ConfigBoolTrue | ConfigBoolFalse.

Record Config : Type := mkConfig { IncludeRetryReason : ConfigBool }.

Definition ConfigBool_eqb (a b : ConfigBool) : bool :=
  match a, b with
  | configBoolNotSet, configBoolNotSet
  | ConfigBoolTrue, ConfigBoolTrue
  | ConfigBoolFalse, ConfigBoolFalse => true
  | _, _ => false
  end.

(** ** HTTP requests and responses *)

(** A request keeps the URL it was built for (the executor passes the
    rendering of its URL to [req]) and the headers set on it; header
    names are kept as written. *)
Record Request : Type := mkRequest {
  Method : string;
  ReqURL : URL;                 (* the URL the request was built for *)
  Body : string;
  Header : gmap string string
}.

Record Response : Type := mkResponse {
  StatusCode : Z;
  RespBody : string
}.

Definition StatusOK : Z := 200.

(** What an observer of one [execute] call sees, in order. *)
Inductive event : Type :=
| Sent (u : URL)          (* a request for this URL was handed to the transport *)
| Generated (id : string) (* the UUID generator produced this identifier *)
| Backoff (d : Z)         (* the backoff computed this sleep *)
| Slept (d : Z).          (* the loop waited on the timer for this long *)

(** How one phase of a turn ends: [execute] returns, or the turn goes on. *)
Inductive flow (A : Type) : Type :=
| Return (res : option Response) (err : option error)
| Next (a : A).

Arguments Return {A} res err.
Arguments Next {A} a.

Section Executor.

(** The world outside the executor: the transport, the clock, the
    cancellation context and the UUID generator all live in [Env]. *)
Context {Env : Type}.

(** [NewUUID().String()], declared outside these files. *)
Variable NewUUID : Env -> string * Env.

(** Constants declared outside these files. *)
Variable queryRequestPath : string.
Variable ErrOCSPStatusRevoked : Z.

(** [runtime.GOOS]. *)
Variable GOOS : string.

(** [time.Duration.String], used to render the timeout messages. *)
Variable DurationString : Z -> string.

(** The state one call of [execute] works on. *)
Record World : Type := mkWorld {
  mem : heap;
  rnd : Rand;          (* the process-wide random source *)
  env : Env;
  trace : list event   (* observations, oldest first *)
}.

Definition setEnv (w : World) (e : Env) : World :=
  mkWorld (mem w) (rnd w) e (trace w).

Definition setMem (w : World) (h : heap) : World :=
  mkWorld h (rnd w) (env w) (trace w).

Definition emit (w : World) (ev : event) : World :=
  mkWorld (mem w) (rnd w) (env w) (trace w ++ [ev]).

(** *** The URL mutators *)

Definition isQueryRequest (u : URL) : bool := HasPrefix (Path u) queryRequestPath.

Inductive requestGUIDReplacer : Type :=
| transientReplace (urlPtr : loc)
| requestGUIDReplace (urlPtr : loc) (urlValues : Values).

Definition newRequestGUIDReplace (urlPtr : loc) (h : heap)
  : outcome requestGUIDReplacer :=
  deref h urlPtr (fun u =>
    let '(values, err) := ParseQuery (RawQuery u) in
    match err with
    | Some _ => Ok (transientReplace urlPtr)       (* nop if invalid query *)
    | None =>
        if (String.length (Get values requestGUIDKey) =? 0)%nat
        then Ok (transientReplace urlPtr)          (* nop if no request_guid *)
        else Ok (requestGUIDReplace urlPtr values)
    end).

Definition replace (rep : requestGUIDReplacer) (w : World)
  : outcome (loc * requestGUIDReplacer * World) :=
  match rep with
  | transientReplace p => Ok (p, rep, w)
  | requestGUIDReplace p values =>
      let '(id, e') := NewUUID (env w) in
      let w' := emit (setEnv w e') (Generated id) in
      let values' := Add (Del values requestGUIDKey) requestGUIDKey id in
      deref (mem w) p (fun _ =>
        Ok (p, requestGUIDReplace p values',
            setMem w' (setRawQuery (mem w) p (Encode values'))))
  end.

Inductive retryCountUpdater : Type :=
| transientRetryCountUpdater (urlPtr : loc)
| retryCountUpdate (urlPtr : loc) (urlValues : Values).

Definition newRetryCountUpdater (urlPtr : loc) (h : heap)
  : outcome retryCountUpdater :=
  deref h urlPtr (fun u =>
    if negb (isQueryRequest u) then Ok (transientRetryCountUpdater urlPtr)
    else
      let '(values, err) := ParseQuery (RawQuery u) in
      match err with
      | Some _ => Ok (transientRetryCountUpdater urlPtr)
      | None => Ok (retryCountUpdate urlPtr values)
      end).

Definition retryCount_replaceOrAdd (upd : retryCountUpdater) (retry : Z)
  (h : heap) : outcome (loc * retryCountUpdater * heap) :=
  match upd with
  | transientRetryCountUpdater p => Ok (p, upd, h)
  | retryCountUpdate p values =>
      let values' := Add (Del values retryCountKey) retryCountKey (Itoa retry) in
      deref h p (fun _ =>
        Ok (p, retryCountUpdate p values', setRawQuery h p (Encode values')))
  end.

Inductive retryReasonUpdater : Type :=
| transientRetryReasonUpdater (url : loc)
| retryReasonUpdate (url : loc).

Definition newRetryReasonUpdater (url : loc) (cfg : option Config) (h : heap)
  : outcome retryReasonUpdater :=
  deref h url (fun u =>
    if negb (isQueryRequest u) then Ok (transientRetryReasonUpdater url)
    else
      match cfg with
      | Some c =>
          if ConfigBool_eqb (IncludeRetryReason c) ConfigBoolFalse
          then Ok (transientRetryReasonUpdater url)
          else Ok (retryReasonUpdate url)
      | None => Ok (retryReasonUpdate url)
      end).

Definition retryReason_replaceOrAdd (upd : retryReasonUpdater) (reason : Z)
  (h : heap) : outcome (loc * heap) :=
  match upd with
  | transientRetryReasonUpdater p => Ok (p, h)
  | retryReasonUpdate p =>
      deref h p (fun u =>
        let query := Add (Del (Query u) retryReasonKey) retryReasonKey (Itoa reason) in
        Ok (p, setRawQuery h p (Encode query)))
  end.

Definition ensureClientStartTimeIsSet (url : loc) (clientStartTime : string)
  (h : heap) : outcome (loc * heap) :=
  deref h url (fun u =>
    if negb (isQueryRequest u) then Ok (url, h)
    else
      let query := Query u in
      if Has query clientStartTimeKey then Ok (url, h)
      else
        let query := Add query clientStartTimeKey clientStartTime in
        Ok (url, setRawQuery h url (Encode query))).

(** *** The classifier of transport errors

    Returns whether to stop retrying, and the error to surface. *)

Definition isRevoked (e : error) : bool :=
  match e with
  | SnowflakeError number _ => number =? ErrOCSPStatusRevoked
  | _ => false
  end.

Definition isCertificateInvalid (e : error) : bool :=
  match e with CertificateInvalidError _ => true | _ => false end.

Definition isUnknownAuthority (e : error) : bool :=
  match e with UnknownAuthorityError _ => true | _ => false end.

Definition isRetryableError (err : error) : bool * error :=
  match err with
  | URLError _ _ inner =>
      match inner with
      | DeadlineExceeded | Canceled => (true, inner)   (* context cancel or timeout *)
      | _ =>
          if isRevoked inner then (true, err)
          else if isCertificateInvalid inner then (true, err)
          else if isUnknownAuthority inner then (true, err)
          else
            let errString := Error inner in
            if String.eqb GOOS "darwin" && HasPrefix errString "x509:"
               && HasSuffix errString "certificate is expired"
            then (true, err)
            else (false, err)
      end
  | _ => (false, err)
  end.

(** *** The executor *)

Record retryHTTP : Type := mkRetryHTTP {
  (* ctx: the race between the backoff timer and [ctx.Done()];
     [Some e] when the context wins, with [e] its [Err()] *)
  awaitOrDone : Z -> Env -> option error * Env;
  client : option Request -> Env -> (option Response * option error) * Env;
  req : string -> URL -> string -> Env -> (option Request * option error) * Env;
  method : string;
  fullURL : loc;
  headers : gmap string string;
  bodyCreator : Env -> (string * option error) * Env;
  timeout : Z;
  raise4XX : bool;
  currentTime : Env -> Z * Env;   (* currentTimeProvider *)
  cfg : option Config
}.

(** The variables of [execute] that live across turns of its loop;
    [urlOf] is the field [r.fullURL], which the loop reassigns. The
    result variable [res] is overwritten by every send before it is
    read, so each turn carries its own. *)
Record locals : Type := mkLocals {
  urlOf : loc;
  totalTimeout : Z;
  retryCounter : Z;
  sleepTime : Z;
  guidReplacer : option requestGUIDReplacer;
  countUpdater : option retryCountUpdater;
  reasonUpdater : option retryReasonUpdater
}.

(** Lines 293-329: build the body and the request, send it, and decide
    from the error or the status whether the loop ends here. On [Next]
    the response and the transport error of this attempt are kept.
    Logging, attaching the context to the request and closing the body
    of a response that is retried leave no mark on this state. *)
Definition attempt (r : retryHTTP) (l : locals) (w : World)
  : outcome (flow (option Response * option error) * World) :=
  let '(body, err, e1) := bodyCreator r (env w) in
  match err with
  | Some err => Ok (Return None (Some err), setEnv w e1)
  | None =>
      deref (mem w) (urlOf l) (fun u =>
        let '(rq, err, e2) := req r (method r) u body e1 in
        match err with
        | Some err => Ok (Return None (Some err), setEnv w e2)
        | None =>
            (* [req] can be nil in tests; setting a header on it panics *)
            obind
              (match rq with
               | Some q =>
                   Ok (Some (mkRequest (Method q) (ReqURL q) (Body q)
                               (headers r ∪ Header q)))
               | None =>
                   if decide (headers r = ∅) then Ok None else Panic nilDeref
               end)
              (fun rq =>
                 let '(res, err, e3) := client r rq e2 in
                 let w3 := emit (setEnv w e3) (Sent u) in
                 match err with
                 | Some err =>
                     let '(doExit, err') := isRetryableError err in
                     if doExit then Ok (Return res (Some err'), w3)
                     else Ok (Next (res, Some err), w3)
                 | None =>
                     match res with
                     | None => Panic nilDeref   (* res.StatusCode on nil *)
                     | Some rs =>
                         if (StatusCode rs =? StatusOK)
                            || raise4XX r && (400 <=? StatusCode rs)
                               && (StatusCode rs <? 500)
                               && negb (StatusCode rs =? 429)
                         then Ok (Return res None, w3)   (* break *)
                         else Ok (Next (res, None), w3)
                     end
                 end)
        end)
  end.

(** Lines 331-346: the backoff and the total-timeout budget. *)
Definition backoff (r : retryHTTP) (l : locals) (res : option Response)
  (err : option error) (w : World) : outcome (flow locals * World) :=
  obind (decorr defaultWaitAlgo (retryCounter l) (sleepTime l) (rnd w))
    (fun '(sleep, rnd') =>
       let w' := emit (mkWorld (mem w) rnd' (env w) (trace w)) (Backoff sleep) in
       let l' := mkLocals (urlOf l) (totalTimeout l) (retryCounter l) sleep
                   (guidReplacer l) (countUpdater l) (reasonUpdater l) in
       if 0 <? totalTimeout l then
         let total := Duration.sub (totalTimeout l) sleep in
         let l' := mkLocals (urlOf l) total (retryCounter l) sleep
                     (guidReplacer l) (countUpdater l) (reasonUpdater l) in
         if total <=? 0 then
           match err, res with
           | Some err, _ => Ok (Return None (Some err), w')
           | None, Some rs =>
               Ok (Return None
                     (Some (errorString
                        ("timeout after " +:+ DurationString (timeout r)
                         +:+ ". HTTP Status: " +:+ Itoa (StatusCode rs)
                         +:+ ". Hanging?"))), w')
           | None, None =>
               Ok (Return None
                     (Some (errorString
                        ("timeout after " +:+ DurationString (timeout r)
                         +:+ ". Hanging?"))), w')
           end
         else Ok (Next l', w')
       else Ok (Next l', w')).

(** Lines 347-364: count the retry and run the four mutators, each
    built on first use and kept for the rest of the call. *)
Definition mutate (r : retryHTTP) (clientStartTime : string) (l : locals)
  (res : option Response) (w : World) : outcome (locals * World) :=
  let retryCounter' := Duration.wrap (retryCounter l + 1) in
  obind (match guidReplacer l with
         | None => newRequestGUIDReplace (urlOf l) (mem w)
         | Some g => Ok g
         end) (fun g =>
  obind (replace g w) (fun '(p1, g', w1) =>
  obind (match countUpdater l with
         | None => newRetryCountUpdater p1 (mem w1)
         | Some c => Ok c
         end) (fun c =>
  obind (retryCount_replaceOrAdd c retryCounter' (mem w1)) (fun '(p2, c', h2) =>
  obind (match reasonUpdater l with
         | None => newRetryReasonUpdater p2 (cfg r) h2
         | Some u => Ok u
         end) (fun u =>
  let retryReason := match res with Some rs => StatusCode rs | None => 0 end in
  obind (retryReason_replaceOrAdd u retryReason h2) (fun '(p3, h3) =>
  obind (ensureClientStartTimeIsSet p3 clientStartTime h3) (fun '(p4, h4) =>
  Ok (mkLocals p4 (totalTimeout l) retryCounter' (sleepTime l)
        (Some g') (Some c') (Some u),
      setMem w1 h4)))))))).

(** Lines 368-375: wait for the timer unless the context is done first. *)
Definition await (r : retryHTTP) (l : locals) (res : option Response)
  (w : World) : flow locals * World :=
  let '(done, e') := awaitOrDone r (sleepTime l) (env w) in
  match done with
  | Some ctxErr => (Return res (Some ctxErr), setEnv w e')
  | None => (Next l, emit (setEnv w e') (Slept (sleepTime l)))
  end.

(** One turn of the loop of [execute]. *)
Definition turn (r : retryHTTP) (clientStartTime : string) (l : locals)
  (w : World) : outcome (flow locals * World) :=
  obind (attempt r l w) (fun '(f, w1) =>
  match f with
  | Return res err => Ok (Return res err, w1)
  | Next (res, err) =>
      obind (backoff r l res err w1) (fun '(f, w2) =>
      match f with
      | Return res' err' => Ok (Return res' err', w2)
      | Next l2 =>
          obind (mutate r clientStartTime l2 res w2) (fun '(l3, w3) =>
          Ok (await r l3 res w3))
      end)
  end).

(** The loop has no bound of its own; [fuel] bounds the number of turns
    and [None] reports that the call was still retrying. *)
Fixpoint loop (fuel : nat) (r : retryHTTP) (clientStartTime : string)
  (l : locals) (w : World)
  : outcome (option (option Response * option error) * World) :=
  match fuel with
  | O => Ok (None, w)
  | S fuel' =>
      obind (turn r clientStartTime l w) (fun '(f, w') =>
      match f with
      | Return res err => Ok (Some (res, err), w')
      | Next l' => loop fuel' r clientStartTime l' w'
      end)
  end.

Definition initLocals (r : retryHTTP) : locals :=
  mkLocals (fullURL r) (timeout r) 0 0 None None None.

Definition execute (fuel : nat) (r : retryHTTP) (w : World)
  : outcome (option (option Response * option error) * World) :=
  let '(now, e') := currentTime r (env w) in
  loop fuel r (Itoa now) (initLocals r) (setEnv w e').

End Executor.

(** ** Session heartbeat

    Modelled from the spec: [heartbeatMain] and the keep-alive payload are
    declared outside the files at hand (only the test of the heartbeat is
    there). The keep-alive call goes through the retrying POST; its
    outcome is a transport failure or a response read as success, as the
    session-expired signal, as a malformed body, or as another
    application-level error with the numeric code of its payload. On
    session expiry the renewal capability is invoked. *)

Module Heartbeat.

Inductive keepAlive : Type :=
| Success
| SessionExpired
| Malformed (parseError : error)
| AppError (code : Z).

(** The driver error of the heartbeat with the payload code it carries. *)
Inductive failure : Type :=
| Surfaced (e : error)        (* transport, renewal or parse error, as it is *)
| DriverError (Number : Z) (payloadCode : Z).

Section Main.

Context {Env : Type}.
Variable ErrFailedToHeartbeat : Z.

Record heartbeat : Type := mkHeartbeat {
  FuncPost : Env -> (error + keepAlive) * Env;
  FuncRenewSession : Env -> option error * Env
}.

Definition heartbeatMain (hb : heartbeat) (e : Env) : option failure * Env :=
  let '(resp, e1) := FuncPost hb e in
  match resp with
  | inl err => (Some (Surfaced err), e1)
  | inr Success => (None, e1)
  | inr SessionExpired =>
      let '(renewErr, e2) := FuncRenewSession hb e1 in
      match renewErr with
      | None => (None, e2)
      | Some err => (Some (Surfaced err), e2)
      end
  | inr (Malformed parseError) => (Some (Surfaced parseError), e1)
  | inr (AppError code) => (Some (DriverError ErrFailedToHeartbeat code), e1)
  end.

End Main.

End Heartbeat.

(** ** Vocabulary of the properties *)

(** The plain connection failures of the transport: a refused connection
    is a [net.OpError] of a dial, a reset is one of a read or a write,
    and a failed lookup is a [net.DNSError]. *)
Definition isPlainConnectionError (e : error) : bool :=
  match e with
  | OpError op _ _ _ _ =>
      String.eqb op "dial" || String.eqb op "read" || String.eqb op "write"
  | DNSError _ _ _ => true
  | _ => false
  end.


(** The send of a turn goes through: the body and the request are built
    for the URL [u] the executor points to, and the transport answers
    with [res] and [err], leaving the environment [e3]. *)
Definition transportAnswers {Env : Type} (r : @retryHTTP Env) (l : locals)
  (w : @World Env) (u : URL) (res : option Response) (err : option error)
  (e3 : Env) : Prop :=
  exists body e1 rq e2,
    bodyCreator r (env w) = (body, None, e1)
    /\ mem w !! urlOf l = Some u
    /\ req r (method r) u body e1 = (Some rq, None, e2)
    /\ client r (Some (mkRequest (Method rq) (ReqURL rq) (Body rq)
                         (headers r ∪ Header rq))) e2
       = (res, err, e3).

(** The client-start-time setter applied once per timestamp, in order. *)
Fixpoint ensureMany (queryRequestPath : string) (url : loc)
  (stamps : list string) (h : heap) : outcome (loc * heap) :=
  match stamps with
  | [] => Ok (url, h)
  | ts :: rest =>
      obind (ensureClientStartTimeIsSet queryRequestPath url ts h)
            (fun '(p, h') => ensureMany queryRequestPath p rest h')
  end.

(** One application of one of the three stamping mutators, built for the
    URL as [execute] builds it on first use. *)
Inductive mutation : Type :=
| StampRetryCount (retry : Z)
| StampRetryReason (cfg : option Config) (reason : Z)
| StampClientStartTime (clientStartTime : string).

Definition applyMutation (queryRequestPath : string) (m : mutation)
  (url : loc) (h : heap) : outcome (loc * heap) :=
  match m with
  | StampRetryCount retry =>
      obind (newRetryCountUpdater queryRequestPath url h) (fun c =>
      obind (retryCount_replaceOrAdd c retry h) (fun '(p, _, h') => Ok (p, h')))
  | StampRetryReason cfg reason =>
      obind (newRetryReasonUpdater queryRequestPath url cfg h) (fun c =>
      retryReason_replaceOrAdd c reason h)
  | StampClientStartTime ts => ensureClientStartTimeIsSet queryRequestPath url ts h
  end.

Fixpoint applyMutations (queryRequestPath : string) (ms : list mutation)
  (url : loc) (h : heap) : outcome (loc * heap) :=
  match ms with
  | [] => Ok (url, h)
  | m :: rest =>
      obind (applyMutation queryRequestPath m url h)
            (fun '(p, h') => applyMutations queryRequestPath rest p h')
  end.

(** The shape of an encoded query: one [key=value] piece per pair, the
    pieces joined by [&]. *)
Definition piece (kv : string * string) : string :=
  QueryEscape kv.1 +:+ String "=" (QueryEscape kv.2).

Fixpoint joinPieces (l : list (string * string)) : string :=
  match l with
  | [] => EmptyString
  | [kv] => piece kv
  | kv :: rest => piece kv +:+ String "&" (joinPieces rest)
  end.

(** The pairs of the values under the given keys, in order. *)
Fixpoint pairsOf (v : Values) (keys : list string) : list (string * string) :=
  match keys with
  | [] => []
  | k :: ks => map (pair k) (default [] (v !! k)) ++ pairsOf v ks
  end.

Definition addPair (m : Values) (kv : string * string) : Values :=
  Add m kv.1 kv.2.

Definition encodePair (buf : string) (kv : string * string) : string :=
  encodeValue (QueryEscape kv.1) buf kv.2.

(** The request identifier a URL carries, and what a trace shows of the
    identifiers: those sent, in order, and those generated, in order. *)
Definition requestGUIDOf (u : URL) : string := Get (Query u) requestGUIDKey.

Fixpoint sentGUIDs (t : list event) : list string :=
  match t with
  | [] => []
  | Sent u :: t' => requestGUIDOf u :: sentGUIDs t'
  | _ :: t' => sentGUIDs t'
  end.

Fixpoint generatedIds (t : list event) : list string :=
  match t with
  | [] => []
  | Generated id :: t' => id :: generatedIds t'
  | _ :: t' => generatedIds t'
  end.

(** Every request of the trace carries the expected identifier: the
    first one [expected], each later one the identifier generated since
    the request before it. *)
Fixpoint retriesCarry (expected : option string) (t : list event) : Prop :=
  match t with
  | [] => True
  | Generated id :: t' => retriesCarry (Some id) t'
  | Sent u :: t' => expected = Some (requestGUIDOf u) /\ retriesCarry None t'
  | _ :: t' => retriesCarry expected t'
  end.


(** ** Test doubles

    A scripted transport in the manner of the driver's unit tests: the
    environment counts the sends and the identifiers drawn; the transport
    answers the n-th send with the n-th entry of its script and with
    [final] once the script is used up. *)

Module Fake.

Record env : Type := mkEnv { sends : nat; ids : nat }.

Definition NewUUID (e : env) : string * env :=
  ("uuid-" +:+ Itoa (Z.of_nat (ids e)), mkEnv (sends e) (S (ids e))).

Definition queryRequestPath : string := "/queries/v1/query-request".
Definition ErrOCSPStatusRevoked : Z := 269006.

Definition DurationString (d : Z) : string :=
  Itoa (d / Duration.Second) +:+ "s".

Definition answer (code : Z) : option Response * option error :=
  (Some (mkResponse code ""), None).

Definition refused : error :=
  URLError "Post" "https://host/session"
    (OpError "dial" "tcp" None (Some "10.0.0.1:443")
       (errorString "connect: connection refused")).

Definition transport (script : list (option Response * option error))
  (final : option Response * option error) (rq : option Request) (e : env)
  : option Response * option error * env :=
  (nth (sends e) script final, mkEnv (S (sends e)) (ids e)).

(** An executor on the URL at location 0, never cancelled. *)
Definition executor (script : list (option Response * option error))
  (final : option Response * option error) (timeout : Z) (raise4XX : bool)
  : @retryHTTP env :=
  mkRetryHTTP (fun _ e => (None, e)) (transport script final)
    (fun m u b e => (Some (mkRequest m u b ∅), None, e))
    "POST" 0%nat ∅ (fun e => (EmptyString, None, e)) timeout raise4XX
    (fun e => (1700000000, e)) None.

Definition world (path query : string) (r : Rand) : @World env :=
  mkWorld {[0%nat := mkURL path query]} r (mkEnv 0 0) [].

Definition run (fuel : nat) (x : @retryHTTP env) (w : @World env)
  : outcome (option (option Response * option error) * @World env) :=
  execute NewUUID queryRequestPath ErrOCSPStatusRevoked "linux"
    DurationString fuel x w.

End Fake.

(** ** Building an executor (lines 235-278)

    The builders write one field of the executor and hand it back. *)

Section Builders.

Context {Env : Type}.

(** [emptyBodyCreator], declared outside these files. *)
Variable emptyBodyCreator : Env -> (string * option error) * Env.

Definition newRetryHTTP (ctx : Z -> Env -> option error * Env)
  (client : option Request -> Env -> (option Response * option error) * Env)
  (req : string -> URL -> string -> Env -> (option Request * option error) * Env)
  (fullURL : loc) (headers : gmap string string) (timeout : Z)
  (currentTimeProvider : Env -> Z * Env) (cfg : option Config)
  : @retryHTTP Env :=
  mkRetryHTTP ctx client req "GET" fullURL headers emptyBodyCreator timeout
    false currentTimeProvider cfg.

Definition doRaise4XX (r : @retryHTTP Env) (raise : bool) : @retryHTTP Env :=
  mkRetryHTTP (awaitOrDone r) (client r) (req r) (method r) (fullURL r)
    (headers r) (bodyCreator r) (timeout r) raise (currentTime r) (cfg r).

Definition doPost (r : @retryHTTP Env) : @retryHTTP Env :=
  mkRetryHTTP (awaitOrDone r) (client r) (req r) "POST" (fullURL r)
    (headers r) (bodyCreator r) (timeout r) (raise4XX r) (currentTime r) (cfg r).

Definition setBodyCreator (r : @retryHTTP Env)
  (creator : Env -> (string * option error) * Env) : @retryHTTP Env :=
  mkRetryHTTP (awaitOrDone r) (client r) (req r) (method r) (fullURL r)
    (headers r) creator (timeout r) (raise4XX r) (currentTime r) (cfg r).

Definition setBody (r : @retryHTTP Env) (body : string) : @retryHTTP Env :=
  setBodyCreator r (fun e => (body, None, e)).

End Builders.

(** ** Further vocabulary *)

(** The values a key has in a written query: a key without values is not
    written. *)
Definition present (v : Values) (k : string) : option (list string) :=
  match v !! k with
  | Some (x :: vals) => Some (x :: vals)
  | _ => None
  end.

Definition isContextError (e : error) : bool :=
  match e with DeadlineExceeded | Canceled => true | _ => false end.

(** The test the classifier makes on the text of the cause. *)
Definition looksExpired (GOOS : string) (e : error) : bool :=
  String.eqb GOOS "darwin" && HasPrefix (Error e) "x509:"
  && HasSuffix (Error e) "certificate is expired".

(** The URL objects the mutators of a call hold. *)
Definition guidPtr (g : requestGUIDReplacer) : loc :=
  match g with
  | transientReplace p => p
  | requestGUIDReplace p _ => p
  end.

Definition countPtr (c : retryCountUpdater) : loc :=
  match c with
  | transientRetryCountUpdater p => p
  | retryCountUpdate p _ => p
  end.

Definition reasonPtr (c : retryReasonUpdater) : loc :=
  match c with
  | transientRetryReasonUpdater p => p
  | retryReasonUpdate p => p
  end.

(** Every mutator built so far holds the URL of the executor. *)
Definition mutatorsHold (l : locals) : Prop :=
  (forall g, guidReplacer l = Some g -> guidPtr g = urlOf l)
  /\ (forall c, countUpdater l = Some c -> countPtr c = urlOf l)
  /\ (forall c, reasonUpdater l = Some c -> reasonPtr c = urlOf l).

(** The retry-count updater applied once per number, in order. *)
Fixpoint stampCounts (upd : retryCountUpdater) (retries : list Z) (h : heap)
  : outcome (retryCountUpdater * heap) :=
  match retries with
  | [] => Ok (upd, h)
  | retry :: rest =>
      obind (retryCount_replaceOrAdd upd retry h)
            (fun '(_, upd', h') => stampCounts upd' rest h')
  end.

(** The order of the observations of a call: a request, then the backoff
    computed for it, then the identifier generated for the retry, if any,
    then the sleep. *)
Inductive phase : Type :=
| Idle                (* a request comes next *)
| Posted              (* a request was sent; its backoff comes next *)
| Backed (d : Z).     (* the backoff gave [d]; the sleep comes next *)

Fixpoint disciplined (s : phase) (t : list event) : Prop :=
  match t with
  | [] => True
  | ev :: t' =>
      match s, ev with
      | Idle, Sent _ => disciplined Posted t'
      | Posted, Backoff d =>
          (exists k, d = k * Duration.Second /\ 0 <= k <= 160)
          /\ disciplined (Backed d) t'
      | Backed d, Generated _ => disciplined (Backed d) t'
      | Backed d, Slept d' => d' = d /\ disciplined Idle t'
      | _, _ => False
      end
  end.


(** The sleeps a trace shows, in order, and the number of its requests. *)
Fixpoint sleeps (t : list event) : list Z :=
  match t with
  | [] => []
  | Slept d :: t' => d :: sleeps t'
  | _ :: t' => sleeps t'
  end.

Fixpoint sentCount (t : list event) : nat :=
  match t with
  | [] => 0
  | Sent _ :: t' => S (sentCount t')
  | _ :: t' => sentCount t'
  end.

(** The mutation pass of [execute] run once per retry, in order, each
    with the response of its attempt. *)
Fixpoint mutateMany {Env : Type} (NewUUID : Env -> string * Env)
  (queryRequestPath : string) (r : @retryHTTP Env) (clientStartTime : string)
  (responses : list (option Response)) (l : locals) (w : @World Env)
  : outcome (locals * @World Env) :=
  match responses with
  | [] => Ok (l, w)
  | res :: rest =>
      obind (mutate NewUUID queryRequestPath r clientStartTime l res w)
            (fun '(l', w') =>
               mutateMany NewUUID queryRequestPath r clientStartTime rest l' w')
  end.

(** The state of a call against the scripted transport after [i] sends. *)
Definition scripted (i : nat) (l : locals) (w : @World Fake.env) : Prop :=
  Fake.sends (env w) = i
  /\ (exists u, mem w !! urlOf l = Some u)
  /\ mutatorsHold l
  /\ (exists k, sleepTime l = k * Duration.Second /\ 0 <= k <= 160)
  /\ totalTimeout l <= 0.

(** * Properties *)

(** ** 64-bit arithmetic *)

Lemma wrap_id x : Duration.inRange x -> Duration.wrap x = x.
Proof.
  unfold Duration.inRange, Duration.wrap, Duration.minInt64, Duration.maxInt64.
  intros H. rewrite Z.mod_small; lia.
Qed.

Lemma wrap_inRange x : Duration.inRange (Duration.wrap x).
Proof.
  unfold Duration.inRange, Duration.wrap, Duration.minInt64, Duration.maxInt64.
  pose proof (Z.mod_pos_bound (x + 2 ^ 63) (2 ^ 64)). lia.
Qed.

Ltac exact64 :=
  repeat match goal with
    | |- context [Duration.wrap ?x] =>
        rewrite (wrap_id x)
          by (unfold Duration.inRange, Duration.minInt64, Duration.maxInt64,
              Duration.Second in *; lia)
    end.

(** ** The backoff *)

Lemma Int63_range r : 0 <= fst (Int63 r) < 2 ^ 63.
Proof. unfold Int63; simpl. apply Z.mod_pos_bound. lia. Qed.

Lemma Int63n_spec n r :
  0 < n ->
  exists v, Int63n n r = Ok (v, snd (Int63 r)) /\ 0 <= v < n.
Proof.
  intros Hn. unfold Int63n.
  destruct (n <=? 0) eqn:E; [apply Z.leb_le in E; lia|].
  destruct (Int63 r) as [v r'] eqn:Er. simpl.
  exists (v mod n). split; [reflexivity|]. apply Z.mod_pos_bound. lia.
Qed.

(** A draw of whole seconds below [n] stays a full second under [n]. *)
Lemma randSecondDuration_spec n r :
  Duration.Second <= n <= Duration.maxInt64 ->
  exists k, randSecondDuration n r = Ok (k * Duration.Second, snd (Int63 r))
            /\ 0 <= k /\ k * Duration.Second + Duration.Second <= n.
Proof.
  intros [Hlo Hhi]. unfold randSecondDuration, Duration.div.
  assert (Hs : Duration.Second = 1000000000) by reflexivity.
  assert (Hm : Duration.maxInt64 = 9223372036854775807) by reflexivity.
  rewrite Z.quot_div_nonneg by lia.
  pose proof (Z.div_mod n Duration.Second ltac:(lia)) as Hdm.
  pose proof (Z.mod_pos_bound n Duration.Second ltac:(lia)) as Hmb.
  assert (Hq : 1 <= n / Duration.Second) by (apply Z.div_le_lower_bound; lia).
  rewrite wrap_id
    by (unfold Duration.inRange, Duration.minInt64; nia).
  destruct (Int63n_spec (n / Duration.Second) r ltac:(lia)) as (v & Hv & Hr).
  rewrite Hv. simpl. exists v. unfold Duration.mul.
  rewrite wrap_id by (unfold Duration.inRange, Duration.minInt64; nia).
  repeat split; [lia|nia].
Qed.

(** [decorr] on the inputs where neither the draw nor the arithmetic
    fails: it returns, and the sleep lies in [[0, cap]]. *)
Lemma decorr_returns (w : waitAlgo) (attempt sleep : Z) (r : Rand) :
  0 <= base w <= cap w -> cap w <= Duration.maxInt64 ->
  0 <= sleep -> 3 * sleep <= Duration.maxInt64 ->
  3 * sleep = base w \/ Duration.Second <= Z.abs (3 * sleep - base w) ->
  exists d r', decorr w attempt sleep r = Ok (d, r') /\ 0 <= d <= cap w
    /\ (3 * sleep <> base w ->
        exists k, d = Z.min (cap w) (k * Duration.Second + Z.min (base w) (3 * sleep))
                  /\ 0 <= k
                  /\ k * Duration.Second + Duration.Second <= Z.abs (3 * sleep - base w)).
Proof.
  intros Hb Hc Hs H3 Hgap.
  assert (Hm : Duration.maxInt64 = 9223372036854775807) by reflexivity.
  assert (Hsec : Duration.Second = 1000000000) by reflexivity.
  unfold decorr, Duration.mul, Duration.sub.
  rewrite (wrap_id (3 * sleep)) by (unfold Duration.inRange, Duration.minInt64; lia).
  rewrite (wrap_id (3 * sleep - base w))
    by (unfold Duration.inRange, Duration.minInt64; lia).
  destruct (0 <? 3 * sleep - base w) eqn:Epos.
  - apply Z.ltb_lt in Epos.
    destruct (randSecondDuration_spec (3 * sleep - base w) r ltac:(lia))
      as (k & Hk & Hk0 & Hk1).
    rewrite Hk. simpl. unfold Duration.add, durationMin.
    rewrite wrap_id by (unfold Duration.inRange, Duration.minInt64; lia).
    eexists _, _. split; [reflexivity|]. split; [lia|].
    intros _. exists k. split; [f_equal|]; lia.
  - apply Z.ltb_ge in Epos.
    destruct (3 * sleep - base w <? 0) eqn:Eneg.
    + apply Z.ltb_lt in Eneg. unfold Duration.neg.
      rewrite (wrap_id (- (3 * sleep - base w)))
        by (unfold Duration.inRange, Duration.minInt64; lia).
      destruct (randSecondDuration_spec (- (3 * sleep - base w)) r ltac:(lia))
        as (k & Hk & Hk0 & Hk1).
      rewrite Hk. simpl. unfold Duration.add, durationMin.
      rewrite wrap_id by (unfold Duration.inRange, Duration.minInt64; lia).
      eexists _, _. split; [reflexivity|]. split; [lia|].
      intros _. exists k. split; [f_equal|]; lia.
    + apply Z.ltb_ge in Eneg. eexists _, _. split; [reflexivity|].
      split; [lia|]. intros Hne. lia.
Qed.

(** On a whole number of seconds up to the cap, which is all the loop of
    [execute] ever passes, the default backoff returns such a sleep
    again. *)
Lemma decorr_default_seconds (attempt k : Z) (r : Rand) :
  0 <= k <= 160 ->
  exists k' r', decorr defaultWaitAlgo attempt (k * Duration.Second) r
                = Ok (k' * Duration.Second, r')
                /\ 0 <= k' <= 160.
Proof.
  intros Hk.
  assert (Hsec : Duration.Second = 1000000000) by reflexivity.
  assert (Hm : Duration.maxInt64 = 9223372036854775807) by reflexivity.
  destruct (decorr_returns defaultWaitAlgo attempt (k * Duration.Second) r)
    as (d & r' & Hd & Hr & Hform); simpl; try lia.
  destruct Hform as (j & Hj & Hj0 & _); [simpl; lia|].
  simpl in Hj.
  exists (Z.min 160 (j + Z.min 5 (3 * k))), r'. rewrite Hd. split; [|lia].
  f_equal. f_equal. lia.
Qed.

(** C1 (as amended): for every attempt number and every previous sleep
    [>= 0] whose triple fits 64 bits and is either equal to the base or at
    least one second away from it, [decorr] returns, and the next sleep
    lies in [[0, cap]]. (Within a second of a third of the base the draw
    is made from an empty range and fails.) *)
Theorem decorr_in_range (w : waitAlgo) (attempt sleep : Z) (r : Rand) :
  0 <= base w <= cap w -> cap w <= Duration.maxInt64 ->
  0 <= sleep -> 3 * sleep <= Duration.maxInt64 ->
  3 * sleep = base w \/ Duration.Second <= Z.abs (3 * sleep - base w) ->
  exists d r', decorr w attempt sleep r = Ok (d, r') /\ 0 <= d <= cap w.
Proof.
  intros Hb Hc Hs H3 Hgap.
  destruct (decorr_returns w attempt sleep r Hb Hc Hs H3 Hgap)
    as (d & r' & Hd & Hr & _).
  exists d, r'. split; assumption.
Qed.

Lemma decorr_in_range_witness :
  exists d r', decorr defaultWaitAlgo 3 (2 * Duration.Second) (constRand 7)
               = Ok (d, r') /\ 0 <= d <= cap defaultWaitAlgo.
Proof.
  apply (decorr_in_range defaultWaitAlgo 3 (2 * Duration.Second) (constRand 7));
    vm_compute; try (split; discriminate); try discriminate.
  right. discriminate.
Defined.

(** C1 (as stated) fails: one nanosecond above a third of the base the
    default backoff does not return. *)
Lemma decorr_fails_near_third_of_base :
  ~ (exists d r', decorr defaultWaitAlgo 0 1666666667 (constRand 0) = Ok (d, r')
                  /\ 0 <= d <= cap defaultWaitAlgo).
Proof. intros (d & r' & H & _). vm_compute in H. discriminate. Qed.

(** C6 (as amended): with no previous sleep the backoff draws a whole
    number of seconds below the base, so it never returns the base; it
    returns exactly the base when three times the previous sleep equals
    the base. *)
Theorem decorr_zero_sleep (w : waitAlgo) (attempt : Z) (r : Rand) :
  Duration.Second <= base w <= cap w -> cap w <= Duration.maxInt64 ->
  (exists k r', decorr w attempt 0 r = Ok (k * Duration.Second, r')
                /\ 0 <= k /\ k * Duration.Second < base w)
  /\ (forall sleep, 0 <= sleep -> 3 * sleep = base w ->
                    decorr w attempt sleep r = Ok (base w, r)).
Proof.
  intros Hb Hc.
  assert (Hsec : Duration.Second = 1000000000) by reflexivity.
  assert (Hm : Duration.maxInt64 = 9223372036854775807) by reflexivity.
  split.
  - destruct (decorr_returns w attempt 0 r) as (d & r' & Hd & Hr & Hform);
      try lia.
    destruct Hform as (k & Hk & Hk0 & Hk1); [lia|].
    exists k, r'. rewrite Hd. repeat split; try lia. f_equal. f_equal. lia.
  - intros sleep Hs H3. unfold decorr, Duration.mul, Duration.sub.
    rewrite (wrap_id (3 * sleep))
      by (unfold Duration.inRange, Duration.minInt64; lia).
    rewrite H3, Z.sub_diag. reflexivity.
Qed.

Lemma decorr_zero_sleep_witness :
  (exists k r', decorr defaultWaitAlgo 0 0 (constRand 3) = Ok (k * Duration.Second, r')
                /\ 0 <= k /\ k * Duration.Second < base defaultWaitAlgo)
  /\ (forall sleep, 0 <= sleep -> 3 * sleep = base defaultWaitAlgo ->
                    decorr defaultWaitAlgo 0 sleep (constRand 3)
                    = Ok (base defaultWaitAlgo, constRand 3)).
Proof.
  apply (decorr_zero_sleep defaultWaitAlgo 0 (constRand 3));
    vm_compute; try (split; discriminate); discriminate.
Defined.

(** C6 (as stated) fails: the default backoff applied to a previous sleep
    of zero returns zero seconds for a draw of zero, not the base. *)
Lemma decorr_zero_sleep_is_not_base :
  ~ (exists r', decorr defaultWaitAlgo 0 0 (constRand 0)
                = Ok (base defaultWaitAlgo, r')).
Proof. intros (r' & H). vm_compute in H. discriminate. Qed.

(** ** The classifier *)

Section Classifier.

Variable ErrOCSPStatusRevoked : Z.
Variable GOOS : string.

Lemma plain_connection_error_text (e : error) :
  isPlainConnectionError e = true ->
  HasPrefix (Error e) "x509:" = false
  /\ isRevoked ErrOCSPStatusRevoked e = false
  /\ isCertificateInvalid e = false /\ isUnknownAuthority e = false
  /\ e <> DeadlineExceeded /\ e <> Canceled.
Proof.
  destruct e as [| | | | | | op net source addr err | err name server | |];
    simpl; try discriminate; intros H.
  - repeat split; try discriminate.
    apply orb_true_iff in H as [H|H]; [apply orb_true_iff in H as [H|H]|];
      apply String.eqb_eq in H; subst op;
      destruct (String.eqb net ""), source, addr; reflexivity.
  - repeat split; try discriminate.
    destruct (String.eqb server ""); reflexivity.
Qed.


(** C5: a transport wrapper around the driver's certificate-revoked error
    stops the retries and is surfaced as it is; a transport wrapper
    around a plain connection error (refused, reset, failed lookup) never
    does, on any platform. *)
Theorem classifier_revoked_stops_connection_errors_retry
  (op u text : string) (e : error) :
  isRetryableError ErrOCSPStatusRevoked GOOS
    (URLError op u (SnowflakeError ErrOCSPStatusRevoked text))
  = (true, URLError op u (SnowflakeError ErrOCSPStatusRevoked text))
  /\ (isPlainConnectionError e = true ->
      isRetryableError ErrOCSPStatusRevoked GOOS (URLError op u e)
      = (false, URLError op u e)).
Proof.
  split.
  - simpl. rewrite Z.eqb_refl. reflexivity.
  - intros H.
    destruct (plain_connection_error_text e H) as (Hp & Hr & Hc & Hu & Hd & Hcn).
    unfold isRetryableError. rewrite Hr, Hc, Hu, Hp, andb_false_r. simpl.
    destruct e; try reflexivity; congruence.
Qed.

End Classifier.

Lemma classifier_revoked_stops_connection_errors_retry_witness :
  isRetryableError 269006 "darwin"
    (URLError "Post" "https://host/session" (SnowflakeError 269006 "revoked"))
  = (true, URLError "Post" "https://host/session" (SnowflakeError 269006 "revoked"))
  /\ isRetryableError 269006 "darwin" Fake.refused = (false, Fake.refused).
Proof.
  destruct (classifier_revoked_stops_connection_errors_retry 269006 "darwin"
              "Post" "https://host/session" "revoked"
              (OpError "dial" "tcp" None (Some "10.0.0.1:443")
                 (errorString "connect: connection refused"))) as [H1 H2].
  split; [exact H1 | apply H2; reflexivity].
Defined.

(** ** One turn of the executor *)

Section Turn.

Context {Env : Type}.
Variable NewUUID : Env -> string * Env.
Variable queryRequestPath : string.
Variable ErrOCSPStatusRevoked : Z.
Variable GOOS : string.
Variable DurationString : Z -> string.

Implicit Types (r : @retryHTTP Env) (l : locals) (w : @World Env).

(** The status test that ends the loop with the response in hand. *)
Lemma attempt_response r l w u rs e3 :
  transportAnswers r l w u (Some rs) None e3 ->
  attempt ErrOCSPStatusRevoked GOOS r l w
  = Ok (if (StatusCode rs =? StatusOK)
           || raise4XX r && (400 <=? StatusCode rs) && (StatusCode rs <? 500)
              && negb (StatusCode rs =? 429)
        then Return (Some rs) None
        else Next (Some rs, None),
        emit (setEnv w e3) (Sent u)).
Proof.
  intros (body & e1 & rq & e2 & Hb & Hu & Hq & Hc).
  unfold attempt, deref. rewrite Hb, Hu, Hq. simpl. rewrite Hc.
  destruct (_ || _); reflexivity.
Qed.

Lemma attempt_transport_error r l w u res err e3 :
  transportAnswers r l w u res (Some err) e3 ->
  attempt ErrOCSPStatusRevoked GOOS r l w
  = Ok (if fst (isRetryableError ErrOCSPStatusRevoked GOOS err)
        then Return res (Some (snd (isRetryableError ErrOCSPStatusRevoked GOOS err)))
        else Next (res, Some err),
        emit (setEnv w e3) (Sent u)).
Proof.
  intros (body & e1 & rq & e2 & Hb & Hu & Hq & Hc).
  unfold attempt, deref. rewrite Hb, Hu, Hq. simpl. rewrite Hc.
  destruct (isRetryableError _ _ err) as [[] err']; reflexivity.
Qed.

(** A turn goes on to the backoff only with a transport error the
    classifier lets through, or with a response; never empty-handed. *)
Lemma attempt_Next_inv r l w res err w1 :
  attempt ErrOCSPStatusRevoked GOOS r l w = Ok (Next (res, err), w1) ->
  (exists e, err = Some e
             /\ fst (isRetryableError ErrOCSPStatusRevoked GOOS e) = false)
  \/ (err = None /\ exists rs, res = Some rs /\ StatusCode rs <> StatusOK).
Proof.
  unfold attempt, deref.
  destruct (bodyCreator r (env w)) as [[body [berr|]] e1]; [discriminate|].
  destruct (mem w !! urlOf l) as [u|]; [|discriminate].
  destruct (req r (method r) u body e1) as [[rq [qerr|]] e2]; [discriminate|].
  destruct rq as [q|]; simpl.
  - destruct (client r _ e2) as [[res0 [cerr|]] e3].
    + destruct (isRetryableError _ _ cerr) as [[] err'] eqn:Ecl; intros H;
        inversion H; subst. left. exists cerr. rewrite Ecl. auto.
    + destruct res0 as [rs|]; [|discriminate].
      destruct (StatusCode rs =? StatusOK) eqn:Eok; simpl; [discriminate|].
      destruct (_ && _); intros H; inversion H; subst.
      right. split; [reflexivity|]. exists rs. split; [reflexivity|].
      apply Z.eqb_neq. exact Eok.
  - destruct (decide (headers r = ∅)); simpl; [|discriminate].
    destruct (client r None e2) as [[res0 [cerr|]] e3].
    + destruct (isRetryableError _ _ cerr) as [[] err'] eqn:Ecl; intros H;
        inversion H; subst. left. exists cerr. rewrite Ecl. auto.
    + destruct res0 as [rs|]; [|discriminate].
      destruct (StatusCode rs =? StatusOK) eqn:Eok; simpl; [discriminate|].
      destruct (_ && _); intros H; inversion H; subst.
      right. split; [reflexivity|]. exists rs. split; [reflexivity|].
      apply Z.eqb_neq. exact Eok.
Qed.


(** C4: with raise4XX on, a response with a status in [[400, 500)]
    other than 429 ends the call in the very turn that received it: the
    response is returned without error, and nothing but the send was
    observed (no backoff, no sleep, no further send). A 429 is not
    returned: the turn goes on to the backoff. *)
Theorem raise4XX_returns_at_once (fuel : nat) (clientStartTime : string)
  r l w u rs e3 :
  raise4XX r = true ->
  400 <= StatusCode rs < 500 ->
  transportAnswers r l w u (Some rs) None e3 ->
  (StatusCode rs <> 429 ->
   loop NewUUID queryRequestPath ErrOCSPStatusRevoked GOOS DurationString
        (S fuel) r clientStartTime l w
   = Ok (Some (Some rs, None),
         mkWorld (mem w) (rnd w) e3 (trace w ++ [Sent u])))
  /\ (StatusCode rs = 429 ->
      attempt ErrOCSPStatusRevoked GOOS r l w
      = Ok (Next (Some rs, None), emit (setEnv w e3) (Sent u))).
Proof.
  intros Hraise Hrange Ht.
  pose proof (attempt_response _ _ _ _ _ _ Ht) as Ha. rewrite Hraise in Ha.
  assert (E400 : (400 <=? StatusCode rs) = true) by (apply Z.leb_le; lia).
  assert (E500 : (StatusCode rs <? 500) = true) by (apply Z.ltb_lt; lia).
  assert (E200 : (StatusCode rs =? StatusOK) = false)
    by (apply Z.eqb_neq; unfold StatusOK; lia).
  rewrite E400, E500, E200 in Ha. simpl in Ha.
  split; intros H429.
  - apply Z.eqb_neq in H429. rewrite H429 in Ha. simpl in Ha.
    simpl. unfold turn. rewrite Ha. reflexivity.
  - apply Z.eqb_eq in H429. rewrite H429 in Ha. exact Ha.
Qed.

Lemma backoff_exhausted r l res err w sleep rnd' :
  0 < totalTimeout l ->
  decorr defaultWaitAlgo (retryCounter l) (sleepTime l) (rnd w) = Ok (sleep, rnd') ->
  Duration.sub (totalTimeout l) sleep <= 0 ->
  backoff DurationString r l res err w
  = Ok (Return None
          (Some match err, res with
                | Some transportError, _ => transportError
                | None, Some rs =>
                    errorString
                      ("timeout after " +:+ DurationString (timeout r)
                       +:+ ". HTTP Status: " +:+ Itoa (StatusCode rs)
                       +:+ ". Hanging?")
                | None, None =>
                    errorString
                      ("timeout after " +:+ DurationString (timeout r)
                       +:+ ". Hanging?")
                end),
        mkWorld (mem w) rnd' (env w) (trace w ++ [Backoff sleep])).
Proof.
  intros Hpos Hd Hle. unfold backoff. rewrite Hd. simpl.
  apply Z.ltb_lt in Hpos. rewrite Hpos. apply Z.leb_le in Hle. rewrite Hle.
  destruct err, res; reflexivity.
Qed.

(** C3 (as amended): when a total timeout is configured and the budget
    left after subtracting the computed sleep is zero or below, the turn
    ends the call with no response and an error: the transport error of
    this attempt when the attempt failed with one, otherwise the timeout
    message carrying the HTTP status of this attempt's response. No
    mutator runs and no sleep is taken. *)
Theorem timeout_exhaustion_outcome (clientStartTime : string)
  r l w res err w1 sleep rnd' :
  attempt ErrOCSPStatusRevoked GOOS r l w = Ok (Next (res, err), w1) ->
  0 < totalTimeout l ->
  decorr defaultWaitAlgo (retryCounter l) (sleepTime l) (rnd w1)
  = Ok (sleep, rnd') ->
  Duration.sub (totalTimeout l) sleep <= 0 ->
  exists e,
    turn NewUUID queryRequestPath ErrOCSPStatusRevoked GOOS DurationString
         r clientStartTime l w
    = Ok (Return None (Some e),
          mkWorld (mem w1) rnd' (env w1) (trace w1 ++ [Backoff sleep]))
    /\ match err with
       | Some transportError => e = transportError
       | None =>
           exists rs, res = Some rs
             /\ e = errorString
                      ("timeout after " +:+ DurationString (timeout r)
                       +:+ ". HTTP Status: " +:+ Itoa (StatusCode rs)
                       +:+ ". Hanging?")
       end.
Proof.
  intros Ha Hpos Hd Hle. unfold turn. rewrite Ha. simpl.
  rewrite (backoff_exhausted r l res err w1 sleep rnd' Hpos Hd Hle). simpl.
  eexists. split; [reflexivity|].
  destruct (attempt_Next_inv _ _ _ _ _ _ Ha) as [(e & -> & _) | (-> & rs & -> & _)].
  - reflexivity.
  - exists rs. split; reflexivity.
Qed.

End Turn.


Lemma raise4XX_returns_at_once_witness :
  let x := Fake.executor [] (Fake.answer 403) 0 true in
  let w := Fake.world "/session/v1/login-request" "" (constRand 1) in
  Fake.run 1 x w
  = Ok (Some (Some (mkResponse 403 ""), None),
        mkWorld (mem w) (rnd w) (Fake.mkEnv 1 0)
          [Sent (mkURL "/session/v1/login-request" "")]).
Proof.
  intros x w.
  destruct (raise4XX_returns_at_once Fake.NewUUID Fake.queryRequestPath
              Fake.ErrOCSPStatusRevoked "linux" Fake.DurationString 0
              (Itoa 1700000000) x (initLocals x) w
              (mkURL "/session/v1/login-request" "") (mkResponse 403 "")
              (Fake.mkEnv 1 0)) as [H _].
  - reflexivity.
  - simpl. lia.
  - exists EmptyString, (Fake.mkEnv 0 0),
      (mkRequest "POST" (mkURL "/session/v1/login-request" "") EmptyString ∅),
      (Fake.mkEnv 0 0).
    repeat split.
  - apply H. simpl. discriminate.
Defined.

Lemma timeout_exhaustion_outcome_witness :
  let x := Fake.executor [] (Fake.answer 500) Duration.Second false in
  let w := Fake.world "/session/heartbeat" "" (constRand 1) in
  exists e w',
    turn Fake.NewUUID Fake.queryRequestPath Fake.ErrOCSPStatusRevoked "linux"
         Fake.DurationString x (Itoa 1700000000) (initLocals x) w
    = Ok (Return None (Some e), w')
    /\ e = errorString "timeout after 1s. HTTP Status: 500. Hanging?".
Proof.
  intros x w.
  destruct (timeout_exhaustion_outcome Fake.NewUUID Fake.queryRequestPath
              Fake.ErrOCSPStatusRevoked "linux" Fake.DurationString
              (Itoa 1700000000) x (initLocals x) w
              (Some (mkResponse 500 "")) None
              (emit (setEnv w (Fake.mkEnv 1 0)) (Sent (mkURL "/session/heartbeat" "")))
              Duration.Second (mkRand (fun _ => 1) 1))
    as (e & Ht & rs & Hrs & He).
  - reflexivity.
  - reflexivity.
  - reflexivity.
  - vm_compute. discriminate.
  - exists e. eexists. split; [exact Ht|].
    rewrite He. injection Hrs as <-. reflexivity.
Defined.

(** C3 (as stated) fails: with a budget of one second, a refused
    connection and a first sleep of one second, the call ends on the
    exhausted budget with the refused-connection error itself, not with
    the generic timeout description. *)
Lemma timeout_after_transport_error_is_not_hanging :
  let x := Fake.executor [] (None, Some Fake.refused) Duration.Second false in
  let w := Fake.world "/session/heartbeat" "" (constRand 1) in
  ~ (exists w', Fake.run 3 x w
                = Ok (Some (None,
                            Some (errorString
                                    ("timeout after "
                                     +:+ Fake.DurationString (timeout x)
                                     +:+ ". Hanging?"))), w'))
  /\ exists w', Fake.run 3 x w = Ok (Some (None, Some Fake.refused), w')
                /\ trace w' = [Sent (mkURL "/session/heartbeat" "");
                               Backoff Duration.Second].
Proof.
  intros x w. split.
  - intros (w' & H). vm_compute in H. discriminate.
  - eexists. split; vm_compute; reflexivity.
Qed.

(** ** The stamping mutators *)

Section Mutators.

Variable queryRequestPath : string.

(** C7: on a URL whose query already has the clientStartTime parameter
    the setter returns the same URL object and writes nothing, whatever
    the timestamp and however often it is applied; the value of the
    parameter is the one it had. *)
Theorem clientStartTime_is_never_overwritten (h : heap) (p : loc) (u : URL)
  (stamps : list string) :
  h !! p = Some u ->
  Has (Query u) clientStartTimeKey = true ->
  ensureMany queryRequestPath p stamps h = Ok (p, h)
  /\ forall ts, ensureClientStartTimeIsSet queryRequestPath p ts h = Ok (p, h).
Proof.
  intros Hp Hhas.
  assert (Hone : forall ts,
             ensureClientStartTimeIsSet queryRequestPath p ts h = Ok (p, h)).
  { intros ts. unfold ensureClientStartTimeIsSet, deref. rewrite Hp, Hhas.
    destruct (negb _); reflexivity. }
  split; [|exact Hone].
  induction stamps as [|ts rest IH]; simpl; [reflexivity|].
  rewrite Hone. simpl. exact IH.
Qed.

(** C10: for a URL whose path does not start with the query-request
    path, the retry-count and retry-reason updaters are built as their
    do-nothing variants, those return the URL object without writing, and
    so does the client-start-time setter: no sequence of the three
    mutators changes the URL, hence none adds a parameter. *)
Theorem non_query_urls_are_never_stamped (h : heap) (p : loc) (u : URL)
  (ms : list mutation) :
  h !! p = Some u ->
  isQueryRequest queryRequestPath u = false ->
  newRetryCountUpdater queryRequestPath p h = Ok (transientRetryCountUpdater p)
  /\ (forall cfg, newRetryReasonUpdater queryRequestPath p cfg h
                  = Ok (transientRetryReasonUpdater p))
  /\ (forall retry h', retryCount_replaceOrAdd (transientRetryCountUpdater p) retry h'
                       = Ok (p, transientRetryCountUpdater p, h'))
  /\ (forall reason h', retryReason_replaceOrAdd (transientRetryReasonUpdater p) reason h'
                        = Ok (p, h'))
  /\ applyMutations queryRequestPath ms p h = Ok (p, h).
Proof.
  intros Hp Hq.
  assert (Hc : newRetryCountUpdater queryRequestPath p h
               = Ok (transientRetryCountUpdater p))
    by (unfold newRetryCountUpdater, deref; rewrite Hp, Hq; reflexivity).
  assert (Hr : forall cfg, newRetryReasonUpdater queryRequestPath p cfg h
                           = Ok (transientRetryReasonUpdater p))
    by (intros cfg; unfold newRetryReasonUpdater, deref; rewrite Hp, Hq;
        reflexivity).
  repeat split; try assumption.
  induction ms as [|m rest IH]; simpl; [reflexivity|].
  destruct m as [retry | cfg reason | ts]; simpl.
  - rewrite Hc. simpl. exact IH.
  - rewrite Hr. simpl. exact IH.
  - unfold ensureClientStartTimeIsSet, deref. rewrite Hp, Hq. simpl. exact IH.
Qed.

End Mutators.

Lemma clientStartTime_is_never_overwritten_witness :
  ensureMany Fake.queryRequestPath 0%nat ["1"; "22"; "333"]
    {[0%nat := mkURL "/queries/v1/query-request" "clientStartTime=1700000000&x=1"]}
  = Ok (0%nat,
        {[0%nat := mkURL "/queries/v1/query-request" "clientStartTime=1700000000&x=1"]}).
Proof.
  apply (clientStartTime_is_never_overwritten Fake.queryRequestPath
           {[0%nat := mkURL "/queries/v1/query-request" "clientStartTime=1700000000&x=1"]}
           0%nat (mkURL "/queries/v1/query-request" "clientStartTime=1700000000&x=1")
           ["1"; "22"; "333"]).
  - reflexivity.
  - vm_compute. reflexivity.
Defined.

Lemma non_query_urls_are_never_stamped_witness :
  applyMutations Fake.queryRequestPath
    [StampRetryCount 1; StampRetryReason None 503; StampClientStartTime "1700000000";
     StampRetryCount 2]
    0%nat {[0%nat := mkURL "/session/heartbeat" "requestId=7"]}
  = Ok (0%nat, {[0%nat := mkURL "/session/heartbeat" "requestId=7"]}).
Proof.
  apply (non_query_urls_are_never_stamped Fake.queryRequestPath
           {[0%nat := mkURL "/session/heartbeat" "requestId=7"]} 0%nat
           (mkURL "/session/heartbeat" "requestId=7")).
  - reflexivity.
  - reflexivity.
Defined.

(** ** The heartbeat *)

(** C8: when the keep-alive is answered with the session-expired signal
    and the renewal succeeds, [heartbeatMain] returns no error; when it is
    answered with another application-level error, [heartbeatMain] returns
    the driver error numbered [ErrFailedToHeartbeat], carrying the numeric
    code of the payload. *)
Theorem heartbeat_renews_or_fails_to_heartbeat {Env : Type}
  (ErrFailedToHeartbeat : Z) (hb : @Heartbeat.heartbeat Env) (e e1 : Env) :
  (Heartbeat.FuncPost hb e = (inr Heartbeat.SessionExpired, e1) ->
   forall e2, Heartbeat.FuncRenewSession hb e1 = (None, e2) ->
              Heartbeat.heartbeatMain ErrFailedToHeartbeat hb e = (None, e2))
  /\ (forall code,
        Heartbeat.FuncPost hb e = (inr (Heartbeat.AppError code), e1) ->
        Heartbeat.heartbeatMain ErrFailedToHeartbeat hb e
        = (Some (Heartbeat.DriverError ErrFailedToHeartbeat code), e1)).
Proof.
  split.
  - intros Hp e2 Hr. unfold Heartbeat.heartbeatMain. rewrite Hp, Hr. reflexivity.
  - intros code Hp. unfold Heartbeat.heartbeatMain. rewrite Hp. reflexivity.
Qed.

Lemma heartbeat_renews_or_fails_to_heartbeat_witness :
  Heartbeat.heartbeatMain 269007
    (Heartbeat.mkHeartbeat (fun n : nat => (inr Heartbeat.SessionExpired, S n))
                           (fun n : nat => (None, S n))) 0%nat
  = (None, 2%nat)
  /\ Heartbeat.heartbeatMain 269007
       (Heartbeat.mkHeartbeat (fun n : nat => (inr (Heartbeat.AppError 390001), S n))
                              (fun n : nat => (None, S n))) 0%nat
     = (Some (Heartbeat.DriverError 269007 390001), 1%nat).
Proof.
  split.
  - apply (proj1 (heartbeat_renews_or_fails_to_heartbeat 269007
                    (Heartbeat.mkHeartbeat
                       (fun n : nat => (inr Heartbeat.SessionExpired, S n))
                       (fun n : nat => (None, S n))) 0%nat 1%nat));
      reflexivity.
  - apply (proj2 (heartbeat_renews_or_fails_to_heartbeat 269007
                    (Heartbeat.mkHeartbeat
                       (fun n : nat => (inr (Heartbeat.AppError 390001), S n))
                       (fun n : nat => (None, S n))) 0%nat 1%nat));
      reflexivity.
Defined.

(** ** Query strings: encoding and parsing are inverse *)

Lemma app_cons (c : ascii) (a b : string) : String c a +:+ b = String c (a +:+ b).
Proof. reflexivity. Qed.

Lemma app_empty_l (s : string) : EmptyString +:+ s = s.
Proof. reflexivity. Qed.

Lemma app_empty_r (s : string) : s +:+ EmptyString = s.
Proof. induction s as [|c s IH]; [reflexivity|]. rewrite app_cons, IH. reflexivity. Qed.

Lemma app_assoc_string (a b c : string) : (a +:+ b) +:+ c = a +:+ (b +:+ c).
Proof.
  induction a as [|x a IH]; [reflexivity|]. rewrite !app_cons, IH. reflexivity.
Qed.

Lemma length_app_string (a b : string) :
  String.length (a +:+ b) = (String.length a + String.length b)%nat.
Proof.
  induction a as [|x a IH]; [reflexivity|]. rewrite app_cons. simpl.
  rewrite IH. reflexivity.
Qed.

Lemma Contains_app (a b : string) (c : ascii) :
  Contains (a +:+ b) c = Contains a c || Contains b c.
Proof.
  induction a as [|x a IH]; [reflexivity|]. rewrite app_cons. simpl.
  rewrite IH, orb_assoc. reflexivity.
Qed.

Lemma Cut_absent (s : string) (sep : ascii) :
  Contains s sep = false -> Cut s sep = (s, EmptyString, false).
Proof.
  induction s as [|x s IH]; simpl; [reflexivity|]. intros H.
  apply orb_false_iff in H as [Hx Hs]. rewrite Hx, (IH Hs). reflexivity.
Qed.

Lemma Cut_first (a b : string) (sep : ascii) :
  Contains a sep = false -> Cut (a +:+ String sep b) sep = (a, b, true).
Proof.
  induction a as [|x a IH]; simpl; intros H.
  - rewrite ?app_empty_l. simpl. rewrite Ascii.eqb_refl. reflexivity.
  - apply orb_false_iff in H as [Hx Hs]. rewrite ?app_cons. simpl.
    rewrite Hx, (IH Hs). reflexivity.
Qed.

(** The bytes the escaping writes: unreserved bytes as they are, [+] for
    a space, and [%] with two upper-case hex digits for the rest. *)
Lemma unreserved_is_plain (c : ascii) :
  shouldEscape c = false ->
  Ascii.eqb c "%" = false /\ Ascii.eqb c "+" = false
  /\ Ascii.eqb c "&" = false /\ Ascii.eqb c "=" = false
  /\ Ascii.eqb c ";" = false.
Proof.
  destruct c as [[] [] [] [] [] [] [] []]; vm_compute; intros H;
    first [discriminate H | repeat split].
Qed.

Lemma hex_digits_decode (c : ascii) :
  ishex (upperhex (nat_of_ascii c / 16)) = true
  /\ ishex (upperhex (nat_of_ascii c mod 16)) = true
  /\ ascii_of_nat (unhex (upperhex (nat_of_ascii c / 16)) * 16
                   + unhex (upperhex (nat_of_ascii c mod 16))) = c.
Proof.
  destruct c as [[] [] [] [] [] [] [] []]; vm_compute; repeat split.
Qed.

Lemma hex_digit_is_plain (n : nat) (sep : ascii) :
  sep = "&"%char \/ sep = "="%char \/ sep = ";"%char ->
  Ascii.eqb (upperhex n) sep = false.
Proof.
  intros Hsep. unfold upperhex.
  do 16 (destruct n as [|n]; [destruct Hsep as [->|[->| ->]]; reflexivity|]).
  destruct Hsep as [->|[->| ->]]; reflexivity.
Qed.

Lemma QueryUnescape_percent (a b : ascii) (s : string) :
  ishex a = true -> ishex b = true ->
  QueryUnescape (String "%" (String a (String b s)))
  = match QueryUnescape s with
    | inl r => inl (String (ascii_of_nat (unhex a * 16 + unhex b)) r)
    | inr e => inr e
    end.
Proof.
  intros Ha Hb. change (QueryUnescape (String "%" (String a (String b s))))
    with (if ishex a && ishex b
          then match QueryUnescape s with
               | inl r => inl (String (ascii_of_nat (unhex a * 16 + unhex b)) r)
               | inr e => inr e
               end
          else inr (EscapeError (String "%" (String a (String b EmptyString))))).
  rewrite Ha, Hb. reflexivity.
Qed.

Lemma QueryUnescape_plain (c : ascii) (s : string) :
  Ascii.eqb c "%" = false ->
  QueryUnescape (String c s)
  = match QueryUnescape s with
    | inl r => inl (String (if Ascii.eqb c "+" then " "%char else c) r)
    | inr e => inr e
    end.
Proof.
  intros Hc. change (QueryUnescape (String c s))
    with (if Ascii.eqb c "%"
          then match s with
               | String a (String b s'') =>
                   if ishex a && ishex b then
                     match QueryUnescape s'' with
                     | inl r => inl (String (ascii_of_nat (unhex a * 16 + unhex b)) r)
                     | inr e => inr e
                     end
                   else inr (EscapeError (String c (String a (String b EmptyString))))
               | _ => inr (EscapeError (String c s))
               end
          else match QueryUnescape s with
               | inl r => inl (String (if Ascii.eqb c "+" then " "%char else c) r)
               | inr e => inr e
               end).
  rewrite Hc. reflexivity.
Qed.

Lemma QueryEscape_cons (c : ascii) (s : string) :
  QueryEscape (String c s)
  = if shouldEscape c then
      if Ascii.eqb c " " then String "+" (QueryEscape s)
      else String "%" (String (upperhex (nat_of_ascii c / 16))
                         (String (upperhex (nat_of_ascii c mod 16))
                            (QueryEscape s)))
    else String c (QueryEscape s).
Proof. reflexivity. Qed.

Lemma QueryUnescape_QueryEscape (s : string) :
  QueryUnescape (QueryEscape s) = inl s.
Proof.
  induction s as [|c s IH]; [reflexivity|]. rewrite QueryEscape_cons.
  destruct (shouldEscape c) eqn:Esc.
  - destruct (Ascii.eqb c " ") eqn:Esp.
    + apply Ascii.eqb_eq in Esp. subst c.
      rewrite QueryUnescape_plain by reflexivity. rewrite IH. reflexivity.
    + destruct (hex_digits_decode c) as (H1 & H2 & H3).
      rewrite QueryUnescape_percent by assumption. rewrite IH, H3. reflexivity.
  - destruct (unreserved_is_plain c Esc) as (Hp & Hplus & _).
    rewrite QueryUnescape_plain by assumption. rewrite IH, Hplus. reflexivity.
Qed.

Lemma QueryEscape_has_no_separator (s : string) (sep : ascii) :
  sep = "&"%char \/ sep = "="%char \/ sep = ";"%char ->
  Contains (QueryEscape s) sep = false.
Proof.
  intros Hsep. induction s as [|c s IH]; [reflexivity|].
  rewrite QueryEscape_cons.
  destruct (shouldEscape c) eqn:Esc.
  - destruct (Ascii.eqb c " ") eqn:Esp.
    + change (Contains (String "+" (QueryEscape s)) sep)
        with (Ascii.eqb "+" sep || Contains (QueryEscape s) sep).
      rewrite IH. destruct Hsep as [->|[->| ->]]; reflexivity.
    + change (Contains (String "%" (String (upperhex (nat_of_ascii c / 16))
                 (String (upperhex (nat_of_ascii c mod 16)) (QueryEscape s)))) sep)
        with (Ascii.eqb "%" sep
              || (Ascii.eqb (upperhex (nat_of_ascii c / 16)) sep
                  || (Ascii.eqb (upperhex (nat_of_ascii c mod 16)) sep
                      || Contains (QueryEscape s) sep))).
      rewrite IH, !hex_digit_is_plain by exact Hsep.
      destruct Hsep as [->|[->| ->]]; reflexivity.
  - destruct (unreserved_is_plain c Esc) as (_ & _ & Ha & He & Hs).
    change (Contains (String c (QueryEscape s)) sep)
      with (Ascii.eqb c sep || Contains (QueryEscape s) sep).
    rewrite IH. destruct Hsep as [->|[->| ->]]; rewrite ?Ha, ?He, ?Hs; reflexivity.
Qed.

Lemma piece_not_empty (kv : string * string) : String.eqb (piece kv) "" = false.
Proof.
  unfold piece. destruct (QueryEscape kv.1); reflexivity.
Qed.

Lemma piece_has_no_separator (kv : string * string) (sep : ascii) :
  sep = "&"%char \/ sep = ";"%char -> Contains (piece kv) sep = false.
Proof.
  intros Hsep. unfold piece. rewrite Contains_app.
  change (Contains (String "=" (QueryEscape kv.2)) sep)
    with (Ascii.eqb "=" sep || Contains (QueryEscape kv.2) sep).
  rewrite !QueryEscape_has_no_separator by tauto.
  destruct Hsep as [->| ->]; reflexivity.
Qed.

Lemma encodePair_piece (buf : string) (kv : string * string) :
  encodePair buf kv
  = if String.eqb buf "" then piece kv else buf +:+ String "&" (piece kv).
Proof.
  unfold encodePair, encodeValue, piece.
  destruct (String.eqb buf "") eqn:E.
  - apply String.eqb_eq in E. subst buf. reflexivity.
  - rewrite app_assoc_string. reflexivity.
Qed.

Lemma app_not_empty (a b : string) :
  String.eqb b "" = false -> String.eqb (a +:+ b) "" = false.
Proof.
  intros H. destruct a; [exact H|reflexivity].
Qed.

Lemma fold_encodePair_join (l : list (string * string)) (buf : string) :
  fold_left encodePair l buf
  = if String.eqb buf "" then joinPieces l
    else match l with
         | [] => buf
         | _ => buf +:+ String "&" (joinPieces l)
         end.
Proof.
  revert buf. induction l as [|kv l IH]; intros buf.
  - simpl. destruct (String.eqb buf "") eqn:E; [|reflexivity].
    apply String.eqb_eq in E. congruence.
  - change (fold_left encodePair (kv :: l) buf)
      with (fold_left encodePair l (encodePair buf kv)).
    rewrite IH, encodePair_piece.
    destruct (String.eqb buf "") eqn:E.
    + rewrite piece_not_empty. destruct l; reflexivity.
    + rewrite app_not_empty by reflexivity.
      destruct l as [|kv' l]; [reflexivity|].
      rewrite app_assoc_string. reflexivity.
Qed.

Lemma fold_encodeValue_pairs (k : string) (vals : list string) (buf : string) :
  fold_left (encodeValue (QueryEscape k)) vals buf
  = fold_left encodePair (map (pair k) vals) buf.
Proof.
  revert buf. induction vals as [|x vals IH]; intros buf; [reflexivity|].
  simpl. rewrite IH. reflexivity.
Qed.

Lemma fold_encodeKey_pairs (v : Values) (keys : list string) (buf : string) :
  fold_left (encodeKey v) keys buf = fold_left encodePair (pairsOf v keys) buf.
Proof.
  revert buf. induction keys as [|k keys IH]; intros buf; [reflexivity|].
  simpl. rewrite fold_left_app, IH. unfold encodeKey.
  rewrite fold_encodeValue_pairs. reflexivity.
Qed.

Lemma Encode_join (v : Values) : Encode v = joinPieces (pairsOf v (sortedKeys v)).
Proof.
  unfold Encode. rewrite fold_encodeKey_pairs, fold_encodePair_join. reflexivity.
Qed.

Lemma parseQuery_empty (fuel : nat) (m : Values) (err : option error) :
  parseQuery fuel m err EmptyString = (m, err).
Proof. destruct fuel; reflexivity. Qed.

(** One turn of the parsing loop on a well-formed first piece. *)
Lemma parseQuery_piece (fuel : nat) (m : Values) (err : option error)
  (kv : string * string) (rest : string) :
  Cut (piece kv +:+ rest) "&" = (piece kv, match rest with
                                           | EmptyString => EmptyString
                                           | String _ r => r
                                           end, negb (String.eqb rest "")) ->
  parseQuery (S fuel) m err (piece kv +:+ rest)
  = parseQuery fuel (Add m kv.1 kv.2) err
      match rest with EmptyString => EmptyString | String _ r => r end.
Proof.
  intros Hcut.
  change (parseQuery (S fuel) m err (piece kv +:+ rest))
    with (if String.eqb (piece kv +:+ rest) "" then (m, err)
          else
            let '(key, query', _) := Cut (piece kv +:+ rest) "&" in
            if Contains key ";" then
              parseQuery fuel m
                (Some (errorString "invalid semicolon separator in query")) query'
            else if String.eqb key "" then parseQuery fuel m err query'
            else
              let '(key, value, _) := Cut key "=" in
              match QueryUnescape key with
              | inr err1 =>
                  parseQuery fuel m
                    (match err with None => Some err1 | Some _ => err end) query'
              | inl key =>
                  match QueryUnescape value with
                  | inr err1 =>
                      parseQuery fuel m
                        (match err with None => Some err1 | Some _ => err end) query'
                  | inl value => parseQuery fuel (Add m key value) err query'
                  end
              end).
  assert (Hne : String.eqb (piece kv +:+ rest) "" = false).
  { pose proof (piece_not_empty kv) as Hp. destruct (piece kv); [discriminate|].
    reflexivity. }
  rewrite Hne, Hcut.
  rewrite piece_has_no_separator by tauto. rewrite piece_not_empty.
  unfold piece at 1. rewrite Cut_first
    by (apply QueryEscape_has_no_separator; tauto).
  rewrite !QueryUnescape_QueryEscape. reflexivity.
Qed.

Lemma parseQuery_join (l : list (string * string)) (fuel : nat) (m : Values) :
  (String.length (joinPieces l) <= fuel)%nat ->
  parseQuery fuel m None (joinPieces l) = (fold_left addPair l m, None).
Proof.
  revert fuel m. induction l as [|kv l IH]; intros fuel m Hfuel.
  - apply parseQuery_empty.
  - destruct l as [|kv' l].
    + simpl joinPieces in *. destruct fuel as [|fuel].
      * pose proof (piece_not_empty kv). destruct (piece kv); [discriminate|].
        simpl in Hfuel. lia.
      * rewrite <- (app_empty_r (piece kv)) at 1.
        rewrite parseQuery_piece.
        -- rewrite parseQuery_empty. reflexivity.
        -- rewrite app_empty_r. apply Cut_absent.
           apply piece_has_no_separator. tauto.
    + change (joinPieces (kv :: kv' :: l))
        with (piece kv +:+ String "&" (joinPieces (kv' :: l))) in *.
      rewrite length_app_string in Hfuel.
      change (String.length (String "&" (joinPieces (kv' :: l))))
        with (S (String.length (joinPieces (kv' :: l)))) in Hfuel.
      destruct fuel as [|fuel]; [lia|].
      rewrite parseQuery_piece.
      * rewrite IH by lia. reflexivity.
      * apply Cut_first. apply piece_has_no_separator. tauto.
Qed.

Lemma fold_addPair_values (k : string) (vals : list string) (m : Values) :
  fold_left addPair (map (pair k) vals) m
  = match vals with
    | [] => m
    | _ => <[k := default [] (m !! k) ++ vals]> m
    end.
Proof.
  revert m. induction vals as [|x vals IH]; intros m; [reflexivity|].
  change (fold_left addPair (map (pair k) (x :: vals)) m)
    with (fold_left addPair (map (pair k) vals) (Add m k x)).
  rewrite IH. unfold Add. destruct vals as [|y vals]; [reflexivity|].
  rewrite lookup_insert_eq, insert_insert_eq. simpl.
  rewrite <- app_assoc. reflexivity.
Qed.

Lemma lookup_fold_pairsOf (v : Values) (keys : list string) (m : Values)
  (j : string) :
  NoDup keys ->
  fold_left addPair (pairsOf v keys) m !! j
  = if decide (j ∈ keys) then
      match default [] (v !! j) with
      | [] => m !! j
      | vals => Some (default [] (m !! j) ++ vals)
      end
    else m !! j.
Proof.
  revert m. induction keys as [|k keys IH]; intros m Hnd.
  - simpl. destruct (decide (j ∈ [])) as [Hin|]; [|reflexivity].
    inversion Hin.
  - apply NoDup_cons in Hnd as [Hk Hnd]. simpl.
    rewrite fold_left_app, fold_addPair_values, (IH _ Hnd).
    destruct (decide (j = k)) as [->|Hne].
    + destruct (decide (k ∈ keys)); [contradiction|].
      destruct (decide (k ∈ k :: keys)) as [_|Hn]; [|exfalso; apply Hn; left].
      destruct (default [] (v !! k)); [reflexivity|].
      rewrite lookup_insert_eq. reflexivity.
    + assert (Hm : match default [] (v !! k) with
                   | [] => m
                   | _ => <[k := default [] (m !! k) ++ default [] (v !! k)]> m
                   end !! j = m !! j).
      { destruct (default [] (v !! k)); [reflexivity|].
        rewrite lookup_insert_ne by congruence. reflexivity. }
      rewrite Hm.
      destruct (decide (j ∈ keys)) as [Hin|Hnin];
        destruct (decide (j ∈ k :: keys)) as [Hin'|Hnin']; try reflexivity.
      * exfalso. apply Hnin'. right. exact Hin.
      * exfalso. apply elem_of_cons in Hin' as [?|?]; [congruence|contradiction].
Qed.

Lemma sortedKeys_NoDup (v : Values) : NoDup (sortedKeys v).
Proof.
  unfold sortedKeys. rewrite merge_sort_Permutation.
  apply NoDup_fst_map_to_list.
Qed.

Lemma elem_of_sortedKeys (v : Values) (k : string) :
  k ∈ sortedKeys v <-> is_Some (v !! k).
Proof.
  unfold sortedKeys. rewrite merge_sort_Permutation, list_elem_of_fmap. split.
  - intros ([k' vals] & -> & Hin). apply elem_of_map_to_list in Hin.
    simpl. eauto.
  - intros [vals Hv]. exists (k, vals). split; [reflexivity|].
    apply elem_of_map_to_list. exact Hv.
Qed.

(** Parsing an encoded query succeeds and gives back the values: every
    key with its values in order (a key without values is not written). *)
Lemma ParseQuery_Encode (v : Values) :
  snd (ParseQuery (Encode v)) = None
  /\ forall k, fst (ParseQuery (Encode v)) !! k
               = match v !! k with
                 | Some (x :: vals) => Some (x :: vals)
                 | _ => None
                 end.
Proof.
  unfold ParseQuery. rewrite Encode_join, parseQuery_join by lia.
  split; [reflexivity|]. intros k. simpl.
  rewrite lookup_fold_pairsOf by apply sortedKeys_NoDup.
  rewrite lookup_empty.
  destruct (decide (k ∈ sortedKeys v)) as [Hin|Hnin].
  - apply elem_of_sortedKeys in Hin as [vals Hv]. rewrite Hv. simpl.
    destruct vals; reflexivity.
  - destruct (v !! k) as [vals|] eqn:Hv; [|reflexivity].
    exfalso. apply Hnin. apply elem_of_sortedKeys. eauto.
Qed.


(** ** The request identifier across retries *)

Lemma retriesCarry_app (t1 t2 : list event) (expected : option string) :
  retriesCarry expected (t1 ++ t2)
  <-> exists expected', (forall rest, retriesCarry expected' rest ->
                                      retriesCarry expected (t1 ++ rest))
                        /\ retriesCarry expected' t2.
Proof.
  split.
  - revert expected. induction t1 as [|ev t1 IH]; intros expected H.
    + exists expected. split; [intros rest Hr; exact Hr | exact H].
    + destruct ev as [u | id | d | d]; simpl in H.
      * destruct H as [He H]. destruct (IH _ H) as (e' & Hk & H2).
        exists e'. split; [|exact H2]. intros rest Hr. simpl. split; auto.
      * destruct (IH _ H) as (e' & Hk & H2). exists e'. split; [|exact H2].
        intros rest Hr. simpl. auto.
      * destruct (IH _ H) as (e' & Hk & H2). exists e'. split; [|exact H2].
        intros rest Hr. simpl. auto.
      * destruct (IH _ H) as (e' & Hk & H2). exists e'. split; [|exact H2].
        intros rest Hr. simpl. auto.
  - intros (e' & Hk & H2). apply Hk. exact H2.
Qed.


Lemma setRawQuery_lookup (h : heap) (p : loc) (u : URL) (q : string) :
  h !! p = Some u ->
  setRawQuery h p q = <[p := mkURL (Path u) q]> h
  /\ setRawQuery h p q !! p = Some (mkURL (Path u) q).
Proof.
  intros Hp. unfold setRawQuery. rewrite Hp. split; [reflexivity|].
  apply lookup_insert_eq.
Qed.

Section Replacing.

Context {Env : Type}.
Variable NewUUID : Env -> string * Env.
Variable queryRequestPath : string.
Variable ErrOCSPStatusRevoked : Z.
Variable GOOS : string.
Variable DurationString : Z -> string.

Implicit Types (r : @retryHTTP Env) (l : locals) (w : @World Env).

(** What an attempt leaves behind: the heap as it was, and in the trace
    at most the request it sent, always there when the turn goes on. *)
Lemma attempt_inv r l w f w1 :
  attempt ErrOCSPStatusRevoked GOOS r l w = Ok (f, w1) ->
  mem w1 = mem w /\ rnd w1 = rnd w
  /\ ((exists res err, f = Return res err /\ trace w1 = trace w)
      \/ (exists u, mem w !! urlOf l = Some u /\ trace w1 = trace w ++ [Sent u])).
Proof.
  unfold attempt, deref.
  destruct (bodyCreator r (env w)) as [[body [berr|]] e1].
  { intros H; inversion H; subst. simpl.
    split; [reflexivity|]. split; [reflexivity|]. left. eauto. }
  destruct (mem w !! urlOf l) as [u|]; [|discriminate].
  destruct (req r (method r) u body e1) as [[rq [qerr|]] e2].
  { intros H; inversion H; subst. simpl.
    split; [reflexivity|]. split; [reflexivity|]. left. eauto. }
  assert (Hsend : forall rq',
    (let '(res, err, e3) := client r rq' e2 in
     let w3 := emit (setEnv w e3) (Sent u) in
     match err with
     | Some err =>
         let '(doExit, err') := isRetryableError ErrOCSPStatusRevoked GOOS err in
         if doExit then Ok (Return res (Some err'), w3)
         else Ok (Next (res, Some err), w3)
     | None =>
         match res with
         | None => Panic nilDeref
         | Some rs =>
             if (StatusCode rs =? StatusOK)
                || raise4XX r && (400 <=? StatusCode rs)
                   && (StatusCode rs <? 500) && negb (StatusCode rs =? 429)
             then Ok (Return res None, w3)
             else Ok (Next (res, None), w3)
         end
     end) = Ok (f, w1) ->
    mem w1 = mem w /\ rnd w1 = rnd w
    /\ ((exists res err, f = Return res err /\ trace w1 = trace w)
        \/ (exists u0, Some u = Some u0 /\ trace w1 = trace w ++ [Sent u0]))).
  { intros rq'. destruct (client r rq' e2) as [[res [cerr|]] e3].
    - destruct (isRetryableError _ _ cerr) as [[] err']; intros H;
        inversion H; subst; simpl;
        (split; [reflexivity|]; split; [reflexivity|]; right; eauto).
    - destruct res as [rs|]; [|discriminate].
      destruct (_ || _); intros H; inversion H; subst; simpl;
        (split; [reflexivity|]; split; [reflexivity|]; right; eauto). }
  destruct rq as [q|]; simpl.
  - apply Hsend.
  - destruct (decide (headers r = ∅)); simpl; [apply Hsend|discriminate].
Qed.


Lemma obind_Ok {A B : Type} (a : A) (f : A -> outcome B) : obind (Ok a) f = f a.
Proof. reflexivity. Qed.

Lemma isQueryRequest_Path (u u' : URL) :
  Path u' = Path u ->
  isQueryRequest queryRequestPath u' = isQueryRequest queryRequestPath u.
Proof. unfold isQueryRequest. intros ->. reflexivity. Qed.

Lemma replace_real (p : loc) (values : Values) w u :
  mem w !! p = Some u ->
  replace NewUUID (requestGUIDReplace p values) w
  = Ok (p,
        requestGUIDReplace p
          (Add (Del values requestGUIDKey) requestGUIDKey (NewUUID (env w)).1),
        mkWorld
          (<[p := mkURL (Path u)
                    (Encode (Add (Del values requestGUIDKey) requestGUIDKey
                               (NewUUID (env w)).1))]> (mem w))
          (rnd w) (NewUUID (env w)).2
          (trace w ++ [Generated (NewUUID (env w)).1])).
Proof.
  intros Hp. unfold replace, deref. destruct (NewUUID (env w)) as [id e'].
  simpl. rewrite Hp. unfold setMem. simpl.
  rewrite (proj1 (setRawQuery_lookup _ _ _ _ Hp)). reflexivity.
Qed.









End Replacing.



(** On the query-request path the retry-count updater keeps the values
    it parsed on the first retry, the first generated identifier among
    them, and writes them over what the identifier replacer wrote: every
    retry after the first sends the first generated identifier again. *)
Lemma request_guid_goes_stale_on_query_requests :
  exists res w',
    Fake.run 4 (Fake.executor [Fake.answer 503; Fake.answer 503; Fake.answer 503]
                  (Fake.answer 200) 0 false)
      (Fake.world "/queries/v1/query-request" "request_guid=abc" (constRand 1))
    = Ok (res, w')
    /\ generatedIds (trace w') = ["uuid-0"; "uuid-1"; "uuid-2"]
    /\ sentGUIDs (trace w') = ["abc"; "uuid-0"; "uuid-0"; "uuid-0"].
Proof.
  eexists _, _. split; [vm_compute; reflexivity|].
  split; vm_compute; reflexivity.
Qed.

(** ** The client-start time is set once

    On a query-request URL without the parameter the setter writes it,
    and from then on it is found and left alone, whatever timestamps
    follow. *)
Lemma clientStartTime_set_once (queryRequestPath : string) (h : heap) (p : loc)
  (u : URL) (ts : string) (stamps : list string) :
  h !! p = Some u ->
  isQueryRequest queryRequestPath u = true ->
  Has (Query u) clientStartTimeKey = false ->
  exists u',
    ensureMany queryRequestPath p (ts :: stamps) h = Ok (p, <[p := u']> h)
    /\ Path u' = Path u
    /\ Get (Query u') clientStartTimeKey = ts.
Proof.
  intros Hp Hq Hhas.
  set (u' := mkURL (Path u) (Encode (Add (Query u) clientStartTimeKey ts))).
  assert (Hlook : Query u' !! clientStartTimeKey = Some [ts]).
  { unfold Query, u'. simpl. rewrite (proj2 (ParseQuery_Encode _)).
    unfold Add. rewrite lookup_insert_eq.
    unfold Has in Hhas. fold (Query u).
    destruct (Query u !! clientStartTimeKey); [discriminate|]. reflexivity. }
  exists u'. split; [|split; [reflexivity|]].
  - simpl. unfold ensureClientStartTimeIsSet at 1. unfold deref.
    rewrite Hp, Hq, Hhas. simpl.
    rewrite (proj1 (setRawQuery_lookup _ _ _ _ Hp)). fold u'.
    assert (Hp' : <[p := u']> h !! p = Some u') by apply lookup_insert_eq.
    assert (Hhas' : Has (Query u') clientStartTimeKey = true)
      by (unfold Has; rewrite Hlook; reflexivity).
    clear Hhas Hlook. induction stamps as [|ts' stamps IH]; [reflexivity|].
    simpl. unfold ensureClientStartTimeIsSet at 1. unfold deref.
    rewrite Hp', Hhas'. destruct (negb _); simpl; exact IH.
  - unfold Get. rewrite Hlook. reflexivity.
Qed.

(** ** The sleeps of the loop are whole seconds

    The loop starts from a sleep of zero and feeds each backoff its own
    last result, so every sleep it passes to [decorr] is a whole number
    of seconds up to the cap, where the backoff does not fail. *)

Section WholeSeconds.

Context {Env : Type}.
Variable NewUUID : Env -> string * Env.
Variable queryRequestPath : string.
Variable ErrOCSPStatusRevoked : Z.
Variable GOOS : string.
Variable DurationString : Z -> string.

Implicit Types (r : @retryHTTP Env) (l : locals) (w : @World Env).

Lemma backoff_whole_seconds r l res err w (k : Z) :
  sleepTime l = k * Duration.Second -> 0 <= k <= 160 ->
  exists f w', backoff DurationString r l res err w = Ok (f, w')
    /\ forall l', f = Next l' ->
         exists k', sleepTime l' = k' * Duration.Second /\ 0 <= k' <= 160.
Proof.
  intros Hs Hk. unfold backoff. rewrite Hs.
  destruct (decorr_default_seconds (retryCounter l) k (rnd w) Hk)
    as (k' & rnd' & Hd & Hk').
  rewrite Hd, obind_Ok. cbv beta iota.
  destruct (0 <? totalTimeout l).
  - destruct (Duration.sub (totalTimeout l) (k' * Duration.Second) <=? 0).
    + destruct err, res; eexists _, _; (split; [reflexivity|]);
        intros l' Hl; discriminate.
    + eexists _, _. split; [reflexivity|]. intros l' Hl. inversion Hl; subst.
      exists k'. simpl. auto.
  - eexists _, _. split; [reflexivity|]. intros l' Hl. inversion Hl; subst.
    exists k'. simpl. auto.
Qed.

Lemma obind_Ok_inv {A B : Type} (m : outcome A) (f : A -> outcome B) (b : B) :
  obind m f = Ok b -> exists a, m = Ok a /\ f a = Ok b.
Proof. destruct m as [a|]; [eauto|discriminate]. Qed.

Lemma mutate_keeps_sleepTime r (clientStartTime : string) l
  (res : option Response) w l' w' :
  mutate NewUUID queryRequestPath r clientStartTime l res w = Ok (l', w') ->
  sleepTime l' = sleepTime l.
Proof.
  unfold mutate. intros H.
  apply obind_Ok_inv in H as (g & _ & H).
  apply obind_Ok_inv in H as ([[p1 g'] w1] & _ & H).
  apply obind_Ok_inv in H as (c & _ & H).
  apply obind_Ok_inv in H as ([[p2 c'] h2] & _ & H).
  apply obind_Ok_inv in H as (u & _ & H).
  apply obind_Ok_inv in H as ([p3 h3] & _ & H).
  apply obind_Ok_inv in H as ([p4 h4] & _ & H).
  inversion H; subst. reflexivity.
Qed.

Lemma turn_keeps_whole_seconds r (clientStartTime : string) l w (k : Z) l' w' :
  sleepTime l = k * Duration.Second -> 0 <= k <= 160 ->
  turn NewUUID queryRequestPath ErrOCSPStatusRevoked GOOS DurationString
       r clientStartTime l w = Ok (Next l', w') ->
  exists k', sleepTime l' = k' * Duration.Second /\ 0 <= k' <= 160.
Proof.
  intros Hs Hk. unfold turn.
  destruct (attempt ErrOCSPStatusRevoked GOOS r l w) as [[f1 w1]|];
    [rewrite obind_Ok|discriminate].
  destruct f1 as [res err | [res err]]; [discriminate|].
  destruct (backoff_whole_seconds r l res err w1 k Hs Hk) as (f2 & w2 & Hb & Hn).
  rewrite Hb, obind_Ok. destruct f2 as [res2 err2 | l2]; [discriminate|].
  destruct (Hn l2 eq_refl) as (k' & Hk2 & Hr2).
  destruct (mutate NewUUID queryRequestPath r clientStartTime l2 res w2)
    as [[l3 w3]|] eqn:Hm; [rewrite obind_Ok|discriminate].
  apply mutate_keeps_sleepTime in Hm. unfold await.
  destruct (awaitOrDone r (sleepTime l3) (env w3)) as [[ctxErr|] e'];
    intros H; inversion H; subst.
  exists k'. rewrite Hm. auto.
Qed.

End WholeSeconds.

(** * Further properties of the code *)

(** ** The draw of the backoff *)

(** X1: on a duration of less than a second, negative ones included, the
    draw fails, since its range is empty; from one second on it returns a
    whole number of seconds that stays a full second below the bound. *)
Theorem randSecondDuration_fails_below_a_second (n : Z) (r : Rand) :
  Duration.minInt64 <= n <= Duration.maxInt64 ->
  (n < Duration.Second ->
   randSecondDuration n r = Panic "invalid argument to Int63n")
  /\ (Duration.Second <= n ->
      exists k, randSecondDuration n r = Ok (k * Duration.Second, snd (Int63 r))
                /\ 0 <= k /\ k * Duration.Second + Duration.Second <= n).
Proof.
  intros Hn. split.
  - intros Hlt. unfold randSecondDuration, Duration.div, Int63n.
    assert (Hs : Duration.Second = 1000000000) by reflexivity.
    assert (Hmin : Duration.minInt64 = -9223372036854775808) by reflexivity.
    assert (Hmax : Duration.maxInt64 = 9223372036854775807) by reflexivity.
    assert (Hq : Z.quot n Duration.Second <= 0
                 /\ Duration.minInt64 <= Z.quot n Duration.Second).
    { destruct (Z.le_gt_cases 0 n) as [Hpos|Hneg].
      - rewrite Z.quot_small by lia. lia.
      - replace n with (- (- n)) by lia. rewrite Z.quot_opp_l by lia.
        rewrite Z.quot_div_nonneg by lia.
        pose proof (Z.div_pos (- n) Duration.Second ltac:(lia) ltac:(lia)).
        assert (- n / Duration.Second <= - n)
          by (apply Z.div_le_upper_bound; nia).
        lia. }
    rewrite wrap_id by (unfold Duration.inRange; lia).
    destruct (Z.quot n Duration.Second <=? 0) eqn:E; [reflexivity|].
    apply Z.leb_gt in E. lia.
  - intros Hge. apply randSecondDuration_spec. lia.
Qed.

Lemma randSecondDuration_fails_below_a_second_witness :
  randSecondDuration 999999999 (constRand 5) = Panic "invalid argument to Int63n"
  /\ exists k, randSecondDuration 3500000000 (constRand 5)
               = Ok (k * Duration.Second, snd (Int63 (constRand 5)))
               /\ 0 <= k /\ k * Duration.Second + Duration.Second <= 3500000000.
Proof.
  split.
  - apply (randSecondDuration_fails_below_a_second 999999999 (constRand 5));
      vm_compute; try (split; discriminate); reflexivity.
  - apply (randSecondDuration_fails_below_a_second 3500000000 (constRand 5));
      vm_compute; try (split; discriminate); discriminate.
Defined.

(** X2: the jitter window. Away from the point where three times the
    previous sleep equals the base, the next sleep is the cap or a value
    that lies a whole number of seconds above the smaller of the base and
    three times the previous sleep, and at least a second below the
    larger of the two. *)
Theorem decorr_jitter_window (w : waitAlgo) (attempt sleep : Z) (r : Rand) :
  0 <= base w <= cap w -> cap w <= Duration.maxInt64 ->
  0 <= sleep -> 3 * sleep <= Duration.maxInt64 ->
  Duration.Second <= Z.abs (3 * sleep - base w) ->
  exists k r',
    decorr w attempt sleep r
    = Ok (Z.min (cap w) (Z.min (base w) (3 * sleep) + k * Duration.Second), r')
    /\ 0 <= k
    /\ Z.min (base w) (3 * sleep) + k * Duration.Second + Duration.Second
       <= Z.max (base w) (3 * sleep).
Proof.
  intros Hb Hc Hs H3 Hgap.
  assert (Hsec : Duration.Second = 1000000000) by reflexivity.
  destruct (decorr_returns w attempt sleep r Hb Hc Hs H3 (or_intror Hgap))
    as (d & r' & Hd & _ & Hform).
  destruct Hform as (k & Hk & Hk0 & Hk1); [lia|].
  exists k, r'. rewrite Hd, Hk. split; [|split; [exact Hk0|lia]].
  f_equal. f_equal. f_equal. lia.
Qed.

Lemma decorr_jitter_window_witness :
  exists k r',
    decorr defaultWaitAlgo 2 (4 * Duration.Second) (constRand 3)
    = Ok (Z.min (cap defaultWaitAlgo)
            (Z.min (base defaultWaitAlgo) (3 * (4 * Duration.Second))
             + k * Duration.Second), r')
    /\ 0 <= k
    /\ Z.min (base defaultWaitAlgo) (3 * (4 * Duration.Second))
       + k * Duration.Second + Duration.Second
       <= Z.max (base defaultWaitAlgo) (3 * (4 * Duration.Second)).
Proof.
  apply (decorr_jitter_window defaultWaitAlgo 2 (4 * Duration.Second) (constRand 3));
    vm_compute; try (split; discriminate); discriminate.
Defined.

(** ** The classifier, row by row *)

Section ClassifierTable.

Variable ErrOCSPStatusRevoked : Z.
Variable GOOS : string.

Lemma isRetryableError_wrapped (op u : string) (inner : error) :
  isRetryableError ErrOCSPStatusRevoked GOOS (URLError op u inner)
  = if isContextError inner then (true, inner)
    else (isRevoked ErrOCSPStatusRevoked inner || isCertificateInvalid inner
          || isUnknownAuthority inner || looksExpired GOOS inner,
          URLError op u inner).
Proof.
  unfold looksExpired.
  destruct inner; simpl; try reflexivity;
    repeat match goal with
           | |- context [if ?b then _ else _] => destruct b; simpl
           end; reflexivity.
Qed.

(** X3: the classifier stops the retries exactly for a transport wrapper
    whose cause is a context deadline or cancellation, the driver's
    certificate-revoked error, an invalid certificate, an unknown
    authority, or, on darwin only, an error whose text starts with x509:
    and ends with certificate is expired. *)
Theorem classifier_stops_exactly (err : error) :
  fst (isRetryableError ErrOCSPStatusRevoked GOOS err) = true
  <-> exists op u inner,
        err = URLError op u inner
        /\ (inner = DeadlineExceeded \/ inner = Canceled
            \/ (exists text, inner = SnowflakeError ErrOCSPStatusRevoked text)
            \/ (exists text, inner = CertificateInvalidError text)
            \/ (exists text, inner = UnknownAuthorityError text)
            \/ (GOOS = "darwin"
                /\ HasPrefix (Error inner) "x509:" = true
                /\ HasSuffix (Error inner) "certificate is expired" = true)).
Proof.
  split.
  - destruct err as [| | | | | op u inner | | | |]; try (simpl; discriminate).
    rewrite isRetryableError_wrapped. intros H. exists op, u, inner.
    split; [reflexivity|].
    destruct inner; simpl in H; auto;
      try (right; right; right; right; right;
           unfold looksExpired in H;
           apply andb_true_iff in H as [H H3];
           apply andb_true_iff in H as [H1 H2];
           apply String.eqb_eq in H1; auto).
    + destruct (Number =? ErrOCSPStatusRevoked) eqn:E.
      * apply Z.eqb_eq in E. subst. right; right; left. eauto.
      * right; right; right; right; right. unfold looksExpired in H.
        apply andb_true_iff in H as [H H3].
        apply andb_true_iff in H as [H1 H2].
        apply String.eqb_eq in H1; auto.
    + right; right; right; left. eauto.
    + right; right; right; right; left. eauto.
  - intros (op & u & inner & -> & H). rewrite isRetryableError_wrapped.
    destruct H as [->|[->|[(text & ->)|[(text & ->)|[(text & ->)|(Hg & Hp & Hs)]]]]];
      simpl; try reflexivity.
    + rewrite Z.eqb_refl. reflexivity.
    + destruct (isContextError inner); [reflexivity|]. simpl.
      unfold looksExpired. rewrite Hp, Hs, Hg. simpl.
      rewrite !orb_true_r. reflexivity.
Qed.

(** X4: the error the classifier hands back is the one it was given,
    except for a transport wrapper around a context deadline or
    cancellation, where it is the context error itself. *)
Theorem classifier_hands_back (err : error) :
  snd (isRetryableError ErrOCSPStatusRevoked GOOS err)
  = match err with
    | URLError _ _ DeadlineExceeded => DeadlineExceeded
    | URLError _ _ Canceled => Canceled
    | _ => err
    end.
Proof.
  destruct err as [| | | | | op u inner | | | |]; try reflexivity.
  rewrite isRetryableError_wrapped. destruct inner; reflexivity.
Qed.

(** X5: an error that is only recognisable as an expired certificate by
    its text (it starts with x509: and ends with certificate is expired,
    and is none of the typed causes) stops the retries on darwin and is
    retried on every other platform. *)
Theorem expired_certificate_text_stops_only_on_darwin (op u : string)
  (inner : error) :
  isContextError inner = false ->
  isRevoked ErrOCSPStatusRevoked inner = false ->
  isCertificateInvalid inner = false ->
  isUnknownAuthority inner = false ->
  HasPrefix (Error inner) "x509:" = true ->
  HasSuffix (Error inner) "certificate is expired" = true ->
  isRetryableError ErrOCSPStatusRevoked GOOS (URLError op u inner)
  = (String.eqb GOOS "darwin", URLError op u inner).
Proof.
  intros Hc Hr Hi Hu Hp Hs. rewrite isRetryableError_wrapped, Hc, Hr, Hi, Hu.
  unfold looksExpired. rewrite Hp, Hs, !andb_true_r. reflexivity.
Qed.

End ClassifierTable.

Lemma expired_certificate_text_stops_only_on_darwin_witness :
  isRetryableError 269006 "darwin"
    (URLError "Post" "https://host/x" (errorString "x509: certificate is expired"))
  = (true, URLError "Post" "https://host/x"
             (errorString "x509: certificate is expired"))
  /\ isRetryableError 269006 "linux"
       (URLError "Post" "https://host/x" (errorString "x509: certificate is expired"))
     = (false, URLError "Post" "https://host/x"
                 (errorString "x509: certificate is expired")).
Proof.
  split.
  - apply (expired_certificate_text_stops_only_on_darwin 269006 "darwin"
             "Post" "https://host/x" (errorString "x509: certificate is expired"));
      reflexivity.
  - apply (expired_certificate_text_stops_only_on_darwin 269006 "linux"
             "Post" "https://host/x" (errorString "x509: certificate is expired"));
      reflexivity.
Defined.

(** ** The mutators on a query-request URL *)

Lemma Query_Encode (path : string) (v : Values) (k : string) :
  Query (mkURL path (Encode v)) !! k = present v k.
Proof. unfold Query, present. simpl. apply (proj2 (ParseQuery_Encode v)). Qed.

Lemma Encode_parses (v : Values) : snd (ParseQuery (Encode v)) = None.
Proof. apply (proj1 (ParseQuery_Encode v)). Qed.

Lemma Add_lookup_eq (v : Values) (k x : string) :
  Add v k x !! k = Some (default [] (v !! k) ++ [x]).
Proof. unfold Add. apply lookup_insert_eq. Qed.

Lemma Add_lookup_ne (v : Values) (k k' x : string) :
  k <> k' -> Add v k x !! k' = v !! k'.
Proof. intros H. unfold Add. apply lookup_insert_ne. exact H. Qed.

Lemma present_stamp_eq (v : Values) (k x : string) :
  present (Add (Del v k) k x) k = Some [x].
Proof.
  unfold present, Del. rewrite Add_lookup_eq, lookup_delete_eq. reflexivity.
Qed.

Lemma present_stamp_ne (v : Values) (k k' x : string) :
  k <> k' -> present (Add (Del v k) k x) k' = present v k'.
Proof.
  intros H. unfold present, Del. rewrite Add_lookup_ne by exact H.
  rewrite lookup_delete_ne by exact H. reflexivity.
Qed.

(** A parsed query has no key without values. *)
Lemma parseQuery_no_empty (fuel : nat) (m : Values) (err : option error)
  (query : string) (k : string) :
  m !! k <> Some [] -> fst (parseQuery fuel m err query) !! k <> Some [].
Proof.
  revert m err query. induction fuel as [|fuel IH]; intros m err query Hm;
    [exact Hm|].
  simpl. destruct (String.eqb query ""); [exact Hm|].
  destruct (Cut query "&") as [[key query'] found].
  destruct (Contains key ";"); [apply IH; exact Hm|].
  destruct (String.eqb key ""); [apply IH; exact Hm|].
  destruct (Cut key "=") as [[key' value] found'].
  destruct (QueryUnescape key') as [key''|e]; [|apply IH; exact Hm].
  destruct (QueryUnescape value) as [value'|e]; [|apply IH; exact Hm].
  apply IH. destruct (decide (key'' = k)) as [->|Hne].
  - rewrite Add_lookup_eq. destruct (default [] (m !! k)); discriminate.
  - rewrite Add_lookup_ne by exact Hne. exact Hm.
Qed.

Lemma present_Query (u : URL) (k : string) : present (Query u) k = Query u !! k.
Proof.
  unfold present.
  pose proof (parseQuery_no_empty (String.length (RawQuery u)) ∅ None
                (RawQuery u) k) as H.
  fold (ParseQuery (RawQuery u)) in H. fold (Query u) in H.
  destruct (Query u !! k) as [[|x vals]|]; try reflexivity.
  exfalso. apply H; [rewrite lookup_empty; discriminate|reflexivity].
Qed.

Lemma retryCount_replaceOrAdd_writes (p : loc) (values : Values) (retry : Z)
  (h : heap) (u : URL) :
  h !! p = Some u ->
  retryCount_replaceOrAdd (retryCountUpdate p values) retry h
  = Ok (p,
        retryCountUpdate p (Add (Del values retryCountKey) retryCountKey (Itoa retry)),
        <[p := mkURL (Path u)
                 (Encode (Add (Del values retryCountKey) retryCountKey
                            (Itoa retry)))]> h).
Proof.
  intros Hp. unfold retryCount_replaceOrAdd, deref. rewrite Hp.
  rewrite (proj1 (setRawQuery_lookup _ _ _ _ Hp)). reflexivity.
Qed.

Lemma stampCounts_cons (upd : retryCountUpdater) (retry : Z) (rest : list Z)
  (h : heap) :
  stampCounts upd (retry :: rest) h
  = obind (retryCount_replaceOrAdd upd retry h)
          (fun '(_, upd', h') => stampCounts upd' rest h').
Proof. reflexivity. Qed.

(** X6: the retry-count updater of a query-request URL, applied to any
    non-empty sequence of retry numbers, leaves a query that parses
    without error and holds the last number as the one and only
    retryCount value; every other key has the values the updater parsed
    when it was built, whatever the query of the URL was in between. *)
Theorem retryCount_is_never_stale (p : loc) (values : Values)
  (retries : list Z) (last : Z) (h : heap) (u : URL) :
  h !! p = Some u ->
  exists values' u',
    stampCounts (retryCountUpdate p values) (retries ++ [last]) h
    = Ok (retryCountUpdate p values', <[p := u']> h)
    /\ Path u' = Path u
    /\ snd (ParseQuery (RawQuery u')) = None
    /\ Query u' !! retryCountKey = Some [Itoa last]
    /\ forall k, k <> retryCountKey -> Query u' !! k = present values k.
Proof.
  revert values h u. induction retries as [|retry retries IH];
    intros values h u Hp.
  - change ([] ++ [last]) with [last]. rewrite stampCounts_cons.
    rewrite (retryCount_replaceOrAdd_writes _ _ _ _ _ Hp), obind_Ok.
    cbv beta iota. cbn [stampCounts].
    eexists _, _. split; [reflexivity|]. split; [reflexivity|].
    split; [apply Encode_parses|].
    split; [rewrite Query_Encode; apply present_stamp_eq|].
    intros k Hk. rewrite Query_Encode. apply present_stamp_ne. congruence.
  - rewrite <- app_comm_cons, stampCounts_cons.
    rewrite (retryCount_replaceOrAdd_writes _ _ _ _ _ Hp), obind_Ok.
    cbv beta iota.
    edestruct (IH (Add (Del values retryCountKey) retryCountKey (Itoa retry))
                 (<[p := mkURL (Path u)
                          (Encode (Add (Del values retryCountKey) retryCountKey
                                     (Itoa retry)))]> h))
      as (values' & u' & Hrun & Hpath & Hparse & Hrc & Hother).
    { apply lookup_insert_eq. }
    rewrite Hrun. rewrite insert_insert_eq.
    exists values', u'. split; [reflexivity|]. split; [exact Hpath|].
    split; [exact Hparse|]. split; [exact Hrc|].
    intros k Hk. rewrite (Hother k Hk). apply present_stamp_ne. congruence.
Qed.

Lemma retryCount_is_never_stale_witness :
  exists values' u',
    stampCounts (retryCountUpdate 0%nat (fst (ParseQuery "retryCount=7&x=1")))
      ([1; 2] ++ [3])
      {[0%nat := mkURL "/queries/v1/query-request" "retryCount=7&x=1"]}
    = Ok (retryCountUpdate 0%nat values',
          <[0%nat := u']>
            {[0%nat := mkURL "/queries/v1/query-request" "retryCount=7&x=1"]})
    /\ Path u' = "/queries/v1/query-request"
    /\ snd (ParseQuery (RawQuery u')) = None
    /\ Query u' !! retryCountKey = Some [Itoa 3]
    /\ forall k, k <> retryCountKey ->
                 Query u' !! k = present (fst (ParseQuery "retryCount=7&x=1")) k.
Proof.
  apply (retryCount_is_never_stale 0%nat (fst (ParseQuery "retryCount=7&x=1"))
           [1; 2] 3
           {[0%nat := mkURL "/queries/v1/query-request" "retryCount=7&x=1"]}
           (mkURL "/queries/v1/query-request" "retryCount=7&x=1")).
  reflexivity.
Defined.

(** X7: the retry-reason updater re-reads the query of the URL: it leaves
    a query that parses without error (pairs that did not parse are gone),
    with the reason as the one and only retryReason value and every other
    key with the values it had. *)
Theorem retryReason_replaces_and_keeps_the_rest (p : loc) (reason : Z)
  (h : heap) (u : URL) :
  h !! p = Some u ->
  exists u',
    retryReason_replaceOrAdd (retryReasonUpdate p) reason h
    = Ok (p, <[p := u']> h)
    /\ Path u' = Path u
    /\ snd (ParseQuery (RawQuery u')) = None
    /\ Query u' !! retryReasonKey = Some [Itoa reason]
    /\ forall k, k <> retryReasonKey -> Query u' !! k = Query u !! k.
Proof.
  intros Hp. unfold retryReason_replaceOrAdd, deref. rewrite Hp.
  rewrite (proj1 (setRawQuery_lookup _ _ _ _ Hp)).
  eexists. split; [reflexivity|]. split; [reflexivity|].
  split; [apply Encode_parses|].
  split; [rewrite Query_Encode; apply present_stamp_eq|].
  intros k Hk. rewrite Query_Encode, present_stamp_ne by congruence.
  apply present_Query.
Qed.

Lemma retryReason_replaces_and_keeps_the_rest_witness :
  exists u',
    retryReason_replaceOrAdd (retryReasonUpdate 0%nat) 503
      {[0%nat := mkURL "/queries/v1/query-request" "retryReason=0&x=%zz&y=2"]}
    = Ok (0%nat,
          <[0%nat := u']>
            {[0%nat := mkURL "/queries/v1/query-request" "retryReason=0&x=%zz&y=2"]})
    /\ Path u' = "/queries/v1/query-request"
    /\ snd (ParseQuery (RawQuery u')) = None
    /\ Query u' !! retryReasonKey = Some [Itoa 503]
    /\ forall k, k <> retryReasonKey ->
         Query u' !! k
         = Query (mkURL "/queries/v1/query-request" "retryReason=0&x=%zz&y=2") !! k.
Proof.
  apply (retryReason_replaces_and_keeps_the_rest 0%nat 503
           {[0%nat := mkURL "/queries/v1/query-request" "retryReason=0&x=%zz&y=2"]}
           (mkURL "/queries/v1/query-request" "retryReason=0&x=%zz&y=2")).
  reflexivity.
Defined.

Lemma present_Add_ne (v : Values) (k k' x : string) :
  k <> k' -> present (Add v k x) k' = present v k'.
Proof.
  intros H. unfold present. rewrite Add_lookup_ne by exact H. reflexivity.
Qed.

Lemma retryReason_replaceOrAdd_writes (p : loc) (reason : Z) (h : heap) (u : URL) :
  h !! p = Some u ->
  retryReason_replaceOrAdd (retryReasonUpdate p) reason h
  = Ok (p, <[p := mkURL (Path u)
                    (Encode (Add (Del (Query u) retryReasonKey) retryReasonKey
                               (Itoa reason)))]> h).
Proof.
  intros Hp. unfold retryReason_replaceOrAdd, deref. rewrite Hp.
  rewrite (proj1 (setRawQuery_lookup _ _ _ _ Hp)). reflexivity.
Qed.

Lemma ensure_writes (queryRequestPath : string) (p : loc) (ts : string)
  (h : heap) (u : URL) :
  h !! p = Some u ->
  isQueryRequest queryRequestPath u = true ->
  ensureClientStartTimeIsSet queryRequestPath p ts h
  = Ok (p, if Has (Query u) clientStartTimeKey then h
           else <[p := mkURL (Path u)
                          (Encode (Add (Query u) clientStartTimeKey ts))]> h).
Proof.
  intros Hp Hq. unfold ensureClientStartTimeIsSet, deref. rewrite Hp, Hq.
  cbn [negb]. destruct (Has (Query u) clientStartTimeKey); [reflexivity|].
  rewrite (proj1 (setRawQuery_lookup _ _ _ _ Hp)). reflexivity.
Qed.

Lemma ensureMany_found (queryRequestPath : string) (p : loc)
  (stamps : list string) (h : heap) (u : URL) :
  h !! p = Some u ->
  Has (Query u) clientStartTimeKey = true ->
  ensureMany queryRequestPath p stamps h = Ok (p, h).
Proof.
  intros Hp Hhas. induction stamps as [|ts rest IH]; [reflexivity|].
  cbn [ensureMany]. unfold ensureClientStartTimeIsSet at 1. unfold deref.
  rewrite Hp, Hhas. destruct (negb _); rewrite obind_Ok; exact IH.
Qed.

(** X8: on a query-request URL the client-start time is set once. The
    first call adds the timestamp when the query has none and writes
    nothing when it has one; every later call, with whatever timestamp,
    writes nothing. The other keys keep their values. *)
Theorem clientStartTime_keeps_the_first_timestamp (queryRequestPath : string)
  (p : loc) (ts : string) (stamps : list string) (h : heap) (u : URL) :
  h !! p = Some u ->
  isQueryRequest queryRequestPath u = true ->
  exists u',
    ensureMany queryRequestPath p (ts :: stamps) h = Ok (p, <[p := u']> h)
    /\ Path u' = Path u
    /\ Query u' !! clientStartTimeKey
       = Some match Query u !! clientStartTimeKey with
              | Some vals => vals
              | None => [ts]
              end
    /\ forall k, k <> clientStartTimeKey -> Query u' !! k = Query u !! k.
Proof.
  intros Hp Hq. cbn [ensureMany]. rewrite (ensure_writes _ _ _ _ _ Hp Hq).
  rewrite obind_Ok. cbv beta iota.
  destruct (Has (Query u) clientStartTimeKey) eqn:Hhas.
  - exists u. rewrite (insert_id h p u Hp).
    split; [apply (ensureMany_found _ _ _ _ u Hp Hhas)|].
    split; [reflexivity|]. split; [|reflexivity].
    unfold Has in Hhas. destruct (Query u !! clientStartTimeKey);
      [reflexivity|discriminate].
  - set (u' := mkURL (Path u) (Encode (Add (Query u) clientStartTimeKey ts))).
    assert (Hnone : Query u !! clientStartTimeKey = None)
      by (unfold Has in Hhas; destruct (Query u !! clientStartTimeKey);
          [discriminate|reflexivity]).
    assert (Hlook : Query u' !! clientStartTimeKey = Some [ts]).
    { unfold u'. rewrite Query_Encode. unfold present.
      rewrite Add_lookup_eq, Hnone. reflexivity. }
    exists u'. split.
    + apply (ensureMany_found _ _ _ _ u'); [apply lookup_insert_eq|].
      unfold Has. rewrite Hlook. reflexivity.
    + split; [reflexivity|]. rewrite Hnone. split; [exact Hlook|].
      intros k Hk. unfold u'. rewrite Query_Encode.
      rewrite present_Add_ne by congruence. apply present_Query.
Qed.

Lemma clientStartTime_keeps_the_first_timestamp_witness :
  exists u',
    ensureMany Fake.queryRequestPath 0%nat ["100"; "200"; "300"]
      {[0%nat := mkURL "/queries/v1/query-request" "x=1"]}
    = Ok (0%nat, <[0%nat := u']> {[0%nat := mkURL "/queries/v1/query-request" "x=1"]})
    /\ Path u' = "/queries/v1/query-request"
    /\ Query u' !! clientStartTimeKey
       = Some match Query (mkURL "/queries/v1/query-request" "x=1")
                    !! clientStartTimeKey with
              | Some vals => vals
              | None => ["100"]
              end
    /\ forall k, k <> clientStartTimeKey ->
         Query u' !! k = Query (mkURL "/queries/v1/query-request" "x=1") !! k.
Proof.
  apply (clientStartTime_keeps_the_first_timestamp Fake.queryRequestPath 0%nat
           "100" ["200"; "300"]
           {[0%nat := mkURL "/queries/v1/query-request" "x=1"]}
           (mkURL "/queries/v1/query-request" "x=1")); reflexivity.
Defined.

(** X9: the retry reason is reported on a query-request URL unless the
    configuration switches it off: with the switch off the URL is left as
    it is, and with no configuration at all, or the switch unset or on, the
    reason is stamped. *)
Theorem retryReason_reporting_follows_the_configuration
  (queryRequestPath : string) (cfg : option Config) (reason : Z) (p : loc)
  (h : heap) (u : URL) :
  h !! p = Some u ->
  isQueryRequest queryRequestPath u = true ->
  (IncludeRetryReason <$> cfg = Some ConfigBoolFalse ->
   applyMutation queryRequestPath (StampRetryReason cfg reason) p h = Ok (p, h))
  /\ (IncludeRetryReason <$> cfg <> Some ConfigBoolFalse ->
      exists u',
        applyMutation queryRequestPath (StampRetryReason cfg reason) p h
        = Ok (p, <[p := u']> h)
        /\ Query u' !! retryReasonKey = Some [Itoa reason]).
Proof.
  intros Hp Hq. unfold applyMutation, newRetryReasonUpdater, deref.
  rewrite Hp, Hq. cbn [negb]. split.
  - destruct cfg as [[[]]|]; simpl; try discriminate. reflexivity.
  - intros Hon.
    assert (Hreal : match cfg with
                    | Some c =>
                        if ConfigBool_eqb (IncludeRetryReason c) ConfigBoolFalse
                        then Ok (transientRetryReasonUpdater p)
                        else Ok (retryReasonUpdate p)
                    | None => Ok (retryReasonUpdate p)
                    end = Ok (retryReasonUpdate p)).
    { destruct cfg as [[[]]|]; simpl in *; try reflexivity. congruence. }
    rewrite Hreal, obind_Ok, (retryReason_replaceOrAdd_writes _ _ _ _ Hp).
    eexists. split; [reflexivity|]. rewrite Query_Encode.
    apply present_stamp_eq.
Qed.

Lemma retryReason_reporting_follows_the_configuration_witness :
  applyMutation Fake.queryRequestPath
    (StampRetryReason (Some (mkConfig ConfigBoolFalse)) 503) 0%nat
    {[0%nat := mkURL "/queries/v1/query-request" "x=1"]}
  = Ok (0%nat, {[0%nat := mkURL "/queries/v1/query-request" "x=1"]})
  /\ exists u',
       applyMutation Fake.queryRequestPath (StampRetryReason None 503) 0%nat
         {[0%nat := mkURL "/queries/v1/query-request" "x=1"]}
       = Ok (0%nat, <[0%nat := u']>
                      {[0%nat := mkURL "/queries/v1/query-request" "x=1"]})
       /\ Query u' !! retryReasonKey = Some [Itoa 503].
Proof.
  split.
  - destruct (retryReason_reporting_follows_the_configuration
                Fake.queryRequestPath (Some (mkConfig ConfigBoolFalse)) 503
                0%nat {[0%nat := mkURL "/queries/v1/query-request" "x=1"]}
                (mkURL "/queries/v1/query-request" "x=1")) as [H _];
      [reflexivity|reflexivity|].
    apply H. reflexivity.
  - destruct (retryReason_reporting_follows_the_configuration
                Fake.queryRequestPath None 503
                0%nat {[0%nat := mkURL "/queries/v1/query-request" "x=1"]}
                (mkURL "/queries/v1/query-request" "x=1")) as [_ H];
      [reflexivity|reflexivity|].
    apply H. discriminate.
Defined.

(** ** The request identifier and the whole mutation pass *)

Section QueryPath.

Context {Env : Type}.
Variable NewUUID : Env -> string * Env.
Variable queryRequestPath : string.

Implicit Types (r : @retryHTTP Env) (l : locals) (w : @World Env).

(** X10: a URL whose query does not parse, or has no request_guid or an
    empty one, gets the do-nothing replacer: replacing then writes
    nothing, draws no identifier, and leaves every state as it is. *)
Theorem requestGUID_replacer_is_inert_without_an_identifier (h : heap)
  (p : loc) (u : URL) :
  h !! p = Some u ->
  snd (ParseQuery (RawQuery u)) <> None \/ requestGUIDOf u = EmptyString ->
  newRequestGUIDReplace p h = Ok (transientReplace p)
  /\ forall w, replace NewUUID (transientReplace p) w = Ok (p, transientReplace p, w).
Proof.
  intros Hp Hedge. split; [|reflexivity].
  unfold newRequestGUIDReplace, deref. rewrite Hp.
  unfold requestGUIDOf, Query in Hedge.
  destruct (ParseQuery (RawQuery u)) as [values [err|]]; [reflexivity|].
  simpl in Hedge. destruct Hedge as [Hparse|Hguid]; [congruence|].
  rewrite Hguid. reflexivity.
Qed.

(** X11: a URL whose query parses and has a non-empty request_guid gets
    the real replacer: replacing draws one identifier and leaves a query
    that parses, with that identifier as the one and only request_guid
    value and every other key with the values it had. *)
Theorem requestGUID_replace_keeps_the_rest w (p : loc) (u : URL) :
  mem w !! p = Some u ->
  snd (ParseQuery (RawQuery u)) = None ->
  requestGUIDOf u <> EmptyString ->
  exists g g' u',
    newRequestGUIDReplace p (mem w) = Ok g
    /\ replace NewUUID g w
       = Ok (p, g',
             mkWorld (<[p := u']> (mem w)) (rnd w) (NewUUID (env w)).2
               (trace w ++ [Generated (NewUUID (env w)).1]))
    /\ Path u' = Path u
    /\ snd (ParseQuery (RawQuery u')) = None
    /\ Query u' !! requestGUIDKey = Some [(NewUUID (env w)).1]
    /\ forall k, k <> requestGUIDKey -> Query u' !! k = Query u !! k.
Proof.
  intros Hp Hparse Hguid.
  exists (requestGUIDReplace p (Query u)). eexists _, _. split.
  - unfold newRequestGUIDReplace, deref. rewrite Hp.
    unfold requestGUIDOf, Query in *.
    destruct (ParseQuery (RawQuery u)) as [values err]. simpl in *. subst err.
    destruct (Get values requestGUIDKey); [congruence|reflexivity].
  - split; [apply (replace_real NewUUID p (Query u) w u Hp)|].
    split; [reflexivity|]. split; [apply Encode_parses|].
    split; [rewrite Query_Encode; apply present_stamp_eq|].
    intros k Hk. rewrite Query_Encode, present_stamp_ne by congruence.
    apply present_Query.
Qed.

End QueryPath.

Lemma requestGUID_replacer_is_inert_without_an_identifier_witness :
  newRequestGUIDReplace 0%nat {[0%nat := mkURL "/session/heartbeat" "request_guid=&x=1"]}
  = Ok (transientReplace 0%nat)
  /\ forall w : @World Fake.env,
       replace Fake.NewUUID (transientReplace 0%nat) w
       = Ok (0%nat, transientReplace 0%nat, w).
Proof.
  apply (requestGUID_replacer_is_inert_without_an_identifier Fake.NewUUID
           {[0%nat := mkURL "/session/heartbeat" "request_guid=&x=1"]} 0%nat
           (mkURL "/session/heartbeat" "request_guid=&x=1")).
  - reflexivity.
  - right. vm_compute. reflexivity.
Defined.

Lemma requestGUID_replace_keeps_the_rest_witness :
  exists g g' u',
    newRequestGUIDReplace 0%nat
      (mem (Fake.world "/session/heartbeat" "request_guid=a&request_guid=b&x=1"
              (constRand 1)))
    = Ok g
    /\ replace Fake.NewUUID g
         (Fake.world "/session/heartbeat" "request_guid=a&request_guid=b&x=1"
            (constRand 1))
       = Ok (0%nat, g',
             mkWorld (<[0%nat := u']>
                        {[0%nat := mkURL "/session/heartbeat"
                                     "request_guid=a&request_guid=b&x=1"]})
               (constRand 1) (Fake.mkEnv 0 1) ([] ++ [Generated "uuid-0"]))
    /\ Path u' = "/session/heartbeat"
    /\ snd (ParseQuery (RawQuery u')) = None
    /\ Query u' !! requestGUIDKey = Some ["uuid-0"]
    /\ forall k, k <> requestGUIDKey ->
         Query u' !! k
         = Query (mkURL "/session/heartbeat" "request_guid=a&request_guid=b&x=1") !! k.
Proof.
  apply (requestGUID_replace_keeps_the_rest Fake.NewUUID
           (Fake.world "/session/heartbeat" "request_guid=a&request_guid=b&x=1"
              (constRand 1))
           0%nat (mkURL "/session/heartbeat" "request_guid=a&request_guid=b&x=1")).
  - reflexivity.
  - vm_compute. reflexivity.
  - vm_compute. discriminate.
Defined.

Lemma keys_distinct :
  retryCountKey <> retryReasonKey /\ retryCountKey <> clientStartTimeKey
  /\ retryReasonKey <> clientStartTimeKey /\ retryCountKey <> requestGUIDKey
  /\ retryReasonKey <> requestGUIDKey /\ clientStartTimeKey <> requestGUIDKey.
Proof. repeat split; discriminate. Qed.

Section LaterRetries.

Context {Env : Type}.
Variable NewUUID : Env -> string * Env.
Variable queryRequestPath : string.

Implicit Types (r : @retryHTTP Env) (l : locals) (w : @World Env).

Lemma replace_held (g : requestGUIDReplacer) w (u : URL) :
  mem w !! guidPtr g = Some u ->
  exists g' w1 u1,
    replace NewUUID g w = Ok (guidPtr g, g', w1)
    /\ guidPtr g' = guidPtr g
    /\ mem w1 = <[guidPtr g := u1]> (mem w)
    /\ Path u1 = Path u
    /\ rnd w1 = rnd w
    /\ ((env w1 = env w /\ trace w1 = trace w)
        \/ (env w1 = (NewUUID (env w)).2
            /\ trace w1 = trace w ++ [Generated (NewUUID (env w)).1])).
Proof.
  intros Hp. destruct g as [p | p values]; simpl in *.
  - exists (transientReplace p), w, u. split; [reflexivity|].
    split; [reflexivity|]. split; [rewrite insert_id; auto|]. auto.
  - eexists _, _, _. split; [apply (replace_real NewUUID p values w u Hp)|].
    simpl. split; [reflexivity|]. split; [reflexivity|].
    split; [reflexivity|]. split; [reflexivity|]. right. auto.
Qed.

(** X12: the mutation pass of a later retry on a query-request URL, where
    the retry-count updater has been built. The pass does not fail and
    leaves the path alone; the query it leaves has the incremented retry
    counter, the status of the attempt (or 0 without a response) as retry
    reason, and a client-start time (the one among the updater's values
    if there is one, the executor's otherwise). Every other key,
    request_guid included, has the values the retry-count updater parsed
    when it was built: what the identifier replacer wrote in this pass is
    overwritten. *)
Theorem later_retries_restamp_the_cached_query r (clientStartTime : string) l
  (res : option Response) w (u : URL) (g : requestGUIDReplacer)
  (values : Values) :
  mem w !! urlOf l = Some u ->
  isQueryRequest queryRequestPath u = true ->
  guidReplacer l = Some g -> guidPtr g = urlOf l ->
  countUpdater l = Some (retryCountUpdate (urlOf l) values) ->
  reasonUpdater l = Some (retryReasonUpdate (urlOf l)) ->
  exists l' w' u',
    mutate NewUUID queryRequestPath r clientStartTime l res w = Ok (l', w')
    /\ urlOf l' = urlOf l
    /\ mem w' !! urlOf l = Some u'
    /\ Path u' = Path u
    /\ retryCounter l' = Duration.wrap (retryCounter l + 1)
    /\ Query u' !! retryCountKey
       = Some [Itoa (Duration.wrap (retryCounter l + 1))]
    /\ Query u' !! retryReasonKey
       = Some [Itoa match res with Some rs => StatusCode rs | None => 0 end]
    /\ Query u' !! clientStartTimeKey
       = Some match present values clientStartTimeKey with
              | Some vals => vals
              | None => [clientStartTime]
              end
    /\ forall k, k <> retryCountKey -> k <> retryReasonKey ->
                 k <> clientStartTimeKey ->
                 Query u' !! k = present values k.
Proof.
  intros Hp Hq Hg Hptr Hc Hr.
  destruct keys_distinct as (Hcr & Hcs & Hrs & _).
  rewrite <- Hptr in Hp.
  destruct (replace_held g w u Hp)
    as (g' & w1 & u1 & Hrep & Hptr' & Hm1 & Hpath1 & _ & _).
  rewrite Hptr in *. clear Hptr.
  set (p := urlOf l) in *.
  set (n := Duration.wrap (retryCounter l + 1)).
  set (reason := match res with Some rs => StatusCode rs | None => 0 end).
  set (v2 := Add (Del values retryCountKey) retryCountKey (Itoa n)).
  set (u2 := mkURL (Path u1) (Encode v2)).
  set (v3 := Add (Del (Query u2) retryReasonKey) retryReasonKey (Itoa reason)).
  set (u3 := mkURL (Path u1) (Encode v3)).
  assert (Hp1 : mem w1 !! p = Some u1) by (rewrite Hm1; apply lookup_insert_eq).
  assert (H3rr : Query u3 !! retryReasonKey = Some [Itoa reason])
    by (unfold u3; rewrite Query_Encode; apply present_stamp_eq).
  assert (H3 : forall k, k <> retryReasonKey -> Query u3 !! k = present v2 k).
  { intros k Hk. unfold u3. rewrite Query_Encode.
    unfold v3. rewrite present_stamp_ne by congruence.
    rewrite present_Query. unfold u2. apply Query_Encode. }
  assert (H3rc : Query u3 !! retryCountKey = Some [Itoa n])
    by (rewrite H3 by congruence; apply present_stamp_eq).
  assert (H3o : forall k, k <> retryCountKey -> k <> retryReasonKey ->
                          Query u3 !! k = present values k).
  { intros k Hk1 Hk2. rewrite H3 by exact Hk2. unfold v2.
    apply present_stamp_ne. congruence. }
  assert (Hq3 : isQueryRequest queryRequestPath u3 = true).
  { rewrite (isQueryRequest_Path queryRequestPath u u3); [exact Hq|].
    simpl. exact Hpath1. }
  assert (Hrun : mutate NewUUID queryRequestPath r clientStartTime l res w
                 = Ok (mkLocals p (totalTimeout l) n (sleepTime l) (Some g')
                         (Some (retryCountUpdate p v2))
                         (Some (retryReasonUpdate p)),
                       setMem w1
                         (if Has (Query u3) clientStartTimeKey
                          then <[p := u3]> (mem w1)
                          else <[p := mkURL (Path u3)
                                         (Encode (Add (Query u3)
                                                    clientStartTimeKey
                                                    clientStartTime))]>
                                 (<[p := u3]> (mem w1))))).
  { unfold mutate. rewrite Hg, obind_Ok. fold p. rewrite Hrep, obind_Ok.
    cbv beta iota. rewrite Hc, obind_Ok.
    rewrite (retryCount_replaceOrAdd_writes _ _ _ _ _ Hp1), obind_Ok.
    cbv beta iota. rewrite Hr, obind_Ok. fold n v2 u2 reason.
    rewrite (retryReason_replaceOrAdd_writes p reason _ u2)
      by apply lookup_insert_eq.
    rewrite obind_Ok. cbv beta iota. rewrite insert_insert_eq.
    change (Path u2) with (Path u1). fold v3 u3.
    rewrite (ensure_writes queryRequestPath p clientStartTime _ u3)
      by (try apply lookup_insert_eq; exact Hq3).
    rewrite obind_Ok. cbv beta iota. reflexivity. }
  rewrite Hrun.
  destruct (Has (Query u3) clientStartTimeKey) eqn:Hhas.
  - eexists _, _, u3. split; [reflexivity|]. split; [reflexivity|].
    split; [apply lookup_insert_eq|]. split; [exact Hpath1|].
    split; [reflexivity|]. split; [exact H3rc|]. split; [exact H3rr|].
    split.
    + unfold Has in Hhas. rewrite H3o in * by congruence.
      destruct (present values clientStartTimeKey); [reflexivity|discriminate].
    + intros k Hk1 Hk2 _. apply H3o; assumption.
  - assert (Hnone : Query u3 !! clientStartTimeKey = None)
      by (unfold Has in Hhas; destruct (Query u3 !! clientStartTimeKey);
          [discriminate|reflexivity]).
    eexists _, _, _. split; [reflexivity|]. split; [reflexivity|].
    split; [apply lookup_insert_eq|]. split; [exact Hpath1|].
    split; [reflexivity|].
    split; [rewrite Query_Encode, present_Add_ne, present_Query by congruence;
            exact H3rc|].
    split; [rewrite Query_Encode, present_Add_ne, present_Query by congruence;
            exact H3rr|].
    split.
    + rewrite H3o in Hnone by congruence. rewrite Hnone.
      rewrite Query_Encode. unfold present.
      rewrite Add_lookup_eq. destruct (Query u3 !! clientStartTimeKey) eqn:E.
      * rewrite H3o in E by congruence. congruence.
      * reflexivity.
    + intros k Hk1 Hk2 Hk3.
      rewrite Query_Encode, present_Add_ne, present_Query by congruence.
      apply H3o; assumption.
Qed.

End LaterRetries.

Lemma later_retries_restamp_the_cached_query_witness :
  exists l' w' u',
    mutate Fake.NewUUID Fake.queryRequestPath
      (Fake.executor [] (Fake.answer 503) 0 false) "1700000000"
      (mkLocals 0%nat 0 1 Duration.Second
         (Some (requestGUIDReplace 0%nat (fst (ParseQuery "request_guid=uuid-0&x=1"))))
         (Some (retryCountUpdate 0%nat (fst (ParseQuery "request_guid=uuid-0&x=1"))))
         (Some (retryReasonUpdate 0%nat)))
      (Some (mkResponse 503 ""))
      (mkWorld {[0%nat := mkURL "/queries/v1/query-request"
                            "request_guid=uuid-0&retryCount=1&x=1"]}
         (constRand 1) (Fake.mkEnv 2 1) [])
    = Ok (l', w')
    /\ mem w' !! 0%nat = Some u'
    /\ generatedIds (trace w') = ["uuid-1"]
    /\ Query u' !! requestGUIDKey = Some ["uuid-0"]
    /\ Query u' !! retryCountKey = Some ["2"]
    /\ Query u' !! retryReasonKey = Some ["503"]
    /\ Query u' !! clientStartTimeKey = Some ["1700000000"].
Proof.
  destruct (later_retries_restamp_the_cached_query Fake.NewUUID
              Fake.queryRequestPath
              (Fake.executor [] (Fake.answer 503) 0 false) "1700000000"
              (mkLocals 0%nat 0 1 Duration.Second
                 (Some (requestGUIDReplace 0%nat
                          (fst (ParseQuery "request_guid=uuid-0&x=1"))))
                 (Some (retryCountUpdate 0%nat
                          (fst (ParseQuery "request_guid=uuid-0&x=1"))))
                 (Some (retryReasonUpdate 0%nat)))
              (Some (mkResponse 503 ""))
              (mkWorld {[0%nat := mkURL "/queries/v1/query-request"
                                    "request_guid=uuid-0&retryCount=1&x=1"]}
                 (constRand 1) (Fake.mkEnv 2 1) [])
              (mkURL "/queries/v1/query-request"
                 "request_guid=uuid-0&retryCount=1&x=1")
              (requestGUIDReplace 0%nat (fst (ParseQuery "request_guid=uuid-0&x=1")))
              (fst (ParseQuery "request_guid=uuid-0&x=1")))
    as (l' & w' & u' & Hrun & _ & Hmem & _ & _ & Hrc & Hrr & Hcs & Hother);
    try reflexivity.
  exists l', w', u'. split; [exact Hrun|]. split; [exact Hmem|].
  split.
  - vm_compute in Hrun. injection Hrun as _ Hw. rewrite <- Hw. reflexivity.
  - split; [rewrite Hother by discriminate; vm_compute; reflexivity|].
    split; [exact Hrc|]. split; [exact Hrr|exact Hcs].
Defined.

(** ** How a call ends in its first phase *)

Section Ends.

Context {Env : Type}.
Variable NewUUID : Env -> string * Env.
Variable queryRequestPath : string.
Variable ErrOCSPStatusRevoked : Z.
Variable GOOS : string.
Variable DurationString : Z -> string.

Implicit Types (r : @retryHTTP Env) (l : locals) (w : @World Env).

(** X13: when the body cannot be created, or the request cannot be
    built, the call ends at once with that error and no response; nothing
    was sent, no backoff was drawn and the URL is as it was. *)
Theorem nothing_is_sent_when_the_request_cannot_be_built (fuel : nat)
  (clientStartTime : string) r l w (body : string) (e : error) (e1 : Env) :
  (bodyCreator r (env w) = (body, Some e, e1) ->
   loop NewUUID queryRequestPath ErrOCSPStatusRevoked GOOS DurationString
        (S fuel) r clientStartTime l w
   = Ok (Some (None, Some e), mkWorld (mem w) (rnd w) e1 (trace w)))
  /\ (forall (u : URL) (rq : option Request) (e2 : Env),
        bodyCreator r (env w) = (body, None, e1) ->
        mem w !! urlOf l = Some u ->
        req r (method r) u body e1 = (rq, Some e, e2) ->
        loop NewUUID queryRequestPath ErrOCSPStatusRevoked GOOS DurationString
             (S fuel) r clientStartTime l w
        = Ok (Some (None, Some e), mkWorld (mem w) (rnd w) e2 (trace w))).
Proof.
  split.
  - intros Hb. cbn [loop]. unfold turn, attempt. rewrite Hb. reflexivity.
  - intros u rq e2 Hb Hu Hq. cbn [loop]. unfold turn, attempt, deref.
    rewrite Hb, Hu, Hq. reflexivity.
Qed.

(** X14: a transport error the classifier stops on ends the call in the
    turn that met it: the caller gets what the transport returned as
    response and the error the classifier hands back; the request was
    sent, and no backoff, mutation or sleep followed. *)
Theorem fatal_transport_errors_end_the_call (fuel : nat)
  (clientStartTime : string) r l w (u : URL) (res : option Response)
  (err : error) (e3 : Env) :
  transportAnswers r l w u res (Some err) e3 ->
  fst (isRetryableError ErrOCSPStatusRevoked GOOS err) = true ->
  loop NewUUID queryRequestPath ErrOCSPStatusRevoked GOOS DurationString
       (S fuel) r clientStartTime l w
  = Ok (Some (res, Some (snd (isRetryableError ErrOCSPStatusRevoked GOOS err))),
        mkWorld (mem w) (rnd w) e3 (trace w ++ [Sent u])).
Proof.
  intros Ht Hstop. cbn [loop]. unfold turn.
  rewrite (attempt_transport_error _ _ _ _ _ _ _ _ _ Ht), Hstop. reflexivity.
Qed.

(** X15: a response with status 200 ends the call in the turn that
    received it, whether raise4XX is on or off: the response is returned
    without error and nothing but the send was observed. *)
Theorem status_200_ends_the_call (fuel : nat) (clientStartTime : string)
  r l w (u : URL) (rs : Response) (e3 : Env) :
  transportAnswers r l w u (Some rs) None e3 ->
  StatusCode rs = StatusOK ->
  loop NewUUID queryRequestPath ErrOCSPStatusRevoked GOOS DurationString
       (S fuel) r clientStartTime l w
  = Ok (Some (Some rs, None), mkWorld (mem w) (rnd w) e3 (trace w ++ [Sent u])).
Proof.
  intros Ht Hok. cbn [loop]. unfold turn.
  rewrite (attempt_response _ _ _ _ _ _ _ _ Ht), Hok, Z.eqb_refl. reflexivity.
Qed.

(** X16: with raise4XX off, which is how [newRetryHTTP] builds an
    executor, every response with a status other than 200 is retried,
    any 4xx included: the turn goes on to the backoff with the response
    in hand. *)
Theorem without_raise4XX_every_other_status_is_retried r l w (u : URL)
  (rs : Response) (e3 : Env) :
  raise4XX r = false ->
  transportAnswers r l w u (Some rs) None e3 ->
  StatusCode rs <> StatusOK ->
  attempt ErrOCSPStatusRevoked GOOS r l w
  = Ok (Next (Some rs, None), emit (setEnv w e3) (Sent u)).
Proof.
  intros Hraise Ht Hne.
  rewrite (attempt_response _ _ _ _ _ _ _ _ Ht), Hraise.
  apply Z.eqb_neq in Hne. rewrite Hne. reflexivity.
Qed.

End Ends.

(** The builders keep raise4XX off until [doRaise4XX] turns it on. *)
Lemma raise4XX_is_off_by_default {Env : Type}
  (emptyBodyCreator : Env -> (string * option error) * Env)
  ctx client req fullURL headers timeout currentTimeProvider cfg
  (body : string) :
  raise4XX (setBody (doPost (newRetryHTTP emptyBodyCreator ctx client req fullURL
                               headers timeout currentTimeProvider cfg)) body)
  = false.
Proof. reflexivity. Qed.

Lemma nothing_is_sent_when_the_request_cannot_be_built_witness :
  loop Fake.NewUUID Fake.queryRequestPath Fake.ErrOCSPStatusRevoked "linux"
    Fake.DurationString 1
    (setBodyCreator (Fake.executor [] (Fake.answer 200) 0 false)
       (fun e => (EmptyString, Some (errorString "no body"), e)))
    "1700000000"
    (initLocals (Fake.executor [] (Fake.answer 200) 0 false))
    (Fake.world "/session/heartbeat" "" (constRand 1))
  = Ok (Some (None, Some (errorString "no body")),
        Fake.world "/session/heartbeat" "" (constRand 1)).
Proof.
  apply (proj1 (nothing_is_sent_when_the_request_cannot_be_built Fake.NewUUID
                  Fake.queryRequestPath Fake.ErrOCSPStatusRevoked "linux"
                  Fake.DurationString 0 "1700000000"
                  (setBodyCreator (Fake.executor [] (Fake.answer 200) 0 false)
                     (fun e => (EmptyString, Some (errorString "no body"), e)))
                  (initLocals (Fake.executor [] (Fake.answer 200) 0 false))
                  (Fake.world "/session/heartbeat" "" (constRand 1))
                  EmptyString (errorString "no body") (Fake.mkEnv 0 0))).
  reflexivity.
Defined.

Lemma fatal_transport_errors_end_the_call_witness :
  Fake.run 5
    (Fake.executor []
       (None, Some (URLError "Post" "https://host/x" (UnknownAuthorityError "x509")))
       0 false)
    (Fake.world "/session/heartbeat" "" (constRand 1))
  = Ok (Some (None, Some (URLError "Post" "https://host/x"
                            (UnknownAuthorityError "x509"))),
        mkWorld {[0%nat := mkURL "/session/heartbeat" ""]} (constRand 1)
          (Fake.mkEnv 1 0) [Sent (mkURL "/session/heartbeat" "")]).
Proof.
  apply (fatal_transport_errors_end_the_call Fake.NewUUID Fake.queryRequestPath
           Fake.ErrOCSPStatusRevoked "linux" Fake.DurationString 4
           (Itoa 1700000000)
           (Fake.executor []
              (None, Some (URLError "Post" "https://host/x"
                             (UnknownAuthorityError "x509"))) 0 false)
           (initLocals (Fake.executor [] (None, None) 0 false))
           (Fake.world "/session/heartbeat" "" (constRand 1))
           (mkURL "/session/heartbeat" "") None
           (URLError "Post" "https://host/x" (UnknownAuthorityError "x509"))
           (Fake.mkEnv 1 0)).
  - exists EmptyString, (Fake.mkEnv 0 0),
      (mkRequest "POST" (mkURL "/session/heartbeat" "") EmptyString ∅),
      (Fake.mkEnv 0 0).
    repeat split.
  - reflexivity.
Defined.

Lemma status_200_ends_the_call_witness :
  Fake.run 5 (Fake.executor [] (Fake.answer 200) Duration.Second true)
    (Fake.world "/session/heartbeat" "" (constRand 1))
  = Ok (Some (Some (mkResponse 200 ""), None),
        mkWorld {[0%nat := mkURL "/session/heartbeat" ""]} (constRand 1)
          (Fake.mkEnv 1 0) [Sent (mkURL "/session/heartbeat" "")]).
Proof.
  apply (status_200_ends_the_call Fake.NewUUID Fake.queryRequestPath
           Fake.ErrOCSPStatusRevoked "linux" Fake.DurationString 4
           (Itoa 1700000000)
           (Fake.executor [] (Fake.answer 200) Duration.Second true)
           (initLocals (Fake.executor [] (Fake.answer 200) Duration.Second true))
           (Fake.world "/session/heartbeat" "" (constRand 1))
           (mkURL "/session/heartbeat" "") (mkResponse 200 "") (Fake.mkEnv 1 0)).
  - exists EmptyString, (Fake.mkEnv 0 0),
      (mkRequest "POST" (mkURL "/session/heartbeat" "") EmptyString ∅),
      (Fake.mkEnv 0 0).
    repeat split.
  - reflexivity.
Defined.

Lemma without_raise4XX_every_other_status_is_retried_witness :
  attempt Fake.ErrOCSPStatusRevoked "linux"
    (setBody
       (doPost
          (newRetryHTTP (fun e : Fake.env => (EmptyString, None, e))
             (fun _ e => (None, e)) (Fake.transport [] (Fake.answer 403))
             (fun m u b e => (Some (mkRequest m u b ∅), None, e))
             0%nat ∅ 0 (fun e => (1700000000, e)) None))
       "payload")
    (mkLocals 0%nat 0 0 0 None None None)
    (Fake.world "/session/v1/login-request" "" (constRand 1))
  = Ok (Next (Some (mkResponse 403 ""), None),
        emit (setEnv (Fake.world "/session/v1/login-request" "" (constRand 1))
                (Fake.mkEnv 1 0))
          (Sent (mkURL "/session/v1/login-request" ""))).
Proof.
  apply (without_raise4XX_every_other_status_is_retried
           Fake.ErrOCSPStatusRevoked "linux").
  - apply raise4XX_is_off_by_default.
  - exists "payload", (Fake.mkEnv 0 0),
      (mkRequest "POST" (mkURL "/session/v1/login-request" "") "payload" ∅),
      (Fake.mkEnv 0 0).
    repeat split.
  - discriminate.
Defined.

(** ** The mutation pass never fails on a live URL *)

Section Safety.

Context {Env : Type}.
Variable NewUUID : Env -> string * Env.
Variable queryRequestPath : string.
Variable ErrOCSPStatusRevoked : Z.
Variable GOOS : string.
Variable DurationString : Z -> string.

Implicit Types (r : @retryHTTP Env) (l : locals) (w : @World Env).

Lemma guid_built (g0 : option requestGUIDReplacer) (h : heap) (p : loc) (u : URL) :
  h !! p = Some u ->
  (forall g, g0 = Some g -> guidPtr g = p) ->
  exists g, match g0 with
            | None => newRequestGUIDReplace p h
            | Some g => Ok g
            end = Ok g /\ guidPtr g = p.
Proof.
  intros Hp Hheld. destruct g0 as [g|]; [eauto|].
  unfold newRequestGUIDReplace, deref. rewrite Hp.
  destruct (ParseQuery (RawQuery u)) as [values [err|]]; [eauto|].
  destruct (_ =? _)%nat; eauto.
Qed.

Lemma count_built (c0 : option retryCountUpdater) (h : heap) (p : loc) (u : URL) :
  h !! p = Some u ->
  (forall c, c0 = Some c -> countPtr c = p) ->
  exists c, match c0 with
            | None => newRetryCountUpdater queryRequestPath p h
            | Some c => Ok c
            end = Ok c /\ countPtr c = p.
Proof.
  intros Hp Hheld. destruct c0 as [c|]; [eauto|].
  unfold newRetryCountUpdater, deref. rewrite Hp.
  destruct (negb _); [eauto|].
  destruct (ParseQuery (RawQuery u)) as [values [err|]]; eauto.
Qed.

Lemma reason_built (c0 : option retryReasonUpdater) (cfg : option Config)
  (h : heap) (p : loc) (u : URL) :
  h !! p = Some u ->
  (forall c, c0 = Some c -> reasonPtr c = p) ->
  exists c, match c0 with
            | None => newRetryReasonUpdater queryRequestPath p cfg h
            | Some c => Ok c
            end = Ok c /\ reasonPtr c = p.
Proof.
  intros Hp Hheld. destruct c0 as [c|]; [eauto|].
  unfold newRetryReasonUpdater, deref. rewrite Hp.
  destruct (negb _); [eauto|].
  destruct cfg as [c|]; [|eauto]. destruct (ConfigBool_eqb _ _); eauto.
Qed.

Lemma count_stamp_held (c : retryCountUpdater) (retry : Z) (h : heap) (u : URL) :
  h !! countPtr c = Some u ->
  exists c' u',
    retryCount_replaceOrAdd c retry h = Ok (countPtr c, c', <[countPtr c := u']> h)
    /\ countPtr c' = countPtr c /\ Path u' = Path u.
Proof.
  intros Hp. destruct c as [p | p values]; cbn [countPtr] in *.
  - exists (transientRetryCountUpdater p), u. rewrite insert_id by exact Hp. auto.
  - rewrite (retryCount_replaceOrAdd_writes _ _ _ _ _ Hp). eexists _, _.
    split; [reflexivity|]. auto.
Qed.

Lemma reason_stamp_held (c : retryReasonUpdater) (reason : Z) (h : heap) (u : URL) :
  h !! reasonPtr c = Some u ->
  exists u',
    retryReason_replaceOrAdd c reason h = Ok (reasonPtr c, <[reasonPtr c := u']> h)
    /\ Path u' = Path u.
Proof.
  intros Hp. destruct c as [p | p]; cbn [reasonPtr] in *.
  - exists u. rewrite insert_id by exact Hp. auto.
  - rewrite (retryReason_replaceOrAdd_writes _ _ _ _ Hp). eexists.
    split; [reflexivity|]. auto.
Qed.

Lemma ensure_held (p : loc) (ts : string) (h : heap) (u : URL) :
  h !! p = Some u ->
  exists u',
    ensureClientStartTimeIsSet queryRequestPath p ts h = Ok (p, <[p := u']> h)
    /\ Path u' = Path u.
Proof.
  intros Hp. unfold ensureClientStartTimeIsSet, deref. rewrite Hp.
  destruct (negb _).
  - exists u. rewrite insert_id by exact Hp. auto.
  - destruct (Has _ _).
    + exists u. rewrite insert_id by exact Hp. auto.
    + rewrite (proj1 (setRawQuery_lookup _ _ _ _ Hp)). eexists.
      split; [reflexivity|]. auto.
Qed.

Lemma mutate_held r (clientStartTime : string) l
  (res : option Response) w (u : URL) :
  mem w !! urlOf l = Some u ->
  mutatorsHold l ->
  exists l' w' u',
    mutate NewUUID queryRequestPath r clientStartTime l res w = Ok (l', w')
    /\ urlOf l' = urlOf l
    /\ mem w' = <[urlOf l := u']> (mem w)
    /\ Path u' = Path u
    /\ mutatorsHold l'
    /\ retryCounter l' = Duration.wrap (retryCounter l + 1)
    /\ totalTimeout l' = totalTimeout l
    /\ sleepTime l' = sleepTime l
    /\ rnd w' = rnd w
    /\ ((env w' = env w /\ trace w' = trace w)
        \/ (env w' = (NewUUID (env w)).2
            /\ trace w' = trace w ++ [Generated (NewUUID (env w)).1])).
Proof.
  intros Hp (Hg & Hc & Hr). set (p := urlOf l) in *.
  destruct (guid_built (guidReplacer l) (mem w) p u Hp Hg) as (g & Hg1 & Hgp).
  rewrite <- Hgp in Hp.
  destruct (replace_held NewUUID g w u Hp)
    as (g' & w1 & u1 & Hrep & Hgp' & Hm1 & Hpath1 & Hrnd1 & Htr1).
  rewrite Hgp in *.
  assert (Hp1 : mem w1 !! p = Some u1) by (rewrite Hm1; apply lookup_insert_eq).
  destruct (count_built (countUpdater l) (mem w1) p u1 Hp1 Hc) as (c & Hc1 & Hcp).
  rewrite <- Hcp in Hp1.
  destruct (count_stamp_held c (Duration.wrap (retryCounter l + 1)) (mem w1) u1 Hp1)
    as (c' & u2 & Hstamp & Hcp' & Hpath2).
  rewrite Hcp in *.
  assert (Hp2 : <[p := u2]> (mem w1) !! p = Some u2) by apply lookup_insert_eq.
  destruct (reason_built (reasonUpdater l) (cfg r) _ p u2 Hp2 Hr) as (c3 & Hr1 & Hrp).
  rewrite <- Hrp in Hp2.
  destruct (reason_stamp_held c3
              match res with Some rs => StatusCode rs | None => 0 end _ u2 Hp2)
    as (u3 & Hstamp3 & Hpath3).
  rewrite Hrp in *. rewrite insert_insert_eq in Hstamp3.
  destruct (ensure_held p clientStartTime (<[p := u3]> (mem w1)) u3
              (lookup_insert_eq _ _ _)) as (u4 & Hens & Hpath4).
  rewrite insert_insert_eq in Hens.
  exists (mkLocals p (totalTimeout l) (Duration.wrap (retryCounter l + 1))
            (sleepTime l) (Some g') (Some c') (Some c3)),
    (setMem w1 (<[p := u4]> (mem w1))), u4.
  split.
  - unfold mutate. fold p. rewrite Hg1, obind_Ok, Hrep, obind_Ok.
    cbv beta iota. rewrite Hc1, obind_Ok, Hstamp, obind_Ok. cbv beta iota.
    rewrite Hr1, obind_Ok, Hstamp3, obind_Ok. cbv beta iota.
    rewrite Hens, obind_Ok. reflexivity.
  - split; [reflexivity|]. cbn [mem setMem rnd env trace].
    split; [rewrite Hm1; apply insert_insert_eq|].
    split; [congruence|].
    split.
    { unfold mutatorsHold. cbn [guidReplacer countUpdater reasonUpdater urlOf].
      repeat split; intros x Hx; injection Hx as <-; assumption. }
    split; [reflexivity|]. split; [reflexivity|]. split; [reflexivity|].
    split; [exact Hrnd1|exact Htr1].
Qed.

Lemma generatedIds_app (t1 t2 : list event) :
  generatedIds (t1 ++ t2) = generatedIds t1 ++ generatedIds t2.
Proof.
  induction t1 as [|ev t1 IH]; [reflexivity|].
  destruct ev; simpl; rewrite IH; reflexivity.
Qed.

(** X17: on a live URL that every mutator built so far holds, the
    mutation pass never fails, however many retries there are. The passes
    count the retries, write at most the query of that one URL (its path
    and every other URL object stay as they are), leave budget, sleep and
    random source alone, draw at most one identifier each, and every
    mutator still holds the URL afterwards. *)
Theorem mutation_passes_never_fail r (clientStartTime : string)
  (responses : list (option Response)) l w (u : URL) :
  mem w !! urlOf l = Some u ->
  mutatorsHold l ->
  exists l' w' u',
    mutateMany NewUUID queryRequestPath r clientStartTime responses l w
    = Ok (l', w')
    /\ urlOf l' = urlOf l
    /\ mem w' = <[urlOf l := u']> (mem w)
    /\ Path u' = Path u
    /\ mutatorsHold l'
    /\ retryCounter l'
       = Nat.iter (length responses) (fun c => Duration.wrap (c + 1))
           (retryCounter l)
    /\ totalTimeout l' = totalTimeout l
    /\ sleepTime l' = sleepTime l
    /\ rnd w' = rnd w
    /\ (length (generatedIds (trace w'))
        <= length (generatedIds (trace w)) + length responses)%nat.
Proof.
  revert l w u. induction responses as [|res rest IH]; intros l w u Hp Hheld.
  - exists l, w, u. split; [reflexivity|]. split; [reflexivity|].
    split; [rewrite insert_id by exact Hp; reflexivity|].
    repeat (split; [reflexivity || assumption|]). simpl. lia.
  - destruct (mutate_held r clientStartTime l res w u Hp Hheld)
      as (l1 & w1 & u1 & Hmut & Hu1 & Hm1 & Hpath1 & Hheld1 & Hrc1 & Htt1
          & Hs1 & Hrnd1 & Htr1).
    assert (Hp1 : mem w1 !! urlOf l1 = Some u1)
      by (rewrite Hm1, Hu1; apply lookup_insert_eq).
    destruct (IH l1 w1 u1 Hp1 Hheld1)
      as (l' & w' & u' & Hrun & Hu' & Hm' & Hpath' & Hheld' & Hrc' & Htt'
          & Hs' & Hrnd' & Hgen').
    exists l', w', u'. cbn [mutateMany]. rewrite Hmut, obind_Ok.
    split; [exact Hrun|]. split; [congruence|].
    split; [rewrite Hm', Hm1, Hu1; apply insert_insert_eq|].
    split; [congruence|]. split; [exact Hheld'|].
    split.
    { rewrite Hrc', Hrc1. cbn [length]. rewrite Nat.iter_succ_r. reflexivity. }
    split; [congruence|]. split; [congruence|]. split; [congruence|].
    cbn [length].
    destruct Htr1 as [[_ Htr1] | [_ Htr1]]; rewrite Htr1 in Hgen';
      rewrite ?generatedIds_app, ?length_app in Hgen'; simpl in Hgen'; lia.
Qed.

End Safety.

(** ** A call fails only through its transport *)

Section NoPanic.

Context {Env : Type}.
Variable NewUUID : Env -> string * Env.
Variable queryRequestPath : string.
Variable ErrOCSPStatusRevoked : Z.
Variable GOOS : string.
Variable DurationString : Z -> string.

Implicit Types (r : @retryHTTP Env) (l : locals) (w : @World Env).





End NoPanic.

(** ** What a turn that goes on has done *)

Lemma sleeps_app (t1 t2 : list event) : sleeps (t1 ++ t2) = sleeps t1 ++ sleeps t2.
Proof.
  induction t1 as [|ev t1 IH]; [reflexivity|].
  destruct ev; simpl; rewrite IH; reflexivity.
Qed.

Lemma sentCount_app (t1 t2 : list event) :
  sentCount (t1 ++ t2) = (sentCount t1 + sentCount t2)%nat.
Proof.
  induction t1 as [|ev t1 IH]; [reflexivity|].
  destruct ev; simpl; rewrite IH; reflexivity.
Qed.

Section Accounting.

Context {Env : Type}.
Variable NewUUID : Env -> string * Env.
Variable queryRequestPath : string.
Variable ErrOCSPStatusRevoked : Z.
Variable GOOS : string.
Variable DurationString : Z -> string.

Implicit Types (r : @retryHTTP Env) (l : locals) (w : @World Env).

Lemma replace_inv (g g' : requestGUIDReplacer) (p1 : loc) w w1 :
  replace NewUUID g w = Ok (p1, g', w1) ->
  rnd w1 = rnd w
  /\ (trace w1 = trace w \/ exists id, trace w1 = trace w ++ [Generated id]).
Proof.
  destruct g as [p | p values]; unfold replace.
  - intros H. inversion H; subst. auto.
  - destruct (NewUUID (env w)) as [id e']. unfold deref.
    destruct (mem w !! p); [|discriminate].
    intros H. inversion H; subst. simpl. eauto.
Qed.

Lemma mutate_inv r (clientStartTime : string) l (res : option Response) w l' w' :
  mutate NewUUID queryRequestPath r clientStartTime l res w = Ok (l', w') ->
  sleepTime l' = sleepTime l /\ totalTimeout l' = totalTimeout l
  /\ retryCounter l' = Duration.wrap (retryCounter l + 1)
  /\ rnd w' = rnd w
  /\ (trace w' = trace w \/ exists id, trace w' = trace w ++ [Generated id]).
Proof.
  unfold mutate. intros H.
  apply obind_Ok_inv in H as (g & _ & H).
  apply obind_Ok_inv in H as ([[p1 g'] w1] & Hrep & H).
  apply obind_Ok_inv in H as (c & _ & H).
  apply obind_Ok_inv in H as ([[p2 c'] h2] & _ & H).
  apply obind_Ok_inv in H as (u & _ & H).
  apply obind_Ok_inv in H as ([p3 h3] & _ & H).
  apply obind_Ok_inv in H as ([p4 h4] & _ & H).
  apply replace_inv in Hrep as [Hrnd Htr].
  inversion H; subst. simpl. auto.
Qed.

Lemma backoff_Next_inv r l (res : option Response) (err : option error) w l' w' :
  backoff DurationString r l res err w = Ok (Next l', w') ->
  decorr defaultWaitAlgo (retryCounter l) (sleepTime l) (rnd w)
  = Ok (sleepTime l', rnd w')
  /\ retryCounter l' = retryCounter l
  /\ trace w' = trace w ++ [Backoff (sleepTime l')]
  /\ (0 < totalTimeout l ->
      totalTimeout l' = Duration.sub (totalTimeout l) (sleepTime l')
      /\ 0 < totalTimeout l')
  /\ (totalTimeout l <= 0 -> totalTimeout l' = totalTimeout l).
Proof.
  unfold backoff.
  destruct (decorr defaultWaitAlgo (retryCounter l) (sleepTime l) (rnd w))
    as [[sleep rnd']|]; [rewrite obind_Ok|discriminate].
  cbv beta iota.
  destruct (0 <? totalTimeout l) eqn:Epos.
  - apply Z.ltb_lt in Epos.
    destruct (Duration.sub (totalTimeout l) sleep <=? 0) eqn:Eleft.
    + destruct err, res; discriminate.
    + apply Z.leb_gt in Eleft. intros H. inversion H; subst. simpl.
      repeat split; try reflexivity; try lia.
  - apply Z.ltb_ge in Epos. intros H. inversion H; subst. simpl.
    repeat split; try reflexivity; lia.
Qed.

(** X19: the books of a turn that goes on to the next attempt: the retry
    counter went up by one, the turn slept exactly the sleep the backoff
    computed, and a configured budget was charged that sleep and nothing
    else (the time the attempt took is not charged) and is still
    positive; a budget that is not configured stays as it is. *)
Theorem budget_is_charged_the_sleeps r (clientStartTime : string) l w l' w' :
  turn NewUUID queryRequestPath ErrOCSPStatusRevoked GOOS DurationString
       r clientStartTime l w = Ok (Next l', w') ->
  retryCounter l' = Duration.wrap (retryCounter l + 1)
  /\ sleeps (trace w') = sleeps (trace w) ++ [sleepTime l']
  /\ (0 < totalTimeout l ->
      totalTimeout l' = Duration.sub (totalTimeout l) (sleepTime l')
      /\ 0 < totalTimeout l')
  /\ (totalTimeout l <= 0 -> totalTimeout l' = totalTimeout l).
Proof.
  unfold turn. intros H.
  apply obind_Ok_inv in H as ([f1 w1] & Ha & H).
  destruct f1 as [res err | [res err]]; [discriminate|].
  apply obind_Ok_inv in H as ([f2 w2] & Hb & H).
  destruct f2 as [res2 err2 | l2]; [discriminate|].
  apply obind_Ok_inv in H as ([l3 w3] & Hm & H).
  destruct (attempt_inv _ _ _ _ _ _ _ Ha) as (_ & _ & Ht1).
  destruct Ht1 as [(? & ? & Hf & _) | (u & _ & Ht1)]; [discriminate|].
  apply backoff_Next_inv in Hb as (_ & Hrc2 & Ht2 & Hpos & Hnone).
  apply mutate_inv in Hm as (Hs3 & Htt3 & Hrc3 & _ & Ht3).
  unfold await in H.
  destruct (awaitOrDone r (sleepTime l3) (env w3)) as [[ctxErr|] e'];
    inversion H; subst; clear H.
  cbn [trace emit setEnv]. rewrite Hrc3, Hrc2, Htt3, Hs3.
  split; [reflexivity|]. split; [|auto].
  rewrite sleeps_app. simpl. f_equal.
  destruct Ht3 as [-> | (id & ->)]; rewrite Ht2, Ht1, ?sleeps_app; simpl;
    rewrite ?app_nil_r; reflexivity.
Qed.

Lemma backoff_trace r l (res : option Response) (err : option error) w
  (k : Z) f w' :
  sleepTime l = k * Duration.Second -> 0 <= k <= 160 ->
  backoff DurationString r l res err w = Ok (f, w') ->
  exists k', 0 <= k' <= 160
    /\ trace w' = trace w ++ [Backoff (k' * Duration.Second)]
    /\ forall l', f = Next l' -> sleepTime l' = k' * Duration.Second.
Proof.
  intros Hs Hk. unfold backoff. rewrite Hs.
  destruct (decorr_default_seconds (retryCounter l) k (rnd w) Hk)
    as (k' & rnd' & Hd & Hk').
  rewrite Hd, obind_Ok. cbv beta iota. intros H. exists k'.
  split; [exact Hk'|].
  destruct (0 <? totalTimeout l).
  - destruct (Duration.sub (totalTimeout l) (k' * Duration.Second) <=? 0).
    + destruct err, res; inversion H; subst; (split; [reflexivity|]);
        intros l' Hl; discriminate.
    + inversion H; subst. split; [reflexivity|].
      intros l' Hl. inversion Hl; subst. reflexivity.
  - inversion H; subst. split; [reflexivity|].
    intros l' Hl. inversion Hl; subst. reflexivity.
Qed.

(** The trace of one turn, and the sleep it hands on. *)
Lemma turn_trace r (clientStartTime : string) l w (k : Z) f w' :
  sleepTime l = k * Duration.Second -> 0 <= k <= 160 ->
  turn NewUUID queryRequestPath ErrOCSPStatusRevoked GOOS DurationString
       r clientStartTime l w = Ok (f, w') ->
  exists t, trace w' = trace w ++ t
    /\ match f with
       | Return _ _ => disciplined Idle t
       | Next l' =>
           (exists k', sleepTime l' = k' * Duration.Second /\ 0 <= k' <= 160)
           /\ forall rest, disciplined Idle rest -> disciplined Idle (t ++ rest)
       end.
Proof.
  intros Hs Hk. unfold turn. intros H.
  apply obind_Ok_inv in H as ([f1 w1] & Ha & H).
  destruct (attempt_inv _ _ _ _ _ _ _ Ha) as (_ & _ & Ht1).
  destruct f1 as [res1 err1 | [res1 err1]].
  { inversion H; subst.
    destruct Ht1 as [(? & ? & _ & ->) | (u & _ & ->)].
    - exists []. rewrite app_nil_r. split; [reflexivity|exact I].
    - exists [Sent u]. split; [reflexivity|exact I]. }
  destruct Ht1 as [(? & ? & Hf & _) | (u & _ & Ht1)]; [discriminate|].
  apply obind_Ok_inv in H as ([f2 w2] & Hb & H).
  destruct (backoff_trace _ _ _ _ _ _ _ _ Hs Hk Hb) as (k' & Hk' & Ht2 & Hn).
  destruct f2 as [res2 err2 | l2].
  { inversion H; subst. exists [Sent u; Backoff (k' * Duration.Second)].
    rewrite Ht2, Ht1, <- app_assoc. split; [reflexivity|]. simpl. eauto. }
  specialize (Hn l2 eq_refl).
  apply obind_Ok_inv in H as ([l3 w3] & Hm & H).
  apply mutate_inv in Hm as (Hs3 & _ & _ & _ & Ht3).
  rewrite Hn in Hs3. unfold await in H.
  destruct (awaitOrDone r (sleepTime l3) (env w3)) as [[ctxErr|] e'];
    inversion H; subst; clear H; cbn [trace setEnv emit].
  - destruct Ht3 as [-> | (id & ->)]; rewrite Ht2, Ht1, <- ?app_assoc.
    + exists [Sent u; Backoff (k' * Duration.Second)]. split; [reflexivity|].
      simpl. eauto.
    + exists [Sent u; Backoff (k' * Duration.Second); Generated id].
      split; [reflexivity|]. simpl. eauto.
  - destruct Ht3 as [-> | (id & ->)]; rewrite Ht2, Ht1, <- ?app_assoc, Hs3.
    + exists [Sent u; Backoff (k' * Duration.Second);
              Slept (k' * Duration.Second)].
      split; [reflexivity|]. split; [eauto|]. intros rest Hrest. simpl. eauto.
    + exists [Sent u; Backoff (k' * Duration.Second); Generated id;
              Slept (k' * Duration.Second)].
      split; [reflexivity|]. split; [eauto|]. intros rest Hrest. simpl. eauto.
Qed.

Lemma loop_trace (fuel : nat) r (clientStartTime : string) l w (k : Z)
  (res : option (option Response * option error)) w' :
  sleepTime l = k * Duration.Second -> 0 <= k <= 160 ->
  loop NewUUID queryRequestPath ErrOCSPStatusRevoked GOOS DurationString
       fuel r clientStartTime l w = Ok (res, w') ->
  exists t, trace w' = trace w ++ t /\ disciplined Idle t.
Proof.
  revert l w k. induction fuel as [|fuel IH]; intros l w k Hs Hk.
  - simpl. intros H. inversion H; subst. exists []. rewrite app_nil_r.
    split; [reflexivity|exact I].
  - cbn [loop]. intros H.
    apply obind_Ok_inv in H as ([f w1] & Hturn & H).
    destruct (turn_trace _ _ _ _ _ _ _ Hs Hk Hturn) as (t1 & Ht1 & Hf).
    destruct f as [res1 err1 | l1].
    + inversion H; subst. eauto.
    + destruct Hf as ((k1 & Hs1 & Hk1) & Hcont).
      destruct (IH _ _ _ Hs1 Hk1 H) as (t2 & Ht2 & Hd2).
      exists (t1 ++ t2). rewrite Ht2, Ht1, app_assoc. auto.
Qed.

(** X20: the order of what a call does. Every request is followed by the
    backoff computed for it before anything else happens; every backoff
    is a whole number of seconds between 0 and 160; an identifier is only
    generated between a backoff and the sleep that follows it; and every
    sleep is exactly the backoff computed in the same turn. *)
Theorem calls_are_disciplined (fuel : nat) r w
  (res : option (option Response * option error)) w' :
  execute NewUUID queryRequestPath ErrOCSPStatusRevoked GOOS DurationString
          fuel r w = Ok (res, w') ->
  exists t, trace w' = trace w ++ t /\ disciplined Idle t.
Proof.
  unfold execute. destruct (currentTime r (env w)) as [now e'].
  intros H.
  apply (loop_trace fuel r (Itoa now) (initLocals r) (setEnv w e') 0 res w');
    [reflexivity|lia|exact H].
Qed.

End Accounting.

Lemma mutation_passes_never_fail_witness :
  exists l' w' u',
    mutateMany Fake.NewUUID Fake.queryRequestPath
      (Fake.executor [] (Fake.answer 503) 0 false) "1700000000"
      [Some (mkResponse 503 ""); None; Some (mkResponse 429 "")]
      (mkLocals 0%nat 0 0 Duration.Second None None None)
      (Fake.world "/queries/v1/query-request" "request_guid=abc&x=%zz" (constRand 1))
    = Ok (l', w')
    /\ urlOf l' = 0%nat
    /\ mem w' = <[0%nat := u']>
                  {[0%nat := mkURL "/queries/v1/query-request" "request_guid=abc&x=%zz"]}
    /\ Path u' = "/queries/v1/query-request"
    /\ mutatorsHold l'
    /\ retryCounter l' = 3.
Proof.
  destruct (mutation_passes_never_fail Fake.NewUUID Fake.queryRequestPath
              (Fake.executor [] (Fake.answer 503) 0 false) "1700000000"
              [Some (mkResponse 503 ""); None; Some (mkResponse 429 "")]
              (mkLocals 0%nat 0 0 Duration.Second None None None)
              (Fake.world "/queries/v1/query-request" "request_guid=abc&x=%zz"
                 (constRand 1))
              (mkURL "/queries/v1/query-request" "request_guid=abc&x=%zz"))
    as (l' & w' & u' & Hrun & Hu & Hm & Hpath & Hheld & Hrc & _).
  - reflexivity.
  - unfold mutatorsHold. simpl. repeat split; intros x Hx; discriminate.
  - exists l', w', u'. split; [exact Hrun|]. split; [exact Hu|].
    split; [exact Hm|]. split; [exact Hpath|]. split; [exact Hheld|exact Hrc].
Defined.


Lemma budget_is_charged_the_sleeps_witness :
  exists l' w',
    turn Fake.NewUUID Fake.queryRequestPath Fake.ErrOCSPStatusRevoked "linux"
      Fake.DurationString
      (Fake.executor [] (Fake.answer 503) (10 * Duration.Second) false)
      "1700000000"
      (initLocals (Fake.executor [] (Fake.answer 503) (10 * Duration.Second) false))
      (Fake.world "/session/heartbeat" "" (constRand 3))
    = Ok (Next l', w')
    /\ retryCounter l' = 1
    /\ sleeps (trace w') = [3 * Duration.Second]
    /\ totalTimeout l' = 7 * Duration.Second.
Proof.
  eexists _, _.
  match goal with
  | |- ?A /\ _ => assert (H : A) by (vm_compute; reflexivity)
  end.
  split; [exact H|].
  destruct (budget_is_charged_the_sleeps _ _ _ _ _ _ _ _ _ _ _ H)
    as (Hrc & Hsl & Hpos & _).
  split; [exact Hrc|]. split; [exact Hsl|].
  destruct Hpos as [Hpos _]; [vm_compute; reflexivity|]. exact Hpos.
Defined.

Lemma calls_are_disciplined_witness :
  exists res w' t,
    Fake.run 3 (Fake.executor [Fake.answer 503; Fake.answer 429] (Fake.answer 200)
                  0 false)
      (Fake.world "/queries/v1/query-request" "request_guid=abc" (constRand 2))
    = Ok (res, w')
    /\ trace w' = [] ++ t /\ disciplined Idle t.
Proof.
  eexists _, _.
  match goal with
  | |- exists t, ?A /\ _ =>
      assert (H : A) by (vm_compute; reflexivity)
  end.
  destruct (calls_are_disciplined _ _ _ _ _ _ _ _ _ _ H) as (t & Ht & Hd).
  exists t. split; [exact H|]. split; [exact Ht|exact Hd].
Defined.

(** ** Calls against a scripted transport *)

Lemma backoff_without_budget {Env : Type} (DurationString : Z -> string)
  (r : @retryHTTP Env) (l : locals) (res : option Response)
  (err : option error) (w : @World Env) (k : Z) :
  sleepTime l = k * Duration.Second -> 0 <= k <= 160 ->
  totalTimeout l <= 0 ->
  exists k' rnd',
    backoff DurationString r l res err w
    = Ok (Next (mkLocals (urlOf l) (totalTimeout l) (retryCounter l)
                  (k' * Duration.Second) (guidReplacer l) (countUpdater l)
                  (reasonUpdater l)),
          mkWorld (mem w) rnd' (env w)
            (trace w ++ [Backoff (k' * Duration.Second)]))
    /\ 0 <= k' <= 160.
Proof.
  intros Hs Hk Hno. unfold backoff. rewrite Hs.
  destruct (decorr_default_seconds (retryCounter l) k (rnd w) Hk)
    as (k' & rnd' & Hd & Hk').
  rewrite Hd, obind_Ok. cbv beta iota.
  destruct (0 <? totalTimeout l) eqn:E; [apply Z.ltb_lt in E; lia|].
  eauto.
Qed.

Lemma scripted_answer (script : list (option Response * option error))
  (final : option Response * option error) (timeout : Z) (raise : bool)
  (i : nat) (l : locals) (w : @World Fake.env) (u : URL) :
  Fake.sends (env w) = i ->
  mem w !! urlOf l = Some u ->
  transportAnswers (Fake.executor script final timeout raise) l w u
    (nth i script final).1 (nth i script final).2
    (Fake.mkEnv (S i) (Fake.ids (env w))).
Proof.
  intros Hi Hp.
  exists EmptyString, (env w), (mkRequest "POST" u EmptyString ∅), (env w).
  split; [reflexivity|]. split; [exact Hp|]. split; [reflexivity|].
  simpl. unfold Fake.transport. rewrite Hi.
  destruct (nth i script final) as [res err]. reflexivity.
Qed.

(** A turn on an answer that is retried: one more request, one more
    sleep, and the call stays in a scripted state. *)
Lemma scripted_turn_retries (script : list (option Response * option error))
  (final : option Response * option error) (clientStartTime : string)
  (i : nat) (l : locals) (w : @World Fake.env) (code : Z) :
  scripted i l w ->
  nth i script final = Fake.answer code ->
  code <> StatusOK ->
  exists l' w',
    turn Fake.NewUUID Fake.queryRequestPath Fake.ErrOCSPStatusRevoked "linux"
      Fake.DurationString (Fake.executor script final 0 false)
      clientStartTime l w = Ok (Next l', w')
    /\ scripted (S i) l' w'
    /\ sentCount (trace w') = S (sentCount (trace w))
    /\ length (sleeps (trace w')) = S (length (sleeps (trace w))).
Proof.
  intros (Hi & (u & Hp) & Hheld & (k & Hs & Hk) & Hno) Hnth Hcode.
  pose proof (scripted_answer script final 0 false i l w u Hi Hp) as Hans.
  rewrite Hnth in Hans. cbn [fst snd Fake.answer] in Hans.
  pose proof (attempt_response Fake.ErrOCSPStatusRevoked "linux" _ _ _ _ _ _ Hans)
    as Ha.
  cbn [raise4XX Fake.executor StatusCode andb] in Ha.
  apply Z.eqb_neq in Hcode. rewrite Hcode in Ha. cbn [orb] in Ha.
  unfold turn. rewrite Ha, obind_Ok.
  set (w1 := emit (setEnv w (Fake.mkEnv (S i) (Fake.ids (env w)))) (Sent u)).
  destruct (backoff_without_budget Fake.DurationString
              (Fake.executor script final 0 false) l
              (Some (mkResponse code "")) None w1 k Hs Hk Hno)
    as (k' & rnd' & Hb & Hk').
  rewrite Hb, obind_Ok.
  set (l2 := mkLocals (urlOf l) (totalTimeout l) (retryCounter l)
               (k' * Duration.Second) (guidReplacer l) (countUpdater l)
               (reasonUpdater l)).
  set (w2 := mkWorld (mem w1) rnd' (env w1)
               (trace w1 ++ [Backoff (k' * Duration.Second)])).
  destruct (mutate_held Fake.NewUUID Fake.queryRequestPath
              (Fake.executor script final 0 false) clientStartTime l2
              (Some (mkResponse code "")) w2 u Hp Hheld)
    as (l3 & w3 & u3 & Hmut & Hu3 & Hm3 & _ & Hheld3 & _ & Htt3 & Hs3 & _ & Henv).
  rewrite Hmut, obind_Ok. unfold await. cbn [awaitOrDone Fake.executor].
  eexists _, _. split; [reflexivity|].
  cbn [trace emit setEnv env mem]. split.
  - unfold scripted. cbn [env mem emit setEnv].
    split.
    { destruct Henv as [[-> _] | [-> _]]; reflexivity. }
    split; [exists u3; rewrite Hm3, Hu3; apply lookup_insert_eq|].
    split; [exact Hheld3|].
    split; [exists k'; rewrite Hs3; auto|].
    rewrite Htt3. exact Hno.
  - destruct Henv as [[_ ->] | [_ ->]]; unfold w2, w1;
      cbn [trace emit setEnv];
      rewrite ?sentCount_app, ?sleeps_app, ?length_app; simpl; split; lia.
Qed.

(** X21: the scripted transport answers with any statuses other than
    200 and then with 200; no budget is set, raise4XX is off and the
    context is never done. Whatever the URL and the draws, the call
    returns the 200 response without error after exactly one request per
    scripted answer plus one, and one sleep per scripted answer. *)
Theorem failures_then_success (codes : list Z) (path query : string)
  (rnd0 : Rand) :
  Forall (fun code => code <> StatusOK) codes ->
  exists w',
    Fake.run (S (length codes))
      (Fake.executor (map Fake.answer codes) (Fake.answer 200) 0 false)
      (Fake.world path query rnd0)
    = Ok (Some (Some (mkResponse 200 ""), None), w')
    /\ sentCount (trace w') = S (length codes)
    /\ length (sleeps (trace w')) = length codes.
Proof.
  intros Hcodes. unfold Fake.run, execute. cbn [currentTime Fake.executor].
  fold (Fake.executor (map Fake.answer codes) (Fake.answer 200) 0 false).
  set (x := Fake.executor (map Fake.answer codes) (Fake.answer 200) 0 false).
  assert (Hgen : forall (rest done : list Z) l w,
    codes = done ++ rest ->
    scripted (length done) l w ->
    exists w',
      loop Fake.NewUUID Fake.queryRequestPath Fake.ErrOCSPStatusRevoked "linux"
        Fake.DurationString (S (length rest)) x (Itoa 1700000000) l w
      = Ok (Some (Some (mkResponse 200 ""), None), w')
      /\ sentCount (trace w') = (sentCount (trace w) + S (length rest))%nat
      /\ length (sleeps (trace w'))
         = (length (sleeps (trace w)) + length rest)%nat).
  { induction rest as [|code rest IH]; intros done l w Hsplit Hsc.
    - rewrite app_nil_r in Hsplit. subst done.
      destruct Hsc as (Hi & (u & Hp) & _).
      pose proof (scripted_answer (map Fake.answer codes) (Fake.answer 200)
                    0 false (length codes) l w u Hi Hp) as Hans.
      rewrite nth_overflow in Hans by (rewrite length_map; lia).
      cbn [fst snd Fake.answer] in Hans.
      cbn [loop length]. unfold turn, x.
      rewrite (attempt_response Fake.ErrOCSPStatusRevoked "linux" _ _ _ _ _ _ Hans).
      cbn [StatusCode]. rewrite Z.eqb_refl. cbn [orb]. rewrite obind_Ok.
      eexists. split; [reflexivity|]. cbn [trace emit setEnv].
      rewrite sentCount_app, sleeps_app, length_app. simpl. lia.
    - assert (Hnth : nth (length done) (map Fake.answer codes) (Fake.answer 200)
                     = Fake.answer code).
      { rewrite Hsplit, map_app, app_nth2 by (rewrite length_map; lia).
        rewrite length_map, Nat.sub_diag. reflexivity. }
      assert (Hcode : code <> StatusOK).
      { rewrite Hsplit in Hcodes. apply Forall_app in Hcodes as [_ Hc].
        apply Forall_cons in Hc as [Hc _]. exact Hc. }
      destruct (scripted_turn_retries _ _ (Itoa 1700000000) _ l w code
                  Hsc Hnth Hcode) as (l' & w1 & Hturn & Hsc' & Hsent & Hsl).
      cbn [loop]. fold x in Hturn. rewrite Hturn, obind_Ok.
      destruct (IH (done ++ [code]) l' w1) as (w' & Hrun & Hsent' & Hsl').
      + rewrite <- app_assoc. exact Hsplit.
      + rewrite length_app. simpl. rewrite Nat.add_1_r. exact Hsc'.
      + exists w'. split; [exact Hrun|]. cbn [length]. lia. }
  destruct (Hgen codes [] (initLocals x)
              (setEnv (Fake.world path query rnd0) (Fake.mkEnv 0 0)) eq_refl)
    as (w' & Hrun & Hsent & Hsl).
  - unfold scripted. cbn [env setEnv length]. split; [reflexivity|].
    split; [exists (mkURL path query); reflexivity|].
    split; [unfold mutatorsHold; simpl; repeat split; intros y Hy; discriminate|].
    split; [exists 0; simpl; lia|]. simpl. lia.
  - exists w'. split; [exact Hrun|]. simpl in Hsent, Hsl. lia.
Qed.

Lemma failures_then_success_witness :
  exists w',
    Fake.run 3 (Fake.executor [Fake.answer 503; Fake.answer 503] (Fake.answer 200)
                  0 false)
      (Fake.world "/queries/v1/query-request" "requestId=1" (constRand 4))
    = Ok (Some (Some (mkResponse 200 ""), None), w')
    /\ sentCount (trace w') = 3%nat
    /\ length (sleeps (trace w')) = 2%nat.
Proof.
  apply (failures_then_success [503; 503] "/queries/v1/query-request"
           "requestId=1" (constRand 4)).
  repeat constructor; discriminate.
Defined.

(** X22: without a budget and with a context that is never done, the
    call never gives up on a transport that keeps answering with a status
    other than 200: after any number of turns it is still retrying, one
    request and one sleep per turn. *)
Theorem no_budget_no_end (fuel : nat) (code : Z) (path query : string)
  (rnd0 : Rand) :
  code <> StatusOK ->
  exists w',
    Fake.run fuel (Fake.executor [] (Fake.answer code) 0 false)
      (Fake.world path query rnd0)
    = Ok (None, w')
    /\ sentCount (trace w') = fuel
    /\ length (sleeps (trace w')) = fuel.
Proof.
  intros Hcode. unfold Fake.run, execute. cbn [currentTime Fake.executor].
  fold (Fake.executor [] (Fake.answer code) 0 false).
  set (x := Fake.executor [] (Fake.answer code) 0 false).
  assert (Hgen : forall (n i : nat) l w,
    scripted i l w ->
    exists w',
      loop Fake.NewUUID Fake.queryRequestPath Fake.ErrOCSPStatusRevoked "linux"
        Fake.DurationString n x (Itoa 1700000000) l w = Ok (None, w')
      /\ sentCount (trace w') = (sentCount (trace w) + n)%nat
      /\ length (sleeps (trace w')) = (length (sleeps (trace w)) + n)%nat).
  { induction n as [|n IH]; intros i l w Hsc.
    - exists w. simpl. split; [reflexivity|]. lia.
    - assert (Hnth : nth i [] (Fake.answer code) = Fake.answer code)
        by (destruct i; reflexivity).
      destruct (scripted_turn_retries [] (Fake.answer code) (Itoa 1700000000)
                  i l w code Hsc Hnth Hcode)
        as (l' & w1 & Hturn & Hsc' & Hsent & Hsl).
      cbn [loop]. fold x in Hturn. rewrite Hturn, obind_Ok.
      destruct (IH (S i) l' w1 Hsc') as (w' & Hrun & Hsent' & Hsl').
      exists w'. split; [exact Hrun|]. lia. }
  destruct (Hgen fuel 0%nat (initLocals x)
              (setEnv (Fake.world path query rnd0) (Fake.mkEnv 0 0)))
    as (w' & Hrun & Hsent & Hsl).
  - unfold scripted. cbn [env setEnv]. split; [reflexivity|].
    split; [exists (mkURL path query); reflexivity|].
    split; [unfold mutatorsHold; simpl; repeat split; intros y Hy; discriminate|].
    split; [exists 0; simpl; lia|]. simpl. lia.
  - exists w'. split; [exact Hrun|]. simpl in Hsent, Hsl. lia.
Qed.

Lemma no_budget_no_end_witness :
  exists w',
    Fake.run 6 (Fake.executor [] (Fake.answer 500) 0 false)
      (Fake.world "/session/heartbeat" "" (constRand 0))
    = Ok (None, w')
    /\ sentCount (trace w') = 6%nat
    /\ length (sleeps (trace w')) = 6%nat.
Proof.
  apply (no_budget_no_end 6 500 "/session/heartbeat" "" (constRand 0)).
  discriminate.
Defined.

(** ** Cancellation *)

Section Cancellation.

Context {Env : Type}.
Variable NewUUID : Env -> string * Env.
Variable queryRequestPath : string.
Variable ErrOCSPStatusRevoked : Z.
Variable GOOS : string.
Variable DurationString : Z -> string.

Implicit Types (r : @retryHTTP Env) (l : locals) (w : @World Env).


End Cancellation.

